(** * Customer-service automation: classification-and-routing pipeline

    A shallow embedding of [server/services/auto-responder.ts] and
    [server/services/vector-embeddings-proper.ts], with the properties the
    specification states about them.

    Conventions of the embedding.
    - An [async] method that talks to a collaborator (classifier, sentiment
      analysis, content safety, mail delivery, embeddings) receives the
      collaborator as an oracle whose answer is an [Outcome]: either the
      value it resolves to or the exception it rejects with.
    - The persistent store is an explicit record threaded through a
      state-and-exception monad [M]; [try { } catch { }] is [tryCatch].
      The [storage] methods themselves are total operations on that
      record.  Of a stored email the model keeps the columns the pipeline
      writes and [metadata.messageId]; timestamps are left out.
    - Strings are ASCII: [toLowerCase] and the [i] flag of a regular
      expression fold the letters A-Z only.
    - Confidence values and sentiment scores are integers on the 0..100
      scale ([Z]); embedding vectors are IEEE-754 binary64 numbers
      ([float]), which is what a JavaScript [number] is; similarity scores
      that are only compared, sorted and filtered are rationals ([Q]). *)

From Stdlib Require Import ZArith QArith List String Ascii Bool Lia.
From Stdlib Require Import DecimalString Sorted Lqa.
From Stdlib Require Import Floats.PrimFloat.
Import ListNotations.

Set Warnings "-register-all".

Open Scope string_scope.
Open Scope Z_scope.

(** ** JavaScript preliminaries *)

(** The result of awaiting a promise: fulfilled with a value, or rejected. *)
Inductive Outcome (A : Type) : Type :=
| Returns (a : A)
| Throws (e : string).
Arguments Returns {A} a.
Arguments Throws {A} e.

Module JsString.

(** [c.toLowerCase()] on one ASCII character. *)
Definition lowerAscii (c : ascii) : ascii :=
  let n := nat_of_ascii c in
  if (Nat.leb 65 n && Nat.leb n 90)%bool then ascii_of_nat (n + 32) else c.

(** [s.toLowerCase()]. *)
Fixpoint toLowerCase (s : string) : string :=
  match s with
  | EmptyString => EmptyString
  | String c s' => String (lowerAscii c) (toLowerCase s')
  end.

(** [s.startsWith(p)]. *)
Fixpoint startsWith (p s : string) : bool :=
  match p, s with
  | EmptyString, _ => true
  | String _ _, EmptyString => false
  | String a p', String b s' => (Ascii.eqb a b && startsWith p' s')%bool
  end.

(** [s.includes(p)]. *)
Fixpoint includes (p s : string) : bool :=
  match s with
  | EmptyString => startsWith p EmptyString
  | String _ s' => (startsWith p s || includes p s')%bool
  end.

(** [s.endsWith(p)]. *)
Fixpoint endsWith (p s : string) : bool :=
  match s with
  | EmptyString => String.eqb p EmptyString
  | String _ s' => (String.eqb p s || endsWith p s')%bool
  end.

(** Does character [c] occur in [s]? *)
Fixpoint occurs (c : ascii) (s : string) : bool :=
  match s with
  | EmptyString => false
  | String d s' => (Ascii.eqb c d || occurs c s')%bool
  end.

(** The text a template literal [`${n}`] produces for an integer. *)
Definition ofZ (n : Z) : string := NilZero.string_of_int (Z.to_int n).

(** [s.length > 0], the truthiness of a string. *)
Definition truthy (s : string) : bool :=
  match s with EmptyString => false | String _ _ => true end.

End JsString.

(** ** vector-embeddings-proper.ts *)

Module VectorEmbeddings.

Open Scope float_scope.

(** The body of the [for] loop of [calculateCosineSimilarity]: the three
    accumulators [dotProduct], [normA], [normB], advanced index by
    index.  It is run only on vectors of equal length. *)
Fixpoint cosineLoop (vectorA vectorB : list float) (acc : float * float * float)
  : float * float * float :=
  match vectorA, vectorB with
  | x :: restA, y :: restB =>
      let '(dotProduct, normA, normB) := acc in
      cosineLoop restA restB (dotProduct + x * y, normA + x * x, normB + y * y)
  | _, _ => acc
  end.

Definition calculateCosineSimilarity (vectorA vectorB : list float) : Outcome float :=
  if negb (Nat.eqb (List.length vectorA) (List.length vectorB)) then
    Throws "Vector dimensions must match"
  else
    let '(dotProduct, normA, normB) := cosineLoop vectorA vectorB (0, 0, 0) in
    let normA := sqrt normA in
    let normB := sqrt normB in
    if (PrimFloat.eqb normA 0 || PrimFloat.eqb normB 0)%bool then Returns 0
    else Returns (dotProduct / (normA * normB)).

(** Specification vocabulary: the Euclidean norm and the dot product as
    the loop accumulates them, left to right from zero. *)
Definition sumSquares (v : list float) : float :=
  fold_left (fun acc x => acc + x * x) v 0.

Definition norm (v : list float) : float := sqrt (sumSquares v).

Fixpoint dotFrom (acc : float) (a b : list float) : float :=
  match a, b with
  | x :: a', y :: b' => dotFrom (acc + x * y) a' b'
  | _, _ => acc
  end.

Definition dot (a b : list float) : float := dotFrom 0 a b.

(** A vector all of whose components are zero (of either sign). *)
Definition isZeroVector (v : list float) : Prop :=
  Forall (fun x => x = 0 \/ x = -0) v.

Close Scope float_scope.
Open Scope Q_scope.

(** Similarity scores inside [semanticSearch] are only compared with
    each other and with a threshold, sorted and filtered.  They are
    modelled as exact rationals, and the decimal literals of the source
    denote their decimal value. *)

Module Thresholds.
Record t := { HIGH_QUALITY : Q; BALANCED : Q; EXPLORATORY : Q }.
End Thresholds.

Definition SIMILARITY_THRESHOLDS : Thresholds.t :=
  {| Thresholds.HIGH_QUALITY := 75 # 100;
     Thresholds.BALANCED := 70 # 100;
     Thresholds.EXPLORATORY := 65 # 100 |}.

(** ['high' | 'balanced' | 'exploratory'] *)
Inductive QualityLevel := high | balanced | exploratory.


Module TrainingUrl.
Record t := { url : string; status : string; crawledContent : option string }.
End TrainingUrl.

Module SearchResult.
Record t := { content : string; url : string; similarity : Q; chunk : option string }.
End SearchResult.

Module SearchResponse.
Record t := { results : list SearchResult.t; threshold : Q; totalSources : nat }.
End SearchResponse.

(** [Array.prototype.sort(compareFn)]: a stable sort; [a] is placed after
    [b] exactly when [compareFn a b > 0]. *)
Fixpoint sortInsert {A} (compareFn : A -> A -> Q) (x : A) (l : list A) : list A :=
  match l with
  | [] => [x]
  | y :: l' =>
      if Qle_bool (compareFn x y) 0 then x :: y :: l'
      else y :: sortInsert compareFn x l'
  end.

Definition sort {A} (compareFn : A -> A -> Q) (l : list A) : list A :=
  fold_right (sortInsert compareFn) [] l.

(** The comparator [(a, b) => b.similarity - a.similarity]. *)
Definition bySimilarityDesc (a b : SearchResult.t) : Q :=
  SearchResult.similarity b - SearchResult.similarity a.


Section SemanticSearch.

(** [storage.getTrainingUrls(userId)]; the result may be [null]. *)
Variable getTrainingUrls : string -> Outcome (option (list TrainingUrl.t)).
(** [generateEmbedding(query)]: only its success matters below. *)
Variable generateQueryEmbedding : string -> Outcome unit.
(** [calculateCosineSimilarity(queryEmbedding, await generateEmbedding(chunk))],
    which throws when the embedding call fails or the dimensions differ.
    This is the score as the run at hand computes it: the embeddings go
    through the cache of [generateEmbedding], so another run may score the
    same chunk differently.  [EmbeddingService.semanticSearchWithCache]
    models the cache, for statements that compare runs. *)
Variable similarityToQuery : string -> string -> Outcome Q.
(** [chunkContent(content)] with its default window and overlap. *)
Variable chunkContent : string -> list string.

Definition thresholdOf (qualityLevel : QualityLevel) : Q :=
  match qualityLevel with
  | high => Thresholds.HIGH_QUALITY SIMILARITY_THRESHOLDS
  | exploratory => Thresholds.EXPLORATORY SIMILARITY_THRESHOLDS
  | balanced => Thresholds.BALANCED SIMILARITY_THRESHOLDS
  end.

(** The filter that selects [completedUrls]. *)
Definition isCompleted (u : TrainingUrl.t) : bool :=
  (String.eqb (TrainingUrl.status u) "completed" &&
   match TrainingUrl.crawledContent u with
   | None => false
   | Some c => JsString.truthy c && Nat.ltb 100 (String.length c)
   end)%bool.

(** The inner loop over the chunks of one source: the running
    [bestSimilarity] and [bestChunk]. *)
Fixpoint bestMatch (query : string) (chunks : list string) (best : Q * string)
  : Outcome (Q * string) :=
  match chunks with
  | [] => Returns best
  | chunk :: rest =>
      match similarityToQuery query chunk with
      | Throws e => Throws e
      | Returns similarity =>
          bestMatch query rest
            (if negb (Qle_bool similarity (fst best)) then (similarity, chunk) else best)
      end
  end.

Definition chunksOf (crawledContent : string) : list string :=
  if Nat.ltb 1000 (String.length crawledContent) then chunkContent crawledContent
  else [crawledContent].

(** One iteration of the loop over [completedUrls]: the entry pushed
    onto [results], if any.  An exception inside the iteration is caught
    and the source skipped. *)
Definition processSource (query : string) (threshold : Q) (urlData : TrainingUrl.t)
  : option SearchResult.t :=
  match TrainingUrl.crawledContent urlData with
  | None => None
  | Some crawledContent =>
      if negb (JsString.truthy crawledContent) then None else
      match bestMatch query (chunksOf crawledContent) (0, "") with
      | Throws _ => None
      | Returns (bestSimilarity, bestChunk) =>
          if Qle_bool threshold bestSimilarity then
            Some {| SearchResult.content := crawledContent;
                    SearchResult.url := TrainingUrl.url urlData;
                    SearchResult.similarity := bestSimilarity;
                    SearchResult.chunk :=
                      if String.eqb bestChunk crawledContent then None
                      else Some bestChunk |}
          else None
      end
  end.

Fixpoint collect (query : string) (threshold : Q) (completedUrls : list TrainingUrl.t)
  : list SearchResult.t :=
  match completedUrls with
  | [] => []
  | urlData :: rest =>
      match processSource query threshold urlData with
      | Some r => r :: collect query threshold rest
      | None => collect query threshold rest
      end
  end.

Definition noResults (threshold : Q) : SearchResponse.t :=
  {| SearchResponse.results := [];
     SearchResponse.threshold := threshold;
     SearchResponse.totalSources := 0 |}.

Definition semanticSearch (userId query : string) (qualityLevel : QualityLevel)
  : SearchResponse.t :=
  let threshold := thresholdOf qualityLevel in
  match getTrainingUrls userId with
  | Throws _ => noResults threshold
  | Returns None => noResults threshold
  | Returns (Some trainingUrls) =>
      if Nat.eqb (List.length trainingUrls) 0 then noResults threshold else
      let completedUrls := filter isCompleted trainingUrls in
      if Nat.eqb (List.length completedUrls) 0 then noResults threshold else
      match generateQueryEmbedding query with
      | Throws _ => noResults threshold
      | Returns _ =>
          let results := collect query threshold completedUrls in
          let results := sort bySimilarityDesc results in
          {| SearchResponse.results := firstn 5 results;
             SearchResponse.threshold := threshold;
             SearchResponse.totalSources := List.length completedUrls |}
      end
  end.


End SemanticSearch.







Close Scope Q_scope.

End VectorEmbeddings.

(** ** auto-responder.ts: data model *)

Module AutoResponder.

(** ['low' | 'medium' | 'high' | 'urgent'] *)
Inductive Priority := low | medium | high | urgent.

Module ClassificationResult.
Record t := {
  classification : string;
  confidence : Z;
  reasoning : string;
  priority : option Priority;
  priorityReasoning : option string }.
End ClassificationResult.

Module ProcessedEmail.
Record t := {
  id : nat;
  classification : string;
  confidence : Z;
  autoResponseSent : bool;
  escalated : bool;
  ruleUsed : option string;
  awaitingApproval : option bool }.
End ProcessedEmail.

(** The [emailData] argument of [processIncomingEmail]. *)
Module EmailData.
Record t := {
  fromEmail : string;
  toEmail : string;
  subject : string;
  body : string;
  messageId : option string }.
End EmailData.

(** What [sentimentAnalysisService.analyzeSentiment] resolves to, as far as
    this file reads it: [sentiment], [scores.negative], [confidence]. *)
Module SentimentResult.
Record t := {
  sentiment : string;
  negative : option Z;
  confidence : option Z }.
End SentimentResult.

(** The object [JSON.parse] yields for a completion whose fields have the
    types the prompt asks for: strings, an integer [confidence] and one of
    the four priorities; an absent field is [None].  A [confidence] of
    another type, such as the string "high", makes [classifyEmail] return
    [NaN]; such completions are outside this model. *)
Module Completion.
Record t := {
  classification : option string;
  confidence : option Z;
  reasoning : option string;
  priority : option Priority;
  priorityReasoning : option string }.
End Completion.

Module ResponseData.
Record t := { response : string; adjustedConfidence : Z }.
End ResponseData.

Module SafetyValidation.
Record t := { approved : bool; blockReason : option string }.
End SafetyValidation.

Module EnhancedResult.
Record t := { success : bool; shouldEscalate : bool }.
End EnhancedResult.

Module OutgoingEmail.
Record t := { to : string; subject : string; html : string }.
End OutgoingEmail.

(** *** Stored records *)

(** The values the [status] column of a stored email takes in this file. *)
Inductive Status := processing | awaiting_approval | resolved | escalated.

Module Email.
Record t := {
  id : nat;
  userId : string;
  fromEmail : string;
  toEmail : string;
  subject : string;
  body : string;
  status : Status;
  classification : option string;
  confidence : option Z;
  messageId : option string;          (* metadata.messageId *)
  escalationReason : option string;
  isResponded : bool;
  aiResponse : option string }.
End Email.

Module Rule.
Record t := {
  id : nat;
  userId : string;
  name : string;
  classification : string;
  isActive : bool;
  template : string;
  triggerCount : Z }.
End Rule.

Module Settings.
Record t := {
  userId : string;
  automationApprovalRequired : option bool }.
End Settings.

Module EscalationItem.
Record t := {
  emailId : nat;
  userId : string;
  priority : Priority;
  reason : string }.
End EscalationItem.

Module ApprovalItem.
Record t := {
  userId : string;
  emailId : nat;
  ruleId : nat;
  customerEmail : string;
  classification : string;
  confidence : Z;
  proposedResponse : string }.
End ApprovalItem.

Module ActivityLog.
Record t := {
  userId : string;
  action : string;
  type : string;
  executedBy : string;
  customerEmail : string;
  details : string;
  status : string }.
End ActivityLog.

(** The persistent store behind [storage], plus the mailbox the delivery
    channel writes to.  Tables list their rows newest first. *)
Module Store.
Record t := {
  emails : list Email.t;
  escalationQueue : list EscalationItem.t;
  approvalQueue : list ApprovalItem.t;
  activityLogs : list ActivityLog.t;
  rules : list Rule.t;
  settings : list Settings.t;
  deliveryAttempts : list (string * OutgoingEmail.t);
  nextEmailId : nat }.
End Store.

(** *** The collaborators of [AutoResponderService] *)
Module Services.
Record t := {
  (* ThreadContextService.linkEmailToThread(emailId, subject, from, to) *)
  linkEmailToThread : nat -> string -> string -> string -> Outcome unit;
  (* hallucinationPreventionService.classifyWithGrounding(userId, content, subject) *)
  classifyWithGrounding : string -> string -> string -> Outcome ClassificationResult.t;
  (* openai.chat.completions.create on the prompt built from (content, subject),
     then JSON.parse of the first choice *)
  chatCompletion : string -> string -> Outcome Completion.t;
  (* sentimentAnalysisService.analyzeSentiment(body) *)
  analyzeSentiment : string -> Outcome SentimentResult.t;
  (* the [try] block of generateProposedResponse: context, empathetic
     generator and signature, for (rule, emailData, userId); the block reads
     the thread context, which linkEmailToThread writes, so its answer is the
     one it gives after the thread link of the run at hand *)
  composeEmpatheticResponse : Rule.t -> EmailData.t -> string -> Outcome ResponseData.t;
  (* contentSafetyService.validateResponse(content, userId) *)
  validateResponse : string -> string -> Outcome SafetyValidation.t;
  (* emailRoutingService.sendEmail(userId, mail) *)
  sendEmail : string -> OutgoingEmail.t -> Outcome bool;
  (* enhancedPromoRefundService.processEnhancedPromoRefund(emailId, from, subject, body, userId) *)
  processEnhancedPromoRefund : nat -> EmailData.t -> string -> Outcome EnhancedResult.t;
  (* promoRefundService.processPromoRefund(emailId, from, userId, rule) *)
  processPromoRefund : nat -> string -> string -> Rule.t -> Outcome bool;
  (* orderCancellationService.initiateCancellationWorkflow(...).success *)
  initiateCancellationWorkflow : string -> nat -> EmailData.t -> Outcome bool;
  (* addressChangeService.initiateAddressChangeWorkflow(...).success *)
  initiateAddressChangeWorkflow : string -> nat -> EmailData.t -> Outcome bool }.
End Services.

(** *** The monad of [async] methods: store passing with exceptions *)

Definition M (A : Type) : Type := Store.t -> Outcome A * Store.t.

Definition ret {A} (a : A) : M A := fun s => (Returns a, s).

Definition bind {A B} (m : M A) (k : A -> M B) : M B :=
  fun s => match m s with
           | (Returns a, s') => k a s'
           | (Throws e, s') => (Throws e, s')
           end.

Definition throw {A} (e : string) : M A := fun s => (Throws e, s).

(** [await] of a collaborator's promise. *)
Definition await {A} (o : Outcome A) : M A := fun s => (o, s).

(** [try { m } catch (error) { handler error }] *)
Definition tryCatch {A} (m : M A) (handler : string -> M A) : M A :=
  fun s => match m s with
           | (Returns a, s') => (Returns a, s')
           | (Throws e, s') => handler e s'
           end.

Declare Scope js_scope.
Delimit Scope js_scope with js.
Notation "x <- m ;; k" := (bind m (fun x => k))
  (at level 100, m at next level, right associativity) : js_scope.
Notation "m ;; k" := (bind m (fun _ => k))
  (at level 100, right associativity) : js_scope.
Open Scope js_scope.

(** *** [storage] *)

Definition setEmails (emails : list Email.t) (s : Store.t) : Store.t :=
  {| Store.emails := emails;
     Store.escalationQueue := Store.escalationQueue s;
     Store.approvalQueue := Store.approvalQueue s;
     Store.activityLogs := Store.activityLogs s;
     Store.rules := Store.rules s;
     Store.settings := Store.settings s;
     Store.deliveryAttempts := Store.deliveryAttempts s;
     Store.nextEmailId := Store.nextEmailId s |}.

Definition createEmail (userId : string) (emailData : EmailData.t) (status : Status)
  : M Email.t :=
  fun s =>
    let email :=
      {| Email.id := Store.nextEmailId s;
         Email.userId := userId;
         Email.fromEmail := EmailData.fromEmail emailData;
         Email.toEmail := EmailData.toEmail emailData;
         Email.subject := EmailData.subject emailData;
         Email.body := EmailData.body emailData;
         Email.status := status;
         Email.classification := None;
         Email.confidence := None;
         Email.messageId := EmailData.messageId emailData;
         Email.escalationReason := None;
         Email.isResponded := false;
         Email.aiResponse := None |} in
    (Returns email,
     {| Store.emails := email :: Store.emails s;
        Store.escalationQueue := Store.escalationQueue s;
        Store.approvalQueue := Store.approvalQueue s;
        Store.activityLogs := Store.activityLogs s;
        Store.rules := Store.rules s;
        Store.settings := Store.settings s;
        Store.deliveryAttempts := Store.deliveryAttempts s;
        Store.nextEmailId := S (Store.nextEmailId s) |}).

(** [storage.updateEmail(id, patch)]: the patch is applied to the row with
    that id. *)
Definition updateEmail (id : nat) (patch : Email.t -> Email.t) : M unit :=
  fun s =>
    (Returns tt,
     setEmails (map (fun e => if Nat.eqb (Email.id e) id then patch e else e)
                    (Store.emails s)) s).

(** The patches [processIncomingEmail] and [escalateEmail] apply. *)
Definition patchClassification (classification : string) (confidence : Z) (e : Email.t)
  : Email.t :=
  {| Email.id := Email.id e; Email.userId := Email.userId e;
     Email.fromEmail := Email.fromEmail e; Email.toEmail := Email.toEmail e;
     Email.subject := Email.subject e; Email.body := Email.body e;
     Email.status := Email.status e;
     Email.classification := Some classification;
     Email.confidence := Some confidence;
     Email.messageId := Email.messageId e;
     Email.escalationReason := Email.escalationReason e;
     Email.isResponded := Email.isResponded e;
     Email.aiResponse := Email.aiResponse e |}.

Definition patchStatus (status : Status) (e : Email.t) : Email.t :=
  {| Email.id := Email.id e; Email.userId := Email.userId e;
     Email.fromEmail := Email.fromEmail e; Email.toEmail := Email.toEmail e;
     Email.subject := Email.subject e; Email.body := Email.body e;
     Email.status := status;
     Email.classification := Email.classification e;
     Email.confidence := Email.confidence e;
     Email.messageId := Email.messageId e;
     Email.escalationReason := Email.escalationReason e;
     Email.isResponded := Email.isResponded e;
     Email.aiResponse := Email.aiResponse e |}.

Definition patchEscalated (escalationReason : string) (e : Email.t) : Email.t :=
  {| Email.id := Email.id e; Email.userId := Email.userId e;
     Email.fromEmail := Email.fromEmail e; Email.toEmail := Email.toEmail e;
     Email.subject := Email.subject e; Email.body := Email.body e;
     Email.status := escalated;
     Email.classification := Email.classification e;
     Email.confidence := Email.confidence e;
     Email.messageId := Email.messageId e;
     Email.escalationReason := Some escalationReason;
     Email.isResponded := Email.isResponded e;
     Email.aiResponse := Email.aiResponse e |}.

Definition patchResolved (aiResponse : string) (e : Email.t) : Email.t :=
  {| Email.id := Email.id e; Email.userId := Email.userId e;
     Email.fromEmail := Email.fromEmail e; Email.toEmail := Email.toEmail e;
     Email.subject := Email.subject e; Email.body := Email.body e;
     Email.status := resolved;
     Email.classification := Email.classification e;
     Email.confidence := Email.confidence e;
     Email.messageId := Email.messageId e;
     Email.escalationReason := Email.escalationReason e;
     Email.isResponded := true;
     Email.aiResponse := Some aiResponse |}.

Definition createEscalationQueue (item : EscalationItem.t) : M unit :=
  fun s =>
    (Returns tt,
     {| Store.emails := Store.emails s;
        Store.escalationQueue := item :: Store.escalationQueue s;
        Store.approvalQueue := Store.approvalQueue s;
        Store.activityLogs := Store.activityLogs s;
        Store.rules := Store.rules s;
        Store.settings := Store.settings s;
        Store.deliveryAttempts := Store.deliveryAttempts s;
        Store.nextEmailId := Store.nextEmailId s |}).

Definition createAutomationApprovalItem (item : ApprovalItem.t) : M unit :=
  fun s =>
    (Returns tt,
     {| Store.emails := Store.emails s;
        Store.escalationQueue := Store.escalationQueue s;
        Store.approvalQueue := item :: Store.approvalQueue s;
        Store.activityLogs := Store.activityLogs s;
        Store.rules := Store.rules s;
        Store.settings := Store.settings s;
        Store.deliveryAttempts := Store.deliveryAttempts s;
        Store.nextEmailId := Store.nextEmailId s |}).

Definition createActivityLog (entry : ActivityLog.t) : M unit :=
  fun s =>
    (Returns tt,
     {| Store.emails := Store.emails s;
        Store.escalationQueue := Store.escalationQueue s;
        Store.approvalQueue := Store.approvalQueue s;
        Store.activityLogs := entry :: Store.activityLogs s;
        Store.rules := Store.rules s;
        Store.settings := Store.settings s;
        Store.deliveryAttempts := Store.deliveryAttempts s;
        Store.nextEmailId := Store.nextEmailId s |}).

Definition getAutoResponderRules (userId : string) : M (list Rule.t) :=
  fun s => (Returns (filter (fun r => String.eqb (Rule.userId r) userId) (Store.rules s)), s).

(** [storage.updateAutoResponderRule(id, { triggerCount: n, ... })] *)
Definition updateAutoResponderRule (id : nat) (triggerCount : Z) : M unit :=
  fun s =>
    (Returns tt,
     {| Store.emails := Store.emails s;
        Store.escalationQueue := Store.escalationQueue s;
        Store.approvalQueue := Store.approvalQueue s;
        Store.activityLogs := Store.activityLogs s;
        Store.rules :=
          map (fun r =>
                 if Nat.eqb (Rule.id r) id then
                   {| Rule.id := Rule.id r; Rule.userId := Rule.userId r;
                      Rule.name := Rule.name r;
                      Rule.classification := Rule.classification r;
                      Rule.isActive := Rule.isActive r;
                      Rule.template := Rule.template r;
                      Rule.triggerCount := triggerCount |}
                 else r)
              (Store.rules s);
        Store.settings := Store.settings s;
        Store.deliveryAttempts := Store.deliveryAttempts s;
        Store.nextEmailId := Store.nextEmailId s |}).

(** [storage.getSystemSettings(userId)], [undefined] when there is none. *)
Definition getSystemSettings (userId : string) : M (option Settings.t) :=
  fun s =>
    (Returns (find (fun x => String.eqb (Settings.userId x) userId) (Store.settings s)), s).

(** [emailRoutingService.sendEmail(userId, mail)]: the attempt reaches the
    delivery channel, whatever the channel then answers. *)
Definition sendEmail (svc : Services.t) (userId : string) (mail : OutgoingEmail.t) : M bool :=
  fun s =>
    (Services.sendEmail svc userId mail,
     {| Store.emails := Store.emails s;
        Store.escalationQueue := Store.escalationQueue s;
        Store.approvalQueue := Store.approvalQueue s;
        Store.activityLogs := Store.activityLogs s;
        Store.rules := Store.rules s;
        Store.settings := Store.settings s;
        Store.deliveryAttempts := (userId, mail) :: Store.deliveryAttempts s;
        Store.nextEmailId := Store.nextEmailId s |}).

(** The stored row of an email. *)
Definition findEmail (id : nat) (s : Store.t) : option Email.t :=
  find (fun e => Nat.eqb (Email.id e) id) (Store.emails s).

(** ** auto-responder.ts: [AutoResponderService] *)

(** [value || fallback] on an optional string and on an optional number. *)
Definition orString (value : option string) (fallback : string) : string :=
  match value with
  | Some v => if JsString.truthy v then v else fallback
  | None => fallback
  end.

Definition orNumber (value : option Z) (fallback : Z) : Z :=
  match value with
  | Some v => if Z.eqb v 0 then fallback else v
  | None => fallback
  end.

Definition orPriority (value : option Priority) (fallback : Priority) : Priority :=
  match value with Some v => v | None => fallback end.

(** The value of the [catch] block of [classifyEmail]. *)
Definition classificationFailed : ClassificationResult.t :=
  {| ClassificationResult.classification := "general";
     ClassificationResult.confidence := 30;
     ClassificationResult.reasoning := "Classification failed, defaulting to general";
     ClassificationResult.priority := Some medium;
     ClassificationResult.priorityReasoning :=
       Some "Default priority due to classification failure" |}.

(** The call [classifyEmail] makes inside its [try] block: grounded
    classification when [userId] is truthy, the plain completion otherwise. *)
Definition classificationCall (svc : Services.t) (emailContent subject : string)
  (userId : option string) : Outcome ClassificationResult.t :=
  if JsString.truthy (orString userId "") then
    match Services.classifyWithGrounding svc (orString userId "") emailContent subject with
    | Throws e => Throws e
    | Returns groundedResult =>
        Returns
          {| ClassificationResult.classification :=
               ClassificationResult.classification groundedResult;
             ClassificationResult.confidence :=
               ClassificationResult.confidence groundedResult;
             ClassificationResult.reasoning :=
               "Vector-enhanced: " ++ ClassificationResult.reasoning groundedResult;
             ClassificationResult.priority :=
               ClassificationResult.priority groundedResult;
             ClassificationResult.priorityReasoning :=
               ClassificationResult.priorityReasoning groundedResult |}
    end
  else
    match Services.chatCompletion svc emailContent subject with
    | Throws e => Throws e
    | Returns result =>
        Returns
          {| ClassificationResult.classification :=
               orString (Completion.classification result) "general";
             ClassificationResult.confidence :=
               Z.max 0 (Z.min 100 (orNumber (Completion.confidence result) 50));
             ClassificationResult.reasoning :=
               orString (Completion.reasoning result) "AI classification result";
             ClassificationResult.priority :=
               Some (orPriority (Completion.priority result) medium);
             ClassificationResult.priorityReasoning :=
               Some (orString (Completion.priorityReasoning result)
                              "Standard priority assignment") |}
    end.

Definition classifyEmail (svc : Services.t) (emailContent subject : string)
  (userId : option string) : ClassificationResult.t :=
  match classificationCall svc emailContent subject userId with
  | Returns result => result
  | Throws _ => classificationFailed
  end.

Definition findMatchingRule (userId classification : string) (confidence : Z)
  : M (option Rule.t) :=
  rules <- getAutoResponderRules userId ;;
  let matchingRule :=
    find (fun rule => String.eqb (Rule.classification rule) classification
                      && Rule.isActive rule)%bool rules in
  let matchingRule :=
    match matchingRule with
    | None =>
        if confidence <? 70 then
          find (fun rule => String.eqb (Rule.classification rule) "general"
                            && Rule.isActive rule)%bool rules
        else None
    | Some rule => Some rule
    end in
  ret matchingRule.

Definition escalateEmail (emailId : nat) (userId : string)
  (classification : ClassificationResult.t) (reason : option string)
  : M ProcessedEmail.t :=
  let escalationReason :=
    orString reason
      ("Low confidence classification ("
         ++ JsString.ofZ (ClassificationResult.confidence classification)
         ++ "%) or complex inquiry requiring human review") in
  let priority :=
    match ClassificationResult.priority classification with
    | Some p => p
    | None => if ClassificationResult.confidence classification <? 40 then high else medium
    end in
  createEscalationQueue
    {| EscalationItem.emailId := emailId;
       EscalationItem.userId := userId;
       EscalationItem.priority := priority;
       EscalationItem.reason := escalationReason |} ;;
  updateEmail emailId (patchEscalated escalationReason) ;;
  createActivityLog
    {| ActivityLog.userId := userId;
       ActivityLog.action := "Escalated to human";
       ActivityLog.type := "escalation";
       ActivityLog.executedBy := "ai";
       ActivityLog.customerEmail := "system";
       ActivityLog.details := "Email escalated: " ++ escalationReason;
       ActivityLog.status := "pending" |} ;;
  ret {| ProcessedEmail.id := emailId;
         ProcessedEmail.classification := ClassificationResult.classification classification;
         ProcessedEmail.confidence := ClassificationResult.confidence classification;
         ProcessedEmail.autoResponseSent := false;
         ProcessedEmail.escalated := true;
         ProcessedEmail.ruleUsed := None;
         ProcessedEmail.awaitingApproval := None |}.

(** [generateLegacyResponse]: the fixed notice with confidence 15. *)
Definition generateLegacyResponse : ResponseData.t :=
  {| ResponseData.response := "Hello!

Thank you for contacting us. Your inquiry requires specialized assistance that our AI agent cannot provide at this time.

A human team member will review your message and respond within 24 hours to ensure you receive the most accurate and helpful information.

We appreciate your patience.

Best regards,
Customer Support Team

This email was sent by a robot. We use AI to solve your problems as quickly as possible. Reply 'Human' anytime and a human will jump in.";
     ResponseData.adjustedConfidence := 15 |}.

Definition generateProposedResponse (svc : Services.t) (rule : Rule.t)
  (emailData : EmailData.t) (userId : string) : ResponseData.t :=
  match Services.composeEmpatheticResponse svc rule emailData userId with
  | Returns responseData => responseData
  | Throws _ => generateLegacyResponse
  end.

Definition calculateSentimentAwareConfidence (svc : Services.t) (baseConfidence : Z)
  (emailData : EmailData.t) (userId : string) : Z :=
  match Services.analyzeSentiment svc (EmailData.body emailData) with
  | Throws _ => baseConfidence
  | Returns sentimentResult =>
      let confidenceAdjustment := 0 in
      let negativeScore := orNumber (SentimentResult.negative sentimentResult) 0 in
      let sentimentConfidence := orNumber (SentimentResult.confidence sentimentResult) 0 in
      let confidenceAdjustment :=
        if String.eqb (SentimentResult.sentiment sentimentResult) "NEGATIVE" then
          if ((75 <? negativeScore) && (90 <? sentimentConfidence))%bool then -25
          else if ((60 <? negativeScore) && (80 <? sentimentConfidence))%bool then -15
          else if ((45 <? negativeScore) && (70 <? sentimentConfidence))%bool then -8
          else confidenceAdjustment
        else confidenceAdjustment in
      let confidenceAdjustment :=
        if (String.eqb (SentimentResult.sentiment sentimentResult) "POSITIVE"
            && (80 <? sentimentConfidence))%bool then 5
        else confidenceAdjustment in
      Z.max 10 (Z.min 95 (baseConfidence + confidenceAdjustment))
  end.

(** [\d] *)
Definition isDigit (c : ascii) : bool :=
  let n := nat_of_ascii c in (Nat.leb 48 n && Nat.leb n 57)%bool.

(** A match of [p\d] at the start of [s], and anywhere in [s]. *)
Fixpoint startsWithThenDigit (p s : string) : bool :=
  match p, s with
  | EmptyString, String c _ => isDigit c
  | EmptyString, EmptyString => false
  | String _ _, EmptyString => false
  | String a p', String b s' => (Ascii.eqb a b && startsWithThenDigit p' s')%bool
  end.

Fixpoint includesThenDigit (p s : string) : bool :=
  match s with
  | EmptyString => false
  | String _ s' => (startsWithThenDigit p s || includesThenDigit p s')%bool
  end.

(** The regular expressions of [blockedPatterns].  Each carries the [i]
    flag; [^] and [$] anchor a pattern only where they are written. *)
Definition blockedPatterns : list (string -> bool) :=
  [ (fun email => JsString.startsWith "test" (JsString.toLowerCase email));     (* /^test/i *)
    (fun email => JsString.startsWith "demo" (JsString.toLowerCase email));     (* /^demo/i *)
    (fun email => JsString.endsWith "example.com" (JsString.toLowerCase email)); (* /example\.com$/i *)
    (fun email => JsString.endsWith "test.com" (JsString.toLowerCase email));   (* /test\.com$/i *)
    (fun email => JsString.endsWith ".test" (JsString.toLowerCase email));      (* /\.test$/i *)
    (fun email => includesThenDigit "user" (JsString.toLowerCase email));       (* /user\d+/i *)
    (fun email => JsString.includes "demo_" (JsString.toLowerCase email));      (* /demo_/i *)
    (fun email => JsString.includes "+test" (JsString.toLowerCase email));      (* /\+test/i *)
    (fun email => JsString.includes "noreply" (JsString.toLowerCase email));    (* /noreply/i *)
    (fun email => JsString.includes "donotreply" (JsString.toLowerCase email))  (* /donotreply/i *)
  ].

Definition isValidEmailForProduction (email : string) : bool :=
  negb (existsb (fun pattern => pattern email) blockedPatterns).

Definition sendEmpathicAutoResponse (svc : Services.t)
  (userId customerEmail responseContent originalSubject : string) : M bool :=
  tryCatch
    (if negb (isValidEmailForProduction customerEmail) then ret false
     else
       safetyValidation <- await (Services.validateResponse svc responseContent userId) ;;
       if negb (SafetyValidation.approved safetyValidation) then ret false
       else
         let responseSubject := "Re: " ++ originalSubject in
         success <- sendEmail svc userId
                      {| OutgoingEmail.to := customerEmail;
                         OutgoingEmail.subject := responseSubject;
                         OutgoingEmail.html := responseContent |} ;;
         ret success)
    (fun _ => ret false).

(** The sentiment block of [processIncomingEmail]: the final values of
    [sentimentEscalation] and [sentimentReason].  A failing analysis is
    caught and leaves both at their initial values. *)
Definition sentimentEscalationOf (analysis : Outcome SentimentResult.t) : bool * string :=
  match analysis with
  | Throws _ => (false, "")
  | Returns sentimentResult =>
      if String.eqb (SentimentResult.sentiment sentimentResult) "NEGATIVE" then
        let negativeScore := orNumber (SentimentResult.negative sentimentResult) 0 in
        let sentimentConfidence := orNumber (SentimentResult.confidence sentimentResult) 0 in
        if ((75 <? negativeScore) && (90 <? sentimentConfidence))%bool then
          (true,
           "Very angry customer detected (" ++ JsString.ofZ negativeScore
             ++ "% negative sentiment with " ++ JsString.ofZ sentimentConfidence
             ++ "% confidence)")
        else if ((85 <? negativeScore) && (80 <? sentimentConfidence))%bool then
          (true,
           "Highly frustrated customer detected (" ++ JsString.ofZ negativeScore
             ++ "% negative sentiment)")
        else (false, "")
      else (false, "")
  end.

(** [settings?.automationApprovalRequired ?? true] *)
Definition approvalRequiredOf (settings : option Settings.t) : bool :=
  match settings with
  | Some st =>
      match Settings.automationApprovalRequired st with
      | Some b => b
      | None => true
      end
  | None => true
  end.

(** The identifiers bound where the approval item is built inside
    [processIncomingEmail]: parameters, locals declared so far, and the
    module-level imports and constants. *)
Definition processIncomingEmailScope : list string :=
  [ "userId"; "emailData"; "email"; "classification"; "sentimentEscalation";
    "sentimentReason"; "rule"; "settings"; "approvalRequired"; "responseData";
    "storage"; "emailRoutingService"; "promoRefundService"; "contentSafetyService";
    "sentimentAnalysisService"; "hallucinationPreventionService";
    "empatheticResponseGenerator"; "OpenAI"; "aiAgentSignatureService"; "openai";
    "AutoResponderService"; "autoResponderService" ].

(** Evaluating an identifier: a name that is not bound raises a
    [ReferenceError]. *)
Definition resolveIdentifier (scope : list string) (name : string) : M unit :=
  if existsb (String.eqb name) scope then ret tt
  else throw ("ReferenceError: " ++ name ++ " is not defined").

Definition processIncomingEmail (svc : Services.t) (userId : string)
  (emailData : EmailData.t) : M ProcessedEmail.t :=
  (* Store the email in database *)
  email <- createEmail userId emailData processing ;;
  (* Link email to thread; a failure is logged and ignored *)
  tryCatch
    (await (Services.linkEmailToThread svc (Email.id email)
              (EmailData.subject emailData) (EmailData.fromEmail emailData)
              (EmailData.toEmail emailData)))
    (fun _ => ret tt) ;;
  let classification :=
    classifyEmail svc (EmailData.body emailData) (EmailData.subject emailData)
      (Some userId) in
  let '(sentimentEscalation, sentimentReason) :=
    sentimentEscalationOf (Services.analyzeSentiment svc (EmailData.body emailData)) in
  (* Update email with classification *)
  updateEmail (Email.id email)
    (patchClassification (ClassificationResult.classification classification)
                         (ClassificationResult.confidence classification)) ;;
  if ((ClassificationResult.confidence classification <? 60)
      || String.eqb (ClassificationResult.classification classification) "escalation"
      || sentimentEscalation)%bool
  then
    let escalationReason :=
      if sentimentEscalation
      then Some ("Negative sentiment detected - " ++ sentimentReason)
      else None in
    let escalationClassification :=
      if sentimentEscalation then
        {| ClassificationResult.classification :=
             ClassificationResult.classification classification;
           ClassificationResult.confidence :=
             ClassificationResult.confidence classification;
           ClassificationResult.reasoning :=
             ClassificationResult.reasoning classification;
           ClassificationResult.priority :=
             Some (if JsString.includes "Very angry" sentimentReason
                   then urgent else high);
           ClassificationResult.priorityReasoning :=
             Some ("Escalated due to negative sentiment: " ++ sentimentReason) |}
      else classification in
    escalateEmail (Email.id email) userId escalationClassification escalationReason
  else
    rule <- findMatchingRule userId
              (ClassificationResult.classification classification)
              (ClassificationResult.confidence classification) ;;
    match rule with
    | None =>
        escalateEmail (Email.id email) userId classification
          (Some "No matching auto-responder rule")
    | Some rule =>
        settings <- getSystemSettings userId ;;
        let approvalRequired := approvalRequiredOf settings in
        if approvalRequired then
          let responseData := generateProposedResponse svc rule emailData userId in
          (* the argument of createAutomationApprovalItem reads
             responseContext.orderData while its metadata is built *)
          resolveIdentifier processIncomingEmailScope "responseContext" ;;
          createAutomationApprovalItem
            {| ApprovalItem.userId := userId;
               ApprovalItem.emailId := Email.id email;
               ApprovalItem.ruleId := Rule.id rule;
               ApprovalItem.customerEmail := EmailData.fromEmail emailData;
               ApprovalItem.classification :=
                 ClassificationResult.classification classification;
               ApprovalItem.confidence := ResponseData.adjustedConfidence responseData;
               ApprovalItem.proposedResponse := ResponseData.response responseData |} ;;
          updateEmail (Email.id email) (patchStatus awaiting_approval) ;;
          createActivityLog
            {| ActivityLog.userId := userId;
               ActivityLog.action := "Queued for approval";
               ActivityLog.type := "email_processed";
               ActivityLog.executedBy := "ai";
               ActivityLog.customerEmail := EmailData.fromEmail emailData;
               ActivityLog.details :=
                 "AI classified email as "
                   ++ ClassificationResult.classification classification
                   ++ " and queued automation for approval";
               ActivityLog.status := "pending" |} ;;
          ret {| ProcessedEmail.id := Email.id email;
                 ProcessedEmail.classification :=
                   ClassificationResult.classification classification;
                 ProcessedEmail.confidence :=
                   ClassificationResult.confidence classification;
                 ProcessedEmail.autoResponseSent := false;
                 ProcessedEmail.escalated := false;
                 ProcessedEmail.ruleUsed := Some (Rule.name rule);
                 ProcessedEmail.awaitingApproval := Some true |}
        else
          (* Execute automation immediately (approval not required) *)
          responseSuccess <-
            (if String.eqb (ClassificationResult.classification classification)
                  "promo_refund" then
               enhancedResult <-
                 await (Services.processEnhancedPromoRefund svc (Email.id email)
                          emailData userId) ;;
               if EnhancedResult.success enhancedResult then ret true
               else if EnhancedResult.shouldEscalate enhancedResult then
                 await (Services.processPromoRefund svc (Email.id email)
                          (EmailData.fromEmail emailData) userId rule)
               else ret false
             else if String.eqb (ClassificationResult.classification classification)
                       "order_cancellation" then
               await (Services.initiateCancellationWorkflow svc userId (Email.id email)
                        emailData)
             else if String.eqb (ClassificationResult.classification classification)
                       "address_change" then
               await (Services.initiateAddressChangeWorkflow svc userId (Email.id email)
                        emailData)
             else
               let responseData := generateProposedResponse svc rule emailData userId in
               sendEmpathicAutoResponse svc userId (EmailData.fromEmail emailData)
                 (ResponseData.response responseData) (EmailData.subject emailData)) ;;
          if (responseSuccess : bool) then
            updateAutoResponderRule (Rule.id rule) (Rule.triggerCount rule + 1) ;;
            updateEmail (Email.id email) (patchResolved (Rule.template rule)) ;;
            createActivityLog
              {| ActivityLog.userId := userId;
                 ActivityLog.action := "Sent automated reply";
                 ActivityLog.type := "email_processed";
                 ActivityLog.executedBy := "ai";
                 ActivityLog.customerEmail := EmailData.fromEmail emailData;
                 ActivityLog.details :=
                   "AI automatically sent "
                     ++ ClassificationResult.classification classification
                     ++ " response using rule: " ++ Rule.name rule;
                 ActivityLog.status := "completed" |} ;;
            ret {| ProcessedEmail.id := Email.id email;
                   ProcessedEmail.classification :=
                     ClassificationResult.classification classification;
                   ProcessedEmail.confidence :=
                     ClassificationResult.confidence classification;
                   ProcessedEmail.autoResponseSent := true;
                   ProcessedEmail.escalated := false;
                   ProcessedEmail.ruleUsed := Some (Rule.name rule);
                   ProcessedEmail.awaitingApproval := None |}
          else
            escalateEmail (Email.id email) userId classification
              (Some "Failed to send auto-response")
    end.

(** *** Specification vocabulary *)

(** The routing disposition a returned [ProcessedEmail] stands for. *)
Inductive Disposition := automate | approve | escalate.

Definition dispositionOf (p : ProcessedEmail.t) : Disposition :=
  if ProcessedEmail.escalated p then escalate
  else match ProcessedEmail.awaitingApproval p with
       | Some true => approve
       | _ => automate
       end.

(** The terminal states of a message. *)
Definition isTerminal (st : Status) : bool :=
  match st with
  | resolved | awaiting_approval | escalated => true
  | processing => false
  end.

(** The stored rows that carry a given external message identifier. *)
Definition recordsWithMessageId (messageId : string) (s : Store.t) : list Email.t :=
  filter (fun e => match Email.messageId e with
                   | Some m => String.eqb m messageId
                   | None => false
                   end)
         (Store.emails s).

(** The external identifiers of the stored rows, in table order. *)
Definition messageIds (s : Store.t) : list (option string) :=
  map Email.messageId (Store.emails s).

Definition sameMessageIds (s s' : Store.t) : Prop := messageIds s' = messageIds s.

(** A relation between the store before and after a computation that
    holds whatever the computation answers. *)
Definition preserves (R : Store.t -> Store.t -> Prop) {A} (m : M A) : Prop :=
  forall s, R s (snd (m s)).

(** The confidence adjustment as the specification words it. *)
Definition claimedAdjustment (sentiment : string) (negativeScore sentimentConfidence : Z) : Z :=
  if String.eqb sentiment "NEGATIVE" then
    if ((75 <? negativeScore) && (90 <? sentimentConfidence))%bool then -25
    else if ((60 <? negativeScore) && (80 <? sentimentConfidence))%bool then -15
    else if ((45 <? negativeScore) && (70 <? sentimentConfidence))%bool then -8
    else 0
  else if (String.eqb sentiment "POSITIVE" && (80 <? sentimentConfidence))%bool then 5
  else 0.

(** The condition under which the specification says sentiment escalates. *)
Definition claimedSentimentTrigger (negativeScore sentimentConfidence : Z) : Prop :=
  (75 < negativeScore /\ 90 < sentimentConfidence)
  \/ (85 < negativeScore /\ 80 < sentimentConfidence).

End AutoResponder.

(** ** Sample inputs *)

Module Fixtures.
Import AutoResponder.

Definition classified (category : string) (confidence : Z) : ClassificationResult.t :=
  {| ClassificationResult.classification := category;
     ClassificationResult.confidence := confidence;
     ClassificationResult.reasoning := "Customer asks where the order is";
     ClassificationResult.priority := Some medium;
     ClassificationResult.priorityReasoning := Some "Standard request" |}.

Definition sentimentOf (label : string) (negativeScore confidence : Z) : SentimentResult.t :=
  {| SentimentResult.sentiment := label;
     SentimentResult.negative := Some negativeScore;
     SentimentResult.confidence := Some confidence |}.

Definition draft : ResponseData.t :=
  {| ResponseData.response := "Hi Alice, I can help you with the status of your order.";
     ResponseData.adjustedConfidence := 80 |}.

(** Collaborators that all answer; the classifier, the sentiment analysis,
    the safety validation and the delivery channel answer as given. *)
Definition services (classifier : Outcome ClassificationResult.t)
  (sentiment : Outcome SentimentResult.t) (safety : Outcome SafetyValidation.t)
  (delivery : Outcome bool) : Services.t :=
  {| Services.linkEmailToThread := fun _ _ _ _ => Returns tt;
     Services.classifyWithGrounding := fun _ _ _ => classifier;
     Services.chatCompletion := fun _ _ => Throws "no completion";
     Services.analyzeSentiment := fun _ => sentiment;
     Services.composeEmpatheticResponse := fun _ _ _ => Returns draft;
     Services.validateResponse := fun _ _ => safety;
     Services.sendEmail := fun _ _ => delivery;
     Services.processEnhancedPromoRefund :=
       fun _ _ _ => Returns {| EnhancedResult.success := true;
                               EnhancedResult.shouldEscalate := false |};
     Services.processPromoRefund := fun _ _ _ _ => Returns true;
     Services.initiateCancellationWorkflow := fun _ _ _ => Returns true;
     Services.initiateAddressChangeWorkflow := fun _ _ _ => Returns true |}.

Definition approvedContent : Outcome SafetyValidation.t :=
  Returns {| SafetyValidation.approved := true; SafetyValidation.blockReason := None |}.

Definition blockedContent : Outcome SafetyValidation.t :=
  Returns {| SafetyValidation.approved := false;
             SafetyValidation.blockReason := Some "moderation" |}.

Definition calm : Outcome SentimentResult.t := Returns (sentimentOf "NEUTRAL" 5 90).

Definition orderStatusRule : Rule.t :=
  {| Rule.id := 1; Rule.userId := "merchant-1"; Rule.name := "Order status";
     Rule.classification := "order_status"; Rule.isActive := true;
     Rule.template := "Your order is on its way."; Rule.triggerCount := 0 |}.

Definition generalRule : Rule.t :=
  {| Rule.id := 2; Rule.userId := "merchant-1"; Rule.name := "General";
     Rule.classification := "general"; Rule.isActive := true;
     Rule.template := "Thank you for your message."; Rule.triggerCount := 0 |}.

(** A merchant with the given rules and approval setting, and no mail yet. *)
Definition merchant (rules : list Rule.t) (approvalRequired : option bool) : Store.t :=
  {| Store.emails := [];
     Store.escalationQueue := [];
     Store.approvalQueue := [];
     Store.activityLogs := [];
     Store.rules := rules;
     Store.settings :=
       [ {| Settings.userId := "merchant-1";
            Settings.automationApprovalRequired := approvalRequired |} ];
     Store.deliveryAttempts := [];
     Store.nextEmailId := 0 |}.

Definition orderQuestion : EmailData.t :=
  {| EmailData.fromEmail := "alice@shopper.org";
     EmailData.toEmail := "support@merchant.shop";
     EmailData.subject := "Order question";
     EmailData.body := "Where is my order #12345?";
     EmailData.messageId := Some "msg-0001" |}.

(** Two crawled pages whose single chunk scores 0.69 and 0.71. *)
Definition pageBelow : VectorEmbeddings.TrainingUrl.t :=
  {| VectorEmbeddings.TrainingUrl.url := "https://merchant.shop/returns";
     VectorEmbeddings.TrainingUrl.status := "completed";
     VectorEmbeddings.TrainingUrl.crawledContent :=
       Some "Returns are accepted within thirty days of delivery when the item is unused and in its original packaging." |}.

Definition pageAbove : VectorEmbeddings.TrainingUrl.t :=
  {| VectorEmbeddings.TrainingUrl.url := "https://merchant.shop/shipping";
     VectorEmbeddings.TrainingUrl.status := "completed";
     VectorEmbeddings.TrainingUrl.crawledContent :=
       Some "Orders ship within two business days and arrive in three to five days; tracking is sent by email at dispatch." |}.

Definition trainingUrls (userId : string) : Outcome (option (list VectorEmbeddings.TrainingUrl.t)) :=
  Returns (Some [pageBelow; pageAbove]).

Definition similarityScores (query chunk : string) : Outcome Q :=
  if JsString.startsWith "Returns" chunk then Returns (69 # 100)
  else Returns (71 # 100).


End Fixtures.

(** ** Text operations of the remaining methods *)

Set Warnings "-abstract-large-number".

Module JsText.

(** [\s], which is also what [trim] strips: tab to carriage return, the
    space and the no-break space. *)
Definition isWhitespace (c : ascii) : bool :=
  let n := nat_of_ascii c in
  ((Nat.leb 9 n && Nat.leb n 13) || Nat.eqb n 32 || Nat.eqb n 160)%bool.

(** [\w] *)
Definition isWordChar (c : ascii) : bool :=
  let n := nat_of_ascii c in
  ((Nat.leb 48 n && Nat.leb n 57) || (Nat.leb 65 n && Nat.leb n 90)
   || (Nat.leb 97 n && Nat.leb n 122) || Nat.eqb n 95)%bool.

(** The longest prefix of characters satisfying [p], and what follows it:
    a greedy [p*]. *)
Fixpoint takeWhile (p : ascii -> bool) (s : string) : string :=
  match s with
  | EmptyString => EmptyString
  | String c s' => if p c then String c (takeWhile p s') else EmptyString
  end.

Fixpoint dropWhile (p : ascii -> bool) (s : string) : string :=
  match s with
  | EmptyString => EmptyString
  | String c s' => if p c then dropWhile p s' else s
  end.

Definition trimStart (s : string) : string := dropWhile isWhitespace s.

Fixpoint trimEnd (s : string) : string :=
  match s with
  | EmptyString => EmptyString
  | String c s' =>
      match trimEnd s' with
      | EmptyString => if isWhitespace c then EmptyString else String c EmptyString
      | t => String c t
      end
  end.

(** [s.trim()] *)
Definition trim (s : string) : string := trimEnd (trimStart s).

(** [s.split(/\s+/)]: [current] is the word being read, [inRun] tells
    whether the previous character was part of a separator. *)
Fixpoint splitFrom (inRun : bool) (current : string) (s : string) : list string :=
  match s with
  | EmptyString => [current]
  | String c s' =>
      if isWhitespace c then
        if inRun then splitFrom true current s'
        else current :: splitFrom true EmptyString s'
      else splitFrom false (current ++ String c EmptyString) s'
  end.

Definition splitWhitespace (s : string) : list string := splitFrom false EmptyString s.

(** [s.replace(/\s+/g, '_')] *)
Fixpoint replaceRuns (inRun : bool) (s : string) : string :=
  match s with
  | EmptyString => EmptyString
  | String c s' =>
      if isWhitespace c then
        if inRun then replaceRuns true s' else String "_" (replaceRuns true s')
      else String c (replaceRuns false s')
  end.

(** A literal matched at the start of [s] under the [i] flag; the result
    is the rest of [s]. *)
Fixpoint matchLiteralCI (p s : string) : option string :=
  match p, s with
  | EmptyString, _ => Some s
  | String _ _, EmptyString => None
  | String a p', String b s' =>
      if Ascii.eqb (JsString.lowerAscii a) (JsString.lowerAscii b)
      then matchLiteralCI p' s' else None
  end.

(** [c?] at the start of [s]. *)
Definition dropOptional (c : ascii) (s : string) : string :=
  match s with
  | String d s' => if Ascii.eqb c d then s' else s
  | EmptyString => s
  end.

(** [(\d{n,})] at the start of [s]: the whole run of digits, when it has
    at least [n] of them. *)
Definition digitsAtLeast (n : nat) (s : string) : option string :=
  let digits := takeWhile AutoResponder.isDigit s in
  if Nat.leb n (String.length digits) then Some digits else None.

(** The leftmost position of [s] at which [m] matches. *)
Fixpoint leftmost (m : string -> option string) (s : string) : option string :=
  match m s with
  | Some r => Some r
  | None =>
      match s with
      | EmptyString => None
      | String _ s' => leftmost m s'
      end
  end.

(** The same for a pattern that looks at the preceding character. *)
Fixpoint leftmostAfter (m : option ascii -> string -> option string)
  (previous : option ascii) (s : string) : option string :=
  match m previous s with
  | Some r => Some r
  | None =>
      match s with
      | EmptyString => None
      | String c s' => leftmostAfter m (Some c) s'
      end
  end.

(** [\b(\d{lo,hi})\b] at a position: a run of digits that starts and ends
    at a word boundary and has between [lo] and [hi] digits ([hi = None]
    for an open range). *)
Definition boundedDigits (lo : nat) (hi : option nat) (previous : option ascii)
  (s : string) : option string :=
  let atBoundary :=
    match previous with
    | None => true
    | Some c => negb (isWordChar c)
    end in
  let digits := takeWhile AutoResponder.isDigit s in
  let rest := dropWhile AutoResponder.isDigit s in
  let endsAtBoundary :=
    match rest with
    | EmptyString => true
    | String c _ => negb (isWordChar c)
    end in
  let inRange :=
    (Nat.leb lo (String.length digits)
     && match hi with
        | Some h => Nat.leb (String.length digits) h
        | None => true
        end)%bool in
  if (atBoundary && inRange && endsAtBoundary)%bool then Some digits else None.

(** The first pattern of a list that matches. *)
Fixpoint firstMatch (patterns : list (string -> option string)) (s : string)
  : option string :=
  match patterns with
  | [] => None
  | pattern :: rest =>
      match pattern s with
      | Some r => Some r
      | None => firstMatch rest s
      end
  end.

End JsText.

(** ** auto-responder.ts: order numbers *)

Module OrderNumbers.
Import JsText.

(** [/order\s*#?\s*(\d+)/i] at a position. *)
Definition orderThenDigits (s : string) : option string :=
  match matchLiteralCI "order" s with
  | None => None
  | Some r =>
      digitsAtLeast 1
        (dropWhile isWhitespace (dropOptional "#" (dropWhile isWhitespace r)))
  end.

(** [/order\s*number\s*#?\s*(\d+)/i] at a position. *)
Definition orderNumberThenDigits (s : string) : option string :=
  match matchLiteralCI "order" s with
  | None => None
  | Some r =>
      match matchLiteralCI "number" (dropWhile isWhitespace r) with
      | None => None
      | Some r' =>
          digitsAtLeast 1
            (dropWhile isWhitespace (dropOptional "#" (dropWhile isWhitespace r')))
      end
  end.

(** [/#(\d{4,})/] at a position. *)
Definition hashThenDigits (s : string) : option string :=
  match s with
  | String "#" r => digitsAtLeast 4 r
  | _ => None
  end.

Definition orderPatterns : list (string -> option string) :=
  [ leftmost orderThenDigits;
    leftmost orderNumberThenDigits;
    leftmost hashThenDigits;
    leftmostAfter (boundedDigits 4 (Some 6%nat)) None ].     (* /\b(\d{4,6})\b/ *)

(** [extractOrderNumber(emailBody)] *)
Definition extractOrderNumber (emailBody : string) : option string :=
  firstMatch orderPatterns emailBody.

(** [/order\s*#?(\d{4,})/i] at a position. *)
Definition orderThenLongDigits (s : string) : option string :=
  match matchLiteralCI "order" s with
  | None => None
  | Some r => digitsAtLeast 4 (dropOptional "#" (dropWhile isWhitespace r))
  end.

(** [/order\s*number\s*#?(\d{4,})/i] at a position. *)
Definition orderNumberThenLongDigits (s : string) : option string :=
  match matchLiteralCI "order" s with
  | None => None
  | Some r =>
      match matchLiteralCI "number" (dropWhile isWhitespace r) with
      | None => None
      | Some r' => digitsAtLeast 4 (dropOptional "#" (dropWhile isWhitespace r'))
      end
  end.

(** [[er]] under the [i] flag. *)
Definition isEorR (c : ascii) : bool :=
  let l := JsString.lowerAscii c in (Ascii.eqb l "e" || Ascii.eqb l "r")%bool.

(** [/ord[er]*-(\d{4,})/i] at a position. *)
Definition ordDashDigits (s : string) : option string :=
  match matchLiteralCI "ord" s with
  | None => None
  | Some r =>
      match dropWhile isEorR r with
      | String "-" r' => digitsAtLeast 4 r'
      | _ => None
      end
  end.

Definition emailOrderPatterns : list (string -> option string) :=
  [ leftmost hashThenDigits;                             (* /#(\d{4,})/i *)
    leftmost orderThenLongDigits;
    leftmost orderNumberThenLongDigits;
    leftmost ordDashDigits;
    leftmostAfter (boundedDigits 5 None) None ].         (* /\b(\d{5,})\b/ *)

(** [extractOrderNumberFromEmail(subject, body)]; no step of its [try]
    block throws on strings. *)
Definition extractOrderNumberFromEmail (subject body : string) : option string :=
  let content := subject ++ " " ++ body in
  firstMatch emailOrderPatterns content.

(** A string made of decimal digits only. *)
Fixpoint allDigits (s : string) : bool :=
  match s with
  | EmptyString => true
  | String c s' => (AutoResponder.isDigit c && allDigits s')%bool
  end.

(** [d] occurs in [s] as a contiguous piece. *)
Definition occursIn (d s : string) : Prop := exists before after, s = before ++ d ++ after.

(** [r] is what is left of [s] after some prefix. *)
Definition suffixOf (r s : string) : Prop := exists before, s = before ++ r.

(** What a captured group of digits is: digits only, at least [n] of them,
    found inside the text. *)
Definition captured (n : nat) (d s : string) : Prop :=
  allDigits d = true /\ (n <= String.length d)%nat /\ occursIn d s.

End OrderNumbers.

(** ** vector-embeddings-proper.ts: embedding cache and chunking *)

Module EmbeddingService.
Import JsText.

(** [createCacheKey(text)] *)
Definition createCacheKey (text : string) : string :=
  replaceRuns false (String.substring 0 100 text).

(** The [Map] held in [embeddingsCache], as its entries in insertion
    order. *)
Definition Cache : Type := list (string * list float).

(** [map.get(key)], [map.has(key)] and [map.set(key, value)]. *)
Fixpoint mapGet (key : string) (cache : Cache) : option (list float) :=
  match cache with
  | [] => None
  | (k, v) :: rest => if String.eqb k key then Some v else mapGet key rest
  end.

Definition mapHas (key : string) (cache : Cache) : bool :=
  match mapGet key cache with Some _ => true | None => false end.

Fixpoint mapSet (key : string) (value : list float) (cache : Cache) : Cache :=
  match cache with
  | [] => [(key, value)]
  | (k, v) :: rest =>
      if String.eqb k key then (k, value) :: rest
      else (k, v) :: mapSet key value rest
  end.

(** The service instance: its cache, and the inputs of the requests it has
    sent to the embeddings endpoint, latest first. *)
Module State.
Record t := { embeddingsCache : Cache; requests : list string }.
End State.

(** [generateEmbedding(text)], with [embed] the answer of
    [openai.embeddings.create] for an input. *)
Definition generateEmbedding (embed : string -> Outcome (list float)) (text : string)
  (st : State.t) : Outcome (list float) * State.t :=
  let cacheKey := createCacheKey text in
  match mapGet cacheKey (State.embeddingsCache st) with
  | Some cached => (Returns cached, st)
  | None =>
      let input := String.substring 0 8191 text in
      match embed input with
      | Returns embedding =>
          (Returns embedding,
           {| State.embeddingsCache := mapSet cacheKey embedding (State.embeddingsCache st);
              State.requests := input :: State.requests st |})
      | Throws e =>
          (Throws e,
           {| State.embeddingsCache := State.embeddingsCache st;
              State.requests := input :: State.requests st |})
      end
  end.

(** [clearCache()] *)
Definition clearCache (st : State.t) : State.t :=
  {| State.embeddingsCache := []; State.requests := State.requests st |}.

(** The loop of [chunkContent] over the words from index [i] on: [words]
    is [words.slice(i)] and [step] is [chunkSize - overlap].  The loop runs
    while words are left; [fuel] bounds its iterations. *)
Fixpoint chunkLoop (fuel chunkSize step : nat) (words : list string) : list string :=
  match fuel with
  | O => []
  | S fuel' =>
      match words with
      | [] => []
      | _ :: _ =>
          let chunk := String.concat " " (firstn chunkSize words) in
          let rest := chunkLoop fuel' chunkSize step (skipn step words) in
          if Nat.ltb 50 (String.length (trim chunk)) then trim chunk :: rest else rest
      end
  end.

(** [chunkContent(content, chunkSize, overlap)] for [overlap < chunkSize],
    the only way the method is called; each iteration then consumes at
    least one word, so the number of words is enough fuel. *)
Definition chunkContentWith (chunkSize overlap : nat) (content : string) : list string :=
  let words := splitWhitespace content in
  chunkLoop (List.length words) chunkSize (chunkSize - overlap) words.

(** The default arguments. *)
Definition chunkContent (content : string) : list string :=
  chunkContentWith 512 50 content.

(** *** [semanticSearch] with the embeddings cache

    The search of [VectorEmbeddings] with every embedding taken through
    [generateEmbedding], so that a chunk whose cache key is already present
    is scored with the cached embedding. *)

Section SearchWithCache.
Import VectorEmbeddings.

(** [storage.getTrainingUrls(userId)]; the result may be [null]. *)
Variable getTrainingUrls : string -> Outcome (option (list TrainingUrl.t)).
(** The answer of [openai.embeddings.create] for an input. *)
Variable embed : string -> Outcome (list float).
(** [calculateCosineSimilarity(queryEmbedding, chunkEmbedding)], which throws
    when the dimensions differ. *)
Variable similarity : list float -> list float -> Outcome Q.

(** The inner loop over the chunks of one source. *)
Fixpoint scoreChunks (queryEmbedding : list float) (chunks : list string)
  (best : Q * string) (st : State.t) : Outcome (Q * string) * State.t :=
  match chunks with
  | [] => (Returns best, st)
  | chunk :: rest =>
      match generateEmbedding embed chunk st with
      | (Throws e, st') => (Throws e, st')
      | (Returns chunkEmbedding, st') =>
          match similarity queryEmbedding chunkEmbedding with
          | Throws e => (Throws e, st')
          | Returns sim =>
              scoreChunks queryEmbedding rest
                (if negb (Qle_bool sim (fst best)) then (sim, chunk) else best) st'
          end
      end
  end.

(** One iteration of the loop over [completedUrls]; an exception inside the
    iteration is caught and the source skipped. *)
Definition searchSource (queryEmbedding : list float) (threshold : Q)
  (urlData : TrainingUrl.t) (st : State.t) : option SearchResult.t * State.t :=
  match TrainingUrl.crawledContent urlData with
  | None => (None, st)
  | Some crawledContent =>
      if negb (JsString.truthy crawledContent) then (None, st) else
      match scoreChunks queryEmbedding (chunksOf chunkContent crawledContent)
              (0%Q, "") st with
      | (Throws _, st') => (None, st')
      | (Returns (bestSimilarity, bestChunk), st') =>
          (if Qle_bool threshold bestSimilarity then
             Some {| SearchResult.content := crawledContent;
                     SearchResult.url := TrainingUrl.url urlData;
                     SearchResult.similarity := bestSimilarity;
                     SearchResult.chunk :=
                       if String.eqb bestChunk crawledContent then None
                       else Some bestChunk |}
           else None,
           st')
      end
  end.

Fixpoint searchSources (queryEmbedding : list float) (threshold : Q)
  (completedUrls : list TrainingUrl.t) (st : State.t)
  : list SearchResult.t * State.t :=
  match completedUrls with
  | [] => ([], st)
  | urlData :: rest =>
      match searchSource queryEmbedding threshold urlData st with
      | (Some r, st') =>
          let (results, st'') := searchSources queryEmbedding threshold rest st' in
          (r :: results, st'')
      | (None, st') => searchSources queryEmbedding threshold rest st'
      end
  end.

Definition semanticSearchWithCache (userId query : string) (qualityLevel : QualityLevel)
  (st : State.t) : SearchResponse.t * State.t :=
  let threshold := thresholdOf qualityLevel in
  match getTrainingUrls userId with
  | Throws _ => (noResults threshold, st)
  | Returns None => (noResults threshold, st)
  | Returns (Some trainingUrls) =>
      if Nat.eqb (List.length trainingUrls) 0 then (noResults threshold, st) else
      let completedUrls := filter isCompleted trainingUrls in
      if Nat.eqb (List.length completedUrls) 0 then (noResults threshold, st) else
      match generateEmbedding embed query st with
      | (Throws _, st') => (noResults threshold, st')
      | (Returns queryEmbedding, st') =>
          let (results, st'') :=
            searchSources queryEmbedding threshold completedUrls st' in
          let results := sort bySimilarityDesc results in
          ({| SearchResponse.results := firstn 5 results;
              SearchResponse.threshold := threshold;
              SearchResponse.totalSources := List.length completedUrls |},
           st'')
      end
  end.

End SearchWithCache.

(** The cache keys of the chunks of a source. *)
Definition cacheKeysOf (urlData : VectorEmbeddings.TrainingUrl.t) : list string :=
  match VectorEmbeddings.TrainingUrl.crawledContent urlData with
  | None => []
  | Some crawledContent =>
      map createCacheKey (VectorEmbeddings.chunksOf chunkContent crawledContent)
  end.

(** Two service states whose caches hold the same embedding, or none,
    under every key that satisfies [P]. *)
Definition agreeOn (P : string -> Prop) (st st' : State.t) : Prop :=
  forall key, P key ->
    mapGet key (State.embeddingsCache st) = mapGet key (State.embeddingsCache st').

End EmbeddingService.

(** ** empathetic-response-generator.ts: the customer's emotional state *)

Module EmpatheticResponse.
Import AutoResponder.

Inductive CustomerEmotion := calm | disappointed | frustrated | angry | desperate.

Inductive UrgencyLevel := urgencyLow | urgencyMedium | urgencyHigh | urgencyCritical.

Module EmpathyContext.
Record t := {
  sentiment : string;
  negativeScore : Z;
  confidence : option Z;
  customerEmotion : CustomerEmotion;
  urgencyLevel : UrgencyLevel }.
End EmpathyContext.

Definition urgentIndicators : list string :=
  ["emergency"; "urgent"; "asap"; "immediately"; "critical"; "lawsuit"; "lawyer"].

Definition hasUrgentKeywords (emailContent : string) : bool :=
  existsb (fun keyword => JsString.includes keyword (JsString.toLowerCase emailContent))
          urgentIndicators.

(** [analyzeCustomerEmotion(emailContent)]; a failing sentiment analysis
    is not caught here. *)
Definition analyzeCustomerEmotion (analyzeSentiment : string -> Outcome SentimentResult.t)
  (emailContent : string) : Outcome EmpathyContext.t :=
  match analyzeSentiment emailContent with
  | Throws e => Throws e
  | Returns sentiment =>
      let negativeScore := orNumber (SentimentResult.negative sentiment) 0 in
      let '(customerEmotion, urgencyLevel) :=
        if 80 <? negativeScore then (angry, urgencyCritical)
        else if 60 <? negativeScore then (frustrated, urgencyHigh)
        else if 40 <? negativeScore then (disappointed, urgencyMedium)
        else (calm, urgencyLow) in
      let '(customerEmotion, urgencyLevel) :=
        if hasUrgentKeywords emailContent then
          (match customerEmotion with calm => desperate | other => other end,
           urgencyCritical)
        else (customerEmotion, urgencyLevel) in
      Returns {| EmpathyContext.sentiment := SentimentResult.sentiment sentiment;
                 EmpathyContext.negativeScore := negativeScore;
                 EmpathyContext.confidence := SentimentResult.confidence sentiment;
                 EmpathyContext.customerEmotion := customerEmotion;
                 EmpathyContext.urgencyLevel := urgencyLevel |}
  end.

(** The order of urgency levels. *)
Definition urgencyRank (u : UrgencyLevel) : nat :=
  match u with
  | urgencyLow => 0 | urgencyMedium => 1 | urgencyHigh => 2 | urgencyCritical => 3
  end.

End EmpatheticResponse.

(** ** auto-responder.ts: the other send paths *)

Module Replies.
Import AutoResponder.
Open Scope js_scope.

(** The subject [processManualResponse] chooses from [action] and
    [metadata.orderNumber]. *)
Definition manualSubject (action : string) (orderNumber : option string) : string :=
  let given := JsString.truthy (orString orderNumber "") in
  if String.eqb action "sent_order_info" then
    if given then "Order Update: " ++ orString orderNumber "" else "Order Information"
  else if String.eqb action "processed_refund" then
    if given then "Refund Processed: Order " ++ orString orderNumber ""
    else "Refund Confirmation"
  else if String.eqb action "updated_subscription" then
    "Subscription Update Confirmation"
  else "Customer Service Response".

(** [processManualResponse(userId, customerEmail, action, template, metadata)]
    for a [metadata] object, of which the method reads [orderNumber] only. *)
Definition processManualResponse (svc : Services.t)
  (userId customerEmail action template : string) (orderNumber : option string) : M bool :=
  tryCatch
    (settings <- getSystemSettings userId ;;
     let subject := manualSubject action orderNumber in
     success <- sendEmail svc userId
                  {| OutgoingEmail.to := customerEmail;
                     OutgoingEmail.subject := subject;
                     OutgoingEmail.html := template |} ;;
     ret success)
    (fun _ => ret false).

(** [groundedResponse && groundedResponse.trim()], as a condition. *)
Definition usable (groundedResponse : option string) : bool :=
  match groundedResponse with
  | Some text => JsString.truthy (JsText.trim text)
  | None => false
  end.

(** The text [sendAutoResponse] settles on before validating:
    [rule.template], replaced by the grounded response when one is asked
    for, arrives and is not blank; a failing grounding call is caught. *)
Definition responseTemplateOf
  (generateGroundedResponse : string -> string -> string -> Outcome (option string))
  (userId : string) (rule : Rule.t) (originalBody : option string) : string :=
  if JsString.truthy (orString originalBody "") then
    match generateGroundedResponse (orString originalBody "")
            (Rule.classification rule) userId with
    | Returns groundedResponse =>
        if usable groundedResponse then orString groundedResponse ""
        else Rule.template rule
    | Throws _ => Rule.template rule
    end
  else Rule.template rule.

(** [sendAutoResponse(userId, customerEmail, rule, originalSubject, originalBody)] *)
Definition sendAutoResponse (svc : Services.t)
  (generateGroundedResponse : string -> string -> string -> Outcome (option string))
  (userId customerEmail : string) (rule : Rule.t) (originalSubject : string)
  (originalBody : option string) : M bool :=
  tryCatch
    (if negb (isValidEmailForProduction customerEmail) then ret false
     else
       let responseTemplate :=
         responseTemplateOf generateGroundedResponse userId rule originalBody in
       safetyValidation <- await (Services.validateResponse svc responseTemplate userId) ;;
       if negb (SafetyValidation.approved safetyValidation) then ret false
       else
         settings <- getSystemSettings userId ;;
         let responseSubject := "Re: " ++ originalSubject in
         success <- sendEmail svc userId
                      {| OutgoingEmail.to := customerEmail;
                         OutgoingEmail.subject := responseSubject;
                         OutgoingEmail.html := responseTemplate |} ;;
         ret success)
    (fun _ => ret false).

End Replies.


(** ** Vocabulary for the effects of [processIncomingEmail] *)

Module Effects.
Import AutoResponder.

(** Every stored row has an id below the one [storage.createEmail] hands
    out next. *)
Definition freshIds (s : Store.t) : bool :=
  forallb (fun e => Nat.ltb (Email.id e) (Store.nextEmailId s)) (Store.emails s).

(** The mail [sendEmpathicAutoResponse] hands to the delivery channel. *)
Definition replyTo (customerEmail originalSubject responseContent : string)
  : OutgoingEmail.t :=
  {| OutgoingEmail.to := customerEmail;
     OutgoingEmail.subject := "Re: " ++ originalSubject;
     OutgoingEmail.html := responseContent |}.

(** The store after a computation that writes to storage at most by handing
    [attempt] to the delivery channel once. *)
Definition onlyDelivers (attempt : string * OutgoingEmail.t) (s s' : Store.t) : Prop :=
  Store.emails s' = Store.emails s
  /\ Store.escalationQueue s' = Store.escalationQueue s
  /\ Store.approvalQueue s' = Store.approvalQueue s
  /\ Store.activityLogs s' = Store.activityLogs s
  /\ Store.rules s' = Store.rules s
  /\ Store.settings s' = Store.settings s
  /\ Store.nextEmailId s' = Store.nextEmailId s
  /\ (Store.deliveryAttempts s' = Store.deliveryAttempts s
      \/ Store.deliveryAttempts s' = attempt :: Store.deliveryAttempts s).

End Effects.

(** ** A merchant and collaborators for the examples *)

Module Scenario.
Import AutoResponder.

(** Collaborators that all answer, classifying the message as an order
    status question with confidence 82. *)
Definition answering : Services.t :=
  Fixtures.services (Returns (Fixtures.classified "order_status" 82)) Fixtures.calm
    Fixtures.approvedContent (Returns true).

(** The same collaborators with the classifier down. *)
Definition failing : Services.t :=
  Fixtures.services (Throws "classifier unavailable") Fixtures.calm
    Fixtures.approvedContent (Returns true).

(** A merchant with one rule, replying without approval. *)
Definition shop : Store.t := Fixtures.merchant [Fixtures.orderStatusRule] (Some false).

(** A notice from an address on the blocked list. *)
Definition fromBlocked : EmailData.t :=
  {| EmailData.fromEmail := "noreply@carrier.example";
     EmailData.toEmail := "support@merchant.shop";
     EmailData.subject := "Delivery notice";
     EmailData.body := "Your parcel has been delivered.";
     EmailData.messageId := None |}.

End Scenario.
(** * Properties *)

(** ** Strings *)

Section StringFacts.
Import JsString.

Lemma occurs_append (c : ascii) (s t : string) :
  occurs c (s ++ t) = (occurs c s || occurs c t)%bool.
Proof.
  induction s as [|d s IH]; simpl; [reflexivity|].
  now rewrite IH, orb_assoc.
Qed.

Lemma startsWith_absent (c : ascii) (p s : string) :
  occurs c s = false -> startsWith (String c p) s = false.
Proof.
  destruct s as [|d s]; simpl; [reflexivity|].
  intros H. apply orb_false_iff in H. destruct H as [H _]. now rewrite H.
Qed.

Lemma includes_absent (c : ascii) (p s : string) :
  occurs c s = false -> includes (String c p) s = false.
Proof.
  induction s as [|d s IH]; simpl; [reflexivity|].
  intros H. apply orb_false_iff in H. destruct H as [Hd Hs].
  rewrite Hd. simpl. now apply IH.
Qed.

Lemma occurs_uint (d : Decimal.uint) :
  occurs "V" (NilEmpty.string_of_uint d) = false.
Proof. induction d; simpl; auto. Qed.

Lemma occurs_ofZ (n : Z) : occurs "V" (ofZ n) = false.
Proof.
  unfold ofZ, NilZero.string_of_int.
  destruct (Z.to_int n) as [d|d]; unfold NilZero.string_of_uint.
  - destruct d; try apply occurs_uint; reflexivity.
  - simpl. destruct d; try apply occurs_uint; reflexivity.
Qed.

End StringFacts.

(** ** Cosine similarity *)

Section CosineSimilarity.
Import VectorEmbeddings.
Open Scope float_scope.

Lemma cosineLoop_components (a : list float) :
  forall (b : list float) (d na nb : float),
    List.length a = List.length b ->
    cosineLoop a b (d, na, nb)
    = (dotFrom d a b,
       fold_left (fun acc x => acc + x * x) a na,
       fold_left (fun acc x => acc + x * x) b nb).
Proof.
  induction a as [|x a IH]; intros [|y b] d na nb Hlen; simpl in Hlen; try discriminate.
  - reflexivity.
  - simpl. apply IH. now injection Hlen.
Qed.

Lemma calculateCosineSimilarity_equal_length (a b : list float) :
  List.length a = List.length b ->
  calculateCosineSimilarity a b
  = if (PrimFloat.eqb (norm a) 0 || PrimFloat.eqb (norm b) 0)%bool then Returns 0
    else Returns (dot a b / (norm a * norm b)).
Proof.
  intros Hlen. unfold calculateCosineSimilarity.
  rewrite Hlen, Nat.eqb_refl. simpl negb. cbv iota.
  rewrite (cosineLoop_components a b 0 0 0 Hlen). reflexivity.
Qed.

Lemma zero_vector_has_zero_norm (v : list float) :
  isZeroVector v -> norm v = 0.
Proof.
  unfold norm, sumSquares, isZeroVector.
  assert (H : forall l, Forall (fun x => x = 0 \/ x = -0) l ->
                        fold_left (fun acc x => acc + x * x) l 0 = 0).
  { induction 1 as [|x l [-> | ->] _ IH]; simpl; [reflexivity|exact IH|exact IH]. }
  intros Hz. rewrite (H v Hz). reflexivity.
Qed.

(** Claim C10.  On vectors of equal length [calculateCosineSimilarity]
    always returns a value; it returns 0 as soon as either norm is zero, in
    particular when either vector is a zero vector, so the quotient is
    formed only when both norms are non-zero; on vectors of unequal length
    it throws instead of computing a value. *)
Theorem cosine_similarity_total_and_division_safe (a b : list float) :
  (List.length a = List.length b ->
     (exists v, calculateCosineSimilarity a b = Returns v)
     /\ (PrimFloat.eqb (norm a) 0 = true \/ PrimFloat.eqb (norm b) 0 = true ->
         calculateCosineSimilarity a b = Returns 0)
     /\ (isZeroVector a \/ isZeroVector b ->
         calculateCosineSimilarity a b = Returns 0)
     /\ (PrimFloat.eqb (norm a) 0 = false -> PrimFloat.eqb (norm b) 0 = false ->
         calculateCosineSimilarity a b = Returns (dot a b / (norm a * norm b))))
  /\ (List.length a <> List.length b ->
      calculateCosineSimilarity a b = Throws "Vector dimensions must match").
Proof.
  split.
  - intros Hlen. rewrite (calculateCosineSimilarity_equal_length a b Hlen).
    assert (Hzero : PrimFloat.eqb (norm a) 0 = true \/ PrimFloat.eqb (norm b) 0 = true ->
                    (if (PrimFloat.eqb (norm a) 0 || PrimFloat.eqb (norm b) 0)%bool
                     then Returns 0 else Returns (dot a b / (norm a * norm b)))
                    = Returns 0).
    { intros [H|H]; rewrite H; [reflexivity | now rewrite orb_true_r]. }
    repeat split.
    + destruct (PrimFloat.eqb (norm a) 0 || PrimFloat.eqb (norm b) 0)%bool; eauto.
    + exact Hzero.
    + intros [H|H]; apply Hzero; [left|right];
        rewrite (zero_vector_has_zero_norm _ H); reflexivity.
    + intros Ha Hb. now rewrite Ha, Hb.
  - intros Hlen. unfold calculateCosineSimilarity.
    apply Nat.eqb_neq in Hlen. now rewrite Hlen.
Qed.

(** The three cases of claim C10 on sample vectors. *)
Lemma cosine_similarity_witness :
  calculateCosineSimilarity [1; 0] [0; 0] = Returns 0
  /\ calculateCosineSimilarity [1; 2] [0; -0] = Returns 0
  /\ calculateCosineSimilarity [3; 4] [3; 4]
     = Returns (dot [3; 4] [3; 4] / (norm [3; 4] * norm [3; 4]))
  /\ calculateCosineSimilarity [1; 2] [2] = Throws "Vector dimensions must match".
Proof.
  split; [|split; [|split]].
  - destruct (proj1 (cosine_similarity_total_and_division_safe [1; 0] [0; 0]) eq_refl)
      as (_ & Hnorm & _).
    apply Hnorm. right. reflexivity.
  - destruct (proj1 (cosine_similarity_total_and_division_safe [1; 2] [0; -0]) eq_refl)
      as (_ & _ & Hzero & _).
    apply Hzero. right. unfold isZeroVector.
    constructor; [left; reflexivity | constructor; [right; reflexivity | constructor]].
  - destruct (proj1 (cosine_similarity_total_and_division_safe [3; 4] [3; 4]) eq_refl)
      as (_ & _ & _ & Hquot).
    apply Hquot; reflexivity.
  - apply (proj2 (cosine_similarity_total_and_division_safe [1; 2] [2])).
    discriminate.
Defined.

End CosineSimilarity.

(** ** Semantic search *)

Section SemanticSearchProps.
Import VectorEmbeddings.
Open Scope Q_scope.

Variable getTrainingUrls : string -> Outcome (option (list TrainingUrl.t)).
Variable generateQueryEmbedding : string -> Outcome unit.
Variable similarityToQuery : string -> string -> Outcome Q.
Variable chunkContent : string -> list string.



Lemma sort_length {A} (cmp : A -> A -> Q) (l : list A) :
  List.length (sort cmp l) = List.length l.
Proof.
  induction l as [|x l IH]; simpl; [reflexivity|].
  rewrite <- IH. generalize (sort cmp l). intros m.
  induction m as [|z m IHm]; simpl; [reflexivity|].
  destruct (Qle_bool (cmp x z) 0); simpl; congruence.
Qed.
























End SemanticSearchProps.

Section SemanticSearchExamples.
Import VectorEmbeddings.
Open Scope Q_scope.



End SemanticSearchExamples.

(** ** Classifier *)

Section ClassifierProps.
Import AutoResponder.

(** Claim C8.  Whenever the call [classifyEmail] makes to its classifier
    throws (the grounded classification when [userId] is truthy, the plain
    completion otherwise), [classifyEmail] returns the degraded result with
    category [general], confidence 30 and priority [medium]; being a total
    function, it never propagates the failure. *)
Theorem classifyEmail_degrades_on_failure
  (svc : Services.t) (emailContent subject : string) (userId : option string) (e : string) :
  (JsString.truthy (orString userId "") = true ->
   Services.classifyWithGrounding svc (orString userId "") emailContent subject = Throws e)
  ->
  (JsString.truthy (orString userId "") = false ->
   Services.chatCompletion svc emailContent subject = Throws e)
  ->
  let result := classifyEmail svc emailContent subject userId in
  ClassificationResult.classification result = "general"
  /\ ClassificationResult.confidence result = 30
  /\ ClassificationResult.priority result = Some medium
  /\ result = classificationFailed.
Proof.
  intros Hg Hc. unfold classifyEmail, classificationCall.
  destruct (JsString.truthy (orString userId "")).
  - rewrite (Hg eq_refl). simpl. auto.
  - rewrite (Hc eq_refl). simpl. auto.
Qed.

(** Both classifier paths degrade to the same result. *)
Lemma classifyEmail_witness :
  let failing :=
    Fixtures.services (Throws "classifier unavailable") Fixtures.calm
      Fixtures.approvedContent (Returns true) in
  classifyEmail failing "Where is my order #12345?" "Order question" (Some "merchant-1")
  = classificationFailed
  /\ classifyEmail failing "Where is my order #12345?" "Order question" None
     = classificationFailed.
Proof.
  intros failing. split.
  - apply (classifyEmail_degrades_on_failure failing "Where is my order #12345?"
             "Order question" (Some "merchant-1") "classifier unavailable").
    + reflexivity.
    + discriminate.
  - apply (classifyEmail_degrades_on_failure failing "Where is my order #12345?"
             "Order question" None "no completion").
    + discriminate.
    + reflexivity.
Defined.

End ClassifierProps.

(** ** Sentiment-aware confidence *)

Section ConfidenceProps.
Import AutoResponder.

(** Claim C9, counterexample.  The result is not within [10, 95] for every
    base confidence: when the sentiment analysis fails, a base confidence
    of 100 is returned as it is. *)
Lemma confidence_unclamped_when_sentiment_fails :
  ~ (forall (svc : Services.t) (baseConfidence : Z) (emailData : EmailData.t)
            (userId : string),
        10 <= calculateSentimentAwareConfidence svc baseConfidence emailData userId <= 95).
Proof.
  intros H.
  specialize (H (Fixtures.services (Returns (Fixtures.classified "general" 100))
                   (Throws "sentiment service unavailable")
                   Fixtures.approvedContent (Returns true))
                100 Fixtures.orderQuestion "merchant-1").
  vm_compute in H. destruct H as [_ H]. apply H. reflexivity.
Qed.

(** Claim C9 (amended).  Whenever the sentiment analysis answers, the
    result is the base confidence plus the adjustment (-25, -15 or -8 for
    negative sentiment above the three pairs of thresholds, +5 for positive
    sentiment with confidence above 80, 0 otherwise), clamped to
    [10, 95]; when the analysis fails, the base confidence is returned
    unchanged. *)
Theorem calculateSentimentAwareConfidence_adjusts_and_clamps
  (svc : Services.t) (baseConfidence : Z) (emailData : EmailData.t) (userId : string) :
  let adjusted := calculateSentimentAwareConfidence svc baseConfidence emailData userId in
  (forall sentimentResult,
      Services.analyzeSentiment svc (EmailData.body emailData) = Returns sentimentResult ->
      adjusted
      = Z.max 10
          (Z.min 95
             (baseConfidence
              + claimedAdjustment (SentimentResult.sentiment sentimentResult)
                  (orNumber (SentimentResult.negative sentimentResult) 0)
                  (orNumber (SentimentResult.confidence sentimentResult) 0)))
      /\ 10 <= adjusted <= 95)
  /\ (forall e,
        Services.analyzeSentiment svc (EmailData.body emailData) = Throws e ->
        adjusted = baseConfidence).
Proof.
  intros adjusted. subst adjusted. unfold calculateSentimentAwareConfidence.
  split.
  - intros r Hr. rewrite Hr. split; [|lia].
    unfold claimedAdjustment.
    destruct (String.eqb (SentimentResult.sentiment r) "NEGATIVE") eqn:Eneg.
    + apply String.eqb_eq in Eneg. rewrite Eneg. simpl.
      repeat match goal with
             | |- context [if ?b then _ else _] => destruct b
             end; reflexivity.
    + reflexivity.
  - intros e He. now rewrite He.
Qed.

(** An angry message lowers 100 to 75; a failed analysis leaves 100. *)
Lemma calculateSentimentAwareConfidence_witness :
  calculateSentimentAwareConfidence
    (Fixtures.services (Returns (Fixtures.classified "general" 100))
       (Returns (Fixtures.sentimentOf "NEGATIVE" 80 95))
       Fixtures.approvedContent (Returns true))
    100 Fixtures.orderQuestion "merchant-1" = 75
  /\ calculateSentimentAwareConfidence
       (Fixtures.services (Returns (Fixtures.classified "general" 100))
          (Throws "sentiment service unavailable")
          Fixtures.approvedContent (Returns true))
       100 Fixtures.orderQuestion "merchant-1" = 100.
Proof.
  split.
  - exact (proj1 (proj1 (calculateSentimentAwareConfidence_adjusts_and_clamps
                    (Fixtures.services (Returns (Fixtures.classified "general" 100))
                       (Returns (Fixtures.sentimentOf "NEGATIVE" 80 95))
                       Fixtures.approvedContent (Returns true))
                    100 Fixtures.orderQuestion "merchant-1")
                   (Fixtures.sentimentOf "NEGATIVE" 80 95) eq_refl)).
  - exact (proj2 (calculateSentimentAwareConfidence_adjusts_and_clamps
                    (Fixtures.services (Returns (Fixtures.classified "general" 100))
                       (Throws "sentiment service unavailable")
                       Fixtures.approvedContent (Returns true))
                    100 Fixtures.orderQuestion "merchant-1")
                 "sentiment service unavailable" eq_refl).
Defined.

End ConfidenceProps.

(** ** Safety gate and delivery *)

Section SafetyGateProps.
Import AutoResponder.

(** Claim C7.  [sendEmpathicAutoResponse] returns [false] and makes no
    delivery attempt when the recipient matches a blocked pattern or the
    content is not approved by the safety validation; a delivery attempt
    is made only when both checks pass, and then exactly one; the method
    never throws. *)
Theorem sendEmpathicAutoResponse_gated
  (svc : Services.t) (userId customerEmail responseContent originalSubject : string)
  (s : Store.t) :
  let run := sendEmpathicAutoResponse svc userId customerEmail responseContent
               originalSubject s in
  (isValidEmailForProduction customerEmail = false
   \/ (exists v, Services.validateResponse svc responseContent userId = Returns v
                 /\ SafetyValidation.approved v = false) ->
   fst run = Returns false
   /\ Store.deliveryAttempts (snd run) = Store.deliveryAttempts s)
  /\ (Store.deliveryAttempts (snd run) <> Store.deliveryAttempts s ->
      isValidEmailForProduction customerEmail = true
      /\ (exists v, Services.validateResponse svc responseContent userId = Returns v
                    /\ SafetyValidation.approved v = true)
      /\ Store.deliveryAttempts (snd run)
         = (userId, {| OutgoingEmail.to := customerEmail;
                       OutgoingEmail.subject := "Re: " ++ originalSubject;
                       OutgoingEmail.html := responseContent |})
             :: Store.deliveryAttempts s)
  /\ (exists sent, fst run = Returns sent).
Proof.
  intros run. subst run.
  unfold sendEmpathicAutoResponse, tryCatch, bind, await, ret, sendEmail.
  destruct (isValidEmailForProduction customerEmail) eqn:Evalid; simpl.
  2:{ split; [auto|]. split; [congruence|eauto]. }
  destruct (Services.validateResponse svc responseContent userId) as [v|e] eqn:Esafe; simpl.
  2:{ split; [auto|]. split; [congruence|eauto]. }
  destruct (SafetyValidation.approved v) eqn:Eappr; simpl.
  2:{ split; [auto|]. split; [congruence|eauto]. }
  assert (Hpass : ~ (true = false
                     \/ (exists v0, Returns v = Returns v0
                                    /\ SafetyValidation.approved v0 = false))).
  { intros [Hf|(v0 & Hv & Hf)]; [discriminate|]. injection Hv as <-. congruence. }
  destruct (Services.sendEmail svc userId _) as [sent|e] eqn:Esend; simpl.
  - split; [intros Hblock; now destruct Hpass|].
    split; [|eauto]. intros _. split; [reflexivity|]. split; [eauto|reflexivity].
  - split; [intros Hblock; now destruct Hpass|].
    split; [|eauto]. intros _. split; [reflexivity|]. split; [eauto|reflexivity].
Qed.

(** A no-reply recipient and a blocked content are both refused without a
    delivery attempt. *)
Lemma sendEmpathicAutoResponse_witness :
  let blocked :=
    Fixtures.services (Returns (Fixtures.classified "general" 80)) Fixtures.calm
      Fixtures.blockedContent (Returns true) in
  let s := Fixtures.merchant [] (Some false) in
  (fst (sendEmpathicAutoResponse blocked "merchant-1" "noreply@shopper.org" "Hello" "Hi" s)
   = Returns false
   /\ Store.deliveryAttempts
        (snd (sendEmpathicAutoResponse blocked "merchant-1" "noreply@shopper.org" "Hello" "Hi" s))
      = Store.deliveryAttempts s)
  /\ (fst (sendEmpathicAutoResponse blocked "merchant-1" "alice@shopper.org" "Hello" "Hi" s)
      = Returns false
      /\ Store.deliveryAttempts
           (snd (sendEmpathicAutoResponse blocked "merchant-1" "alice@shopper.org" "Hello" "Hi" s))
         = Store.deliveryAttempts s).
Proof.
  intros blocked s. split.
  - apply (proj1 (sendEmpathicAutoResponse_gated blocked "merchant-1"
                    "noreply@shopper.org" "Hello" "Hi" s)).
    left. reflexivity.
  - apply (proj1 (sendEmpathicAutoResponse_gated blocked "merchant-1"
                    "alice@shopper.org" "Hello" "Hi" s)).
    right. eexists. split; reflexivity.
Defined.

End SafetyGateProps.

(** ** Routing *)

Section RoutingProps.
Import AutoResponder.

(** The monad operations, unfolded. *)
Ltac run :=
  unfold processIncomingEmail, escalateEmail, findMatchingRule, getAutoResponderRules,
    getSystemSettings, createEmail, updateEmail, createEscalationQueue, createActivityLog,
    createAutomationApprovalItem, resolveIdentifier, tryCatch, bind, await, ret, throw,
    setEmails, findEmail;
  cbn [fst snd Email.id Store.emails Store.escalationQueue Store.approvalQueue
       Store.activityLogs Store.rules Store.settings Store.deliveryAttempts
       Store.nextEmailId map].

Ltac simp_store := repeat (progress (cbn; rewrite ?Nat.eqb_refl)).

Lemma lowConfidenceReason_mentions (confidence : Z) :
  JsString.includes "low confidence"
    (JsString.toLowerCase
       ("Low confidence classification (" ++ JsString.ofZ confidence
          ++ "%) or complex inquiry requiring human review")) = true.
Proof. reflexivity. Qed.

(** Claim C5.  When sentiment does not trigger escalation and the
    classifier confidence is below 60 or the category is [escalation], the
    pipeline escalates: it returns an escalated result, queues an
    escalation item and stores the message as [escalated], with a reason
    that mentions low confidence. *)
Theorem low_confidence_or_escalation_category_escalates
  (svc : Services.t) (userId : string) (emailData : EmailData.t) (s : Store.t) :
  let classification :=
    classifyEmail svc (EmailData.body emailData) (EmailData.subject emailData)
      (Some userId) in
  fst (sentimentEscalationOf (Services.analyzeSentiment svc (EmailData.body emailData)))
  = false ->
  ClassificationResult.confidence classification < 60
  \/ ClassificationResult.classification classification = "escalation" ->
  exists processed s' item stored,
    processIncomingEmail svc userId emailData s = (Returns processed, s')
    /\ dispositionOf processed = escalate
    /\ Store.escalationQueue s' = item :: Store.escalationQueue s
    /\ EscalationItem.emailId item = ProcessedEmail.id processed
    /\ EscalationItem.reason item
       = "Low confidence classification ("
           ++ JsString.ofZ (ClassificationResult.confidence classification)
           ++ "%) or complex inquiry requiring human review"
    /\ JsString.includes "low confidence"
         (JsString.toLowerCase (EscalationItem.reason item)) = true
    /\ findEmail (ProcessedEmail.id processed) s' = Some stored
    /\ Email.status stored = escalated
    /\ Email.escalationReason stored = Some (EscalationItem.reason item).
Proof.
  intros classification Hsent Hlow.
  assert (Hcond :
            ((ClassificationResult.confidence classification <? 60)
             || String.eqb (ClassificationResult.classification classification) "escalation"
             || false)%bool = true).
  { destruct Hlow as [H|H].
    - apply Z.ltb_lt in H. now rewrite H.
    - rewrite H. simpl. now rewrite orb_true_r. }
  run.
  destruct (Services.linkEmailToThread svc _ _ _ _);
    destruct (sentimentEscalationOf _) as [esc reason]; simpl in Hsent; subst esc;
    fold classification; rewrite Hcond; simp_store;
    do 4 eexists; (split; [reflexivity|]); simp_store;
    repeat split; reflexivity.
Qed.

(** Confidence 45 with category [general] escalates with the low-confidence
    reason. *)
Lemma low_confidence_witness :
  exists processed s',
    processIncomingEmail
      (Fixtures.services (Returns (Fixtures.classified "general" 45)) Fixtures.calm
         Fixtures.approvedContent (Returns true))
      "merchant-1" Fixtures.orderQuestion
      (Fixtures.merchant [Fixtures.generalRule] (Some false))
    = (Returns processed, s')
    /\ dispositionOf processed = escalate
    /\ map EscalationItem.reason (Store.escalationQueue s')
       = ["Low confidence classification (45%) or complex inquiry requiring human review"].
Proof.
  destruct (low_confidence_or_escalation_category_escalates
              (Fixtures.services (Returns (Fixtures.classified "general" 45)) Fixtures.calm
                 Fixtures.approvedContent (Returns true))
              "merchant-1" Fixtures.orderQuestion
              (Fixtures.merchant [Fixtures.generalRule] (Some false))
              eq_refl (or_introl eq_refl))
    as (processed & s' & item & stored & Hrun & Hdisp & Hq & _ & Hreason & _).
  exists processed, s'. split; [exact Hrun|]. split; [exact Hdisp|].
  rewrite Hq. simpl. rewrite Hreason. reflexivity.
Defined.



Lemma veryAngry_reason_urgent (negativeScore sentimentConfidence : Z) :
  JsString.includes "Very angry"
    ("Very angry customer detected (" ++ JsString.ofZ negativeScore
       ++ "% negative sentiment with " ++ JsString.ofZ sentimentConfidence
       ++ "% confidence)") = true.
Proof. reflexivity. Qed.

Lemma frustrated_reason_high (negativeScore : Z) :
  JsString.includes "Very angry"
    ("Highly frustrated customer detected (" ++ JsString.ofZ negativeScore
       ++ "% negative sentiment)") = false.
Proof.
  apply includes_absent.
  rewrite !occurs_append, occurs_ofZ. reflexivity.
Qed.

(** What the pipeline does once the sentiment block has set
    [sentimentEscalation]. *)
Lemma sentiment_escalation_run
  (svc : Services.t) (userId : string) (emailData : EmailData.t) (s : Store.t)
  (sentimentReason : string) :
  sentimentEscalationOf (Services.analyzeSentiment svc (EmailData.body emailData))
  = (true, sentimentReason) ->
  exists processed s' item stored,
    processIncomingEmail svc userId emailData s = (Returns processed, s')
    /\ dispositionOf processed = escalate
    /\ Store.escalationQueue s' = item :: Store.escalationQueue s
    /\ EscalationItem.emailId item = ProcessedEmail.id processed
    /\ EscalationItem.priority item
       = (if JsString.includes "Very angry" sentimentReason then urgent else high)
    /\ EscalationItem.reason item = "Negative sentiment detected - " ++ sentimentReason
    /\ findEmail (ProcessedEmail.id processed) s' = Some stored
    /\ Email.status stored = escalated
    /\ Store.deliveryAttempts s' = Store.deliveryAttempts s.
Proof.
  intros Hsent. run. rewrite Hsent.
  rewrite !orb_true_r.
  destruct (Services.linkEmailToThread svc _ _ _ _); simp_store;
    do 4 eexists; (split; [reflexivity|]); simp_store;
    repeat split; reflexivity.
Qed.

(** Claim C3 (amended).  Sentiment escalation triggers exactly when the
    assessment is labelled [NEGATIVE] and either negative score > 75 with
    confidence > 90 or negative score > 85 with confidence > 80.  When it
    triggers, the pipeline escalates whatever the classifier answered, with
    priority [urgent] in the first case and [high] otherwise, and sends
    nothing. *)
Theorem negative_sentiment_escalates
  (svc : Services.t) (userId : string) (emailData : EmailData.t) (s : Store.t)
  (sentimentResult : SentimentResult.t) :
  Services.analyzeSentiment svc (EmailData.body emailData) = Returns sentimentResult ->
  let negativeScore := orNumber (SentimentResult.negative sentimentResult) 0 in
  let sentimentConfidence := orNumber (SentimentResult.confidence sentimentResult) 0 in
  (fst (sentimentEscalationOf (Returns sentimentResult)) = true
   <-> SentimentResult.sentiment sentimentResult = "NEGATIVE"
       /\ claimedSentimentTrigger negativeScore sentimentConfidence)
  /\ (SentimentResult.sentiment sentimentResult = "NEGATIVE" ->
      claimedSentimentTrigger negativeScore sentimentConfidence ->
      exists processed s' item stored,
        processIncomingEmail svc userId emailData s = (Returns processed, s')
        /\ dispositionOf processed = escalate
        /\ Store.escalationQueue s' = item :: Store.escalationQueue s
        /\ EscalationItem.emailId item = ProcessedEmail.id processed
        /\ EscalationItem.priority item
           = (if ((75 <? negativeScore) && (90 <? sentimentConfidence))%bool
              then urgent else high)
        /\ (EscalationItem.priority item = high \/ EscalationItem.priority item = urgent)
        /\ findEmail (ProcessedEmail.id processed) s' = Some stored
        /\ Email.status stored = escalated
        /\ Store.deliveryAttempts s' = Store.deliveryAttempts s).
Proof.
  intros Hsent negativeScore sentimentConfidence. split.
  - unfold sentimentEscalationOf, claimedSentimentTrigger.
    fold negativeScore sentimentConfidence.
    destruct (String.eqb_spec (SentimentResult.sentiment sentimentResult) "NEGATIVE")
      as [Hneg|Hneg].
    + destruct (75 <? negativeScore) eqn:E1; destruct (90 <? sentimentConfidence) eqn:E2;
        destruct (85 <? negativeScore) eqn:E3; destruct (80 <? sentimentConfidence) eqn:E4;
        simpl;
        rewrite ?Z.ltb_lt, ?Z.ltb_ge in *;
        (split; [intros H; first [discriminate | split; [assumption|lia]]
                |intros [_ H]; first [reflexivity | lia]]).
    + simpl. split; [discriminate|]. intros [H _]. contradiction.
  - intros Hneg Htrig.
    set (urgentCase := ((75 <? negativeScore) && (90 <? sentimentConfidence))%bool).
    assert (Hesc : exists reason,
               sentimentEscalationOf
                 (Services.analyzeSentiment svc (EmailData.body emailData))
               = (true, reason)
               /\ JsString.includes "Very angry" reason = urgentCase).
    { rewrite Hsent. unfold sentimentEscalationOf. rewrite Hneg. simpl String.eqb.
      cbv iota. fold negativeScore sentimentConfidence. fold urgentCase.
      destruct urgentCase eqn:Eu.
      - eexists. split; [reflexivity|]. apply veryAngry_reason_urgent.
      - assert (Hhigh : ((85 <? negativeScore) && (80 <? sentimentConfidence))%bool = true).
        { unfold urgentCase in Eu. unfold claimedSentimentTrigger in Htrig.
          apply andb_false_iff in Eu. rewrite !Z.ltb_ge in Eu.
          apply andb_true_iff. rewrite !Z.ltb_lt. lia. }
        rewrite Hhigh. eexists. split; [reflexivity|]. apply frustrated_reason_high. }
    destruct Hesc as (reason & Hrun & Hinc).
    destruct (sentiment_escalation_run svc userId emailData s reason Hrun)
      as (processed & s' & item & stored & H1 & H2 & H3 & H4 & H5 & H6 & H7 & H8 & H9).
    exists processed, s', item, stored.
    rewrite Hinc in H5.
    repeat (split; [assumption|]).
    split; [|auto]. rewrite H5. destruct urgentCase; auto.
Qed.


(** Negative score 92 at confidence 95 escalates with priority [urgent]. *)
Lemma negative_sentiment_witness :
  exists processed s' item,
    processIncomingEmail
      (Fixtures.services (Returns (Fixtures.classified "order_status" 82))
         (Returns (Fixtures.sentimentOf "NEGATIVE" 92 95))
         Fixtures.approvedContent (Returns true))
      "merchant-1" Fixtures.orderQuestion
      (Fixtures.merchant [Fixtures.orderStatusRule] (Some false))
    = (Returns processed, s')
    /\ dispositionOf processed = escalate
    /\ Store.escalationQueue s' = [item]
    /\ EscalationItem.priority item = urgent.
Proof.
  destruct (proj2 (negative_sentiment_escalates
                     (Fixtures.services (Returns (Fixtures.classified "order_status" 82))
                        (Returns (Fixtures.sentimentOf "NEGATIVE" 92 95))
                        Fixtures.approvedContent (Returns true))
                     "merchant-1" Fixtures.orderQuestion
                     (Fixtures.merchant [Fixtures.orderStatusRule] (Some false))
                     (Fixtures.sentimentOf "NEGATIVE" 92 95) eq_refl)
              eq_refl (or_introl (conj eq_refl eq_refl)))
    as (processed & s' & item & stored & Hrun & Hdisp & Hq & _ & Hprio & _).
  exists processed, s', item. auto.
Defined.

(** Claim C3, counterexample.  An assessment with negative score 90 and
    confidence 85 whose label is not [NEGATIVE] does not escalate: the
    message is answered automatically. *)
Lemma high_negative_score_without_negative_label_is_automated :
  let svc :=
    Fixtures.services (Returns (Fixtures.classified "order_status" 82))
      (Returns (Fixtures.sentimentOf "MIXED" 90 85))
      Fixtures.approvedContent (Returns true) in
  exists sentimentResult processed s',
    Services.analyzeSentiment svc (EmailData.body Fixtures.orderQuestion)
    = Returns sentimentResult
    /\ 85 < orNumber (SentimentResult.negative sentimentResult) 0
    /\ 80 < orNumber (SentimentResult.confidence sentimentResult) 0
    /\ processIncomingEmail svc "merchant-1" Fixtures.orderQuestion
         (Fixtures.merchant [Fixtures.orderStatusRule] (Some false))
       = (Returns processed, s')
    /\ dispositionOf processed = automate
    /\ Store.escalationQueue s' = []
    /\ List.length (Store.deliveryAttempts s') = 1%nat.
Proof.
  intros svc. do 3 eexists.
  split; [reflexivity|]. split; [reflexivity|]. split; [reflexivity|].
  split; [vm_compute; reflexivity|]. repeat split.
Qed.

Lemma find_first_match {A} (p : A -> bool) (l : list A) (x : A) :
  In x l -> p x = true -> exists y, find p l = Some y /\ In y l /\ p y = true.
Proof.
  intros Hin Hp. destruct (find p l) as [y|] eqn:E.
  - exists y. apply find_some in E. tauto.
  - exfalso. pose proof (find_none p l E x Hin) as H. congruence.
Qed.

Lemma find_no_match {A} (p : A -> bool) (l : list A) :
  (forall x, In x l -> p x = false) -> find p l = None.
Proof.
  intros H. destruct (find p l) as [y|] eqn:E; [|reflexivity].
  apply find_some in E. destruct E as [Hin Hp]. rewrite (H y Hin) in Hp. discriminate.
Qed.

(** Claim C6.  Among the rules of the account, [findMatchingRule] returns
    an active rule whose category equals the classified category whenever
    one exists; when none exists and confidence is below 70 it returns an
    active [general] rule if there is one; when none exists and confidence
    is 70 or more it returns no rule, so the generic fallback is not used;
    a returned rule is always an active rule of the account, exact or, under
    those conditions, generic.  When no rule resolves, the pipeline
    escalates with the reason "No matching auto-responder rule". *)
Theorem rule_resolution
  (svc : Services.t) (userId : string) (emailData : EmailData.t) (s : Store.t)
  (category : string) (confidence : Z) :
  let ofAccount := fun r => In r (Store.rules s) /\ Rule.userId r = userId in
  let noExact :=
    forall r, ofAccount r -> Rule.isActive r = true -> Rule.classification r <> category in
  let resolved := fst (findMatchingRule userId category confidence s) in
  snd (findMatchingRule userId category confidence s) = s
  /\ ((exists r0, ofAccount r0 /\ Rule.isActive r0 = true
                  /\ Rule.classification r0 = category) ->
      exists r, resolved = Returns (Some r) /\ ofAccount r /\ Rule.isActive r = true
                /\ Rule.classification r = category)
  /\ (noExact -> confidence < 70 ->
      (exists r0, ofAccount r0 /\ Rule.isActive r0 = true
                  /\ Rule.classification r0 = "general") ->
      exists r, resolved = Returns (Some r) /\ ofAccount r /\ Rule.isActive r = true
                /\ Rule.classification r = "general")
  /\ (noExact -> 70 <= confidence -> resolved = Returns None)
  /\ (forall r, resolved = Returns (Some r) ->
        ofAccount r /\ Rule.isActive r = true
        /\ (Rule.classification r = category
            \/ (Rule.classification r = "general" /\ confidence < 70 /\ noExact)))
  /\ (let classification :=
        classifyEmail svc (EmailData.body emailData) (EmailData.subject emailData)
          (Some userId) in
      fst (sentimentEscalationOf
             (Services.analyzeSentiment svc (EmailData.body emailData))) = false ->
      60 <= ClassificationResult.confidence classification ->
      ClassificationResult.classification classification <> "escalation" ->
      fst (findMatchingRule userId (ClassificationResult.classification classification)
             (ClassificationResult.confidence classification) s) = Returns None ->
      exists processed s' item stored,
        processIncomingEmail svc userId emailData s = (Returns processed, s')
        /\ dispositionOf processed = escalate
        /\ Store.escalationQueue s' = item :: Store.escalationQueue s
        /\ EscalationItem.emailId item = ProcessedEmail.id processed
        /\ EscalationItem.reason item = "No matching auto-responder rule"
        /\ findEmail (ProcessedEmail.id processed) s' = Some stored
        /\ Email.status stored = escalated
        /\ Email.escalationReason stored = Some "No matching auto-responder rule").
Proof.
  intros ofAccount noExact resolved.
  set (rules := filter (fun r => String.eqb (Rule.userId r) userId) (Store.rules s)).
  set (exact := fun r => (String.eqb (Rule.classification r) category
                          && Rule.isActive r)%bool).
  set (generic := fun r => (String.eqb (Rule.classification r) "general"
                            && Rule.isActive r)%bool).
  assert (Hres : resolved
                 = Returns match find exact rules with
                           | Some r => Some r
                           | None => if confidence <? 70 then find generic rules else None
                           end).
  { subst resolved. unfold findMatchingRule, getAutoResponderRules, bind, ret. simpl.
    fold rules. destruct (find _ rules); reflexivity. }
  assert (Hrules : forall r, In r rules <-> ofAccount r).
  { intros r. unfold rules, ofAccount. rewrite filter_In, String.eqb_eq. tauto. }
  assert (Hexact : forall r, exact r = true
                             <-> Rule.classification r = category /\ Rule.isActive r = true).
  { intros r. unfold exact. now rewrite andb_true_iff, String.eqb_eq. }
  assert (Hgeneric : forall r, generic r = true
                               <-> Rule.classification r = "general"
                                   /\ Rule.isActive r = true).
  { intros r. unfold generic. now rewrite andb_true_iff, String.eqb_eq. }
  assert (Hnone : noExact <-> find exact rules = None).
  { split.
    - intros Hno. apply find_no_match. intros r Hin. apply Hrules in Hin.
      destruct (exact r) eqn:E; [|reflexivity].
      apply Hexact in E. destruct E as [Hc Ha]. destruct (Hno r Hin Ha Hc).
    - intros Hf r Hacc Ha Hc. apply Hrules in Hacc.
      pose proof (find_none exact rules Hf r Hacc) as H.
      assert (exact r = true) by (apply Hexact; auto). congruence. }
  split; [reflexivity|].
  split.
  { intros (r0 & Hacc & Ha & Hc).
    destruct (find_first_match exact rules r0) as (r & Hf & Hin & Hp).
    - now apply Hrules.
    - apply Hexact; auto.
    - exists r. rewrite Hres, Hf. apply Hrules in Hin. apply Hexact in Hp. tauto. }
  split.
  { intros Hno Hc (r0 & Hacc & Ha & Hg).
    destruct (find_first_match generic rules r0) as (r & Hf & Hin & Hp).
    - now apply Hrules.
    - apply Hgeneric; auto.
    - exists r. apply Hnone in Hno. apply Z.ltb_lt in Hc.
      rewrite Hres, Hno, Hc, Hf. apply Hrules in Hin. apply Hgeneric in Hp. tauto. }
  split.
  { intros Hno Hc. apply Hnone in Hno. apply Z.ltb_ge in Hc. now rewrite Hres, Hno, Hc. }
  split.
  { intros r Hr. rewrite Hres in Hr. injection Hr as Hr.
    destruct (find exact rules) as [r'|] eqn:Ee.
    - injection Hr as ->. apply find_some in Ee. destruct Ee as [Hin Hp].
      apply Hrules in Hin. apply Hexact in Hp. tauto.
    - destruct (confidence <? 70) eqn:Ec; [|discriminate]. apply Z.ltb_lt in Ec.
      apply find_some in Hr. destruct Hr as [Hin Hp].
      apply Hrules in Hin. apply Hgeneric in Hp.
      assert (Hno : noExact) by (apply Hnone; reflexivity). tauto. }
  intros classification Hsent Hconf Hcat Hnomatch.
  assert (Hcond :
            ((ClassificationResult.confidence classification <? 60)
             || String.eqb (ClassificationResult.classification classification) "escalation"
             || false)%bool = false).
  { apply Z.ltb_ge in Hconf. rewrite Hconf.
    apply String.eqb_neq in Hcat. now rewrite Hcat. }
  unfold findMatchingRule, getAutoResponderRules, bind, ret in Hnomatch.
  simpl in Hnomatch. injection Hnomatch as Hnomatch.
  run.
  destruct (Services.linkEmailToThread svc _ _ _ _);
    destruct (sentimentEscalationOf _) as [esc reason]; simpl in Hsent; subst esc;
    fold classification; rewrite Hcond; cbv iota; cbn [fst snd Store.rules];
    rewrite Hnomatch; simp_store;
    do 4 eexists; (split; [reflexivity|]); simp_store;
    repeat split; reflexivity.
Qed.

(** A [return_request] message finds the generic rule at confidence 65 and
    no rule at confidence 82, where it is escalated. *)
Lemma rule_resolution_witness :
  (exists r, fst (findMatchingRule "merchant-1" "return_request" 65
                    (Fixtures.merchant [Fixtures.orderStatusRule; Fixtures.generalRule]
                       (Some false)))
             = Returns (Some r)
             /\ Rule.classification r = "general")
  /\ fst (findMatchingRule "merchant-1" "return_request" 82
            (Fixtures.merchant [Fixtures.orderStatusRule; Fixtures.generalRule] (Some false)))
     = Returns None
  /\ exists processed s' item,
       processIncomingEmail
         (Fixtures.services (Returns (Fixtures.classified "return_request" 82))
            Fixtures.calm Fixtures.approvedContent (Returns true))
         "merchant-1" Fixtures.orderQuestion
         (Fixtures.merchant [Fixtures.orderStatusRule; Fixtures.generalRule] (Some false))
       = (Returns processed, s')
       /\ dispositionOf processed = escalate
       /\ Store.escalationQueue s' = [item]
       /\ EscalationItem.reason item = "No matching auto-responder rule".
Proof.
  pose (svc := Fixtures.services (Returns (Fixtures.classified "return_request" 82))
                 Fixtures.calm Fixtures.approvedContent (Returns true)).
  pose (s := Fixtures.merchant [Fixtures.orderStatusRule; Fixtures.generalRule] (Some false)).
  assert (Hno : forall r,
             In r (Store.rules s) /\ Rule.userId r = "merchant-1" ->
             Rule.isActive r = true -> Rule.classification r <> "return_request").
  { intros r [[<-|[<-|[]]] _] _; discriminate. }
  split; [|split].
  - destruct (rule_resolution svc "merchant-1" Fixtures.orderQuestion s "return_request" 65)
      as (_ & _ & Hgeneric & _).
    destruct (Hgeneric Hno eq_refl) as (r & Hr & _ & _ & Hc).
    + exists Fixtures.generalRule. repeat split. right. left. reflexivity.
    + exists r. split; assumption.
  - destruct (rule_resolution svc "merchant-1" Fixtures.orderQuestion s "return_request" 82)
      as (_ & _ & _ & Hnone & _).
    apply Hnone; [exact Hno | discriminate].
  - destruct (rule_resolution svc "merchant-1" Fixtures.orderQuestion s "return_request" 82)
      as (_ & _ & _ & _ & _ & Hrun).
    destruct (Hrun eq_refl ltac:(discriminate) ltac:(discriminate) eq_refl)
      as (processed & s' & item & stored & Hp & Hdisp & Hq & _ & Hreason & _).
    exists processed, s', item. auto.
Defined.

(** Claim C1, evaluated where it fails.  With the default approval
    setting, a message classified [order_status] at confidence 82 that
    matches an active rule reaches the approval branch, where the run stops
    with a [ReferenceError]; the stored message is left [processing] and no
    approval item is queued. *)
Theorem approval_required_message_stays_processing :
  let svc :=
    Fixtures.services (Returns (Fixtures.classified "order_status" 82)) Fixtures.calm
      Fixtures.approvedContent (Returns true) in
  exists s' stored,
    processIncomingEmail svc "merchant-1" Fixtures.orderQuestion
      (Fixtures.merchant [Fixtures.orderStatusRule] None)
    = (Throws "ReferenceError: responseContext is not defined", s')
    /\ findEmail 0 s' = Some stored
    /\ Email.status stored = processing
    /\ isTerminal (Email.status stored) = false
    /\ Store.approvalQueue s' = []
    /\ Store.escalationQueue s' = [].
Proof.
  intros svc. do 2 eexists. split; [vm_compute; reflexivity|].
  repeat split.
Qed.

(** Every run that reaches the approval branch stops at the unbound
    identifier, before the approval item is stored and before the status
    is updated. *)
Lemma approval_branch_throws
  (svc : Services.t) (userId : string) (emailData : EmailData.t) (s : Store.t)
  (rule : Rule.t) :
  let classification :=
    classifyEmail svc (EmailData.body emailData) (EmailData.subject emailData)
      (Some userId) in
  fst (sentimentEscalationOf (Services.analyzeSentiment svc (EmailData.body emailData)))
  = false ->
  60 <= ClassificationResult.confidence classification ->
  ClassificationResult.classification classification <> "escalation" ->
  fst (findMatchingRule userId (ClassificationResult.classification classification)
         (ClassificationResult.confidence classification) s) = Returns (Some rule) ->
  approvalRequiredOf
    (find (fun x => String.eqb (Settings.userId x) userId) (Store.settings s)) = true ->
  exists s' stored,
    processIncomingEmail svc userId emailData s
    = (Throws "ReferenceError: responseContext is not defined", s')
    /\ findEmail (Store.nextEmailId s) s' = Some stored
    /\ Email.status stored = processing
    /\ Store.approvalQueue s' = Store.approvalQueue s.
Proof.
  intros classification Hsent Hconf Hcat Hrule Happr.
  assert (Hcond :
            ((ClassificationResult.confidence classification <? 60)
             || String.eqb (ClassificationResult.classification classification) "escalation"
             || false)%bool = false).
  { apply Z.ltb_ge in Hconf. rewrite Hconf.
    apply String.eqb_neq in Hcat. now rewrite Hcat. }
  unfold findMatchingRule, getAutoResponderRules, bind, ret in Hrule. simpl in Hrule.
  injection Hrule as Hrule.
  run.
  destruct (Services.linkEmailToThread svc _ _ _ _);
    destruct (sentimentEscalationOf _) as [esc reason]; simpl in Hsent; subst esc;
    fold classification; rewrite Hcond; cbv iota; cbn [fst snd Store.rules Store.settings];
    rewrite Hrule; cbn [fst snd Store.rules Store.settings]; rewrite Happr; simp_store;
    do 2 eexists; (split; [reflexivity|]); simp_store;
    repeat split; reflexivity.
Qed.

Ltac finish_returned :=
  simp_store; intros Hrun; first [discriminate | injection Hrun as <- <-];
  simp_store; eexists; split; reflexivity.

Lemma sendEmpathicAutoResponse_emails svc userId customerEmail content subject s :
  Store.emails (snd (sendEmpathicAutoResponse svc userId customerEmail content subject s))
  = Store.emails s.
Proof.
  unfold sendEmpathicAutoResponse, tryCatch, bind, await, ret, sendEmail.
  destruct (isValidEmailForProduction customerEmail); simpl; [|reflexivity].
  destruct (Services.validateResponse svc content userId) as [v|e]; simpl; [|reflexivity].
  destruct (SafetyValidation.approved v); simpl; [|reflexivity].
  destruct (Services.sendEmail svc userId _); reflexivity.
Qed.

Lemma returned_message_is_terminal
  (svc : Services.t) (userId : string) (emailData : EmailData.t) (s s' : Store.t)
  (processed : ProcessedEmail.t) :
  processIncomingEmail svc userId emailData s = (Returns processed, s') ->
  exists stored,
    findEmail (ProcessedEmail.id processed) s' = Some stored
    /\ isTerminal (Email.status stored) = true.
Proof.
  run. unfold updateAutoResponderRule.
  set (classification :=
         classifyEmail svc (EmailData.body emailData) (EmailData.subject emailData)
           (Some userId)).
  destruct (Services.linkEmailToThread svc _ _ _ _);
    destruct (sentimentEscalationOf _) as [esc reason];
    (destruct (_ || esc)%bool; [finish_returned|]);
    cbn [fst snd Store.rules Store.settings];
    (destruct (match find _ _ with Some rule => Some rule | None => _ end) as [rule|];
     [|finish_returned]);
    cbn [fst snd Store.rules Store.settings];
    (destruct (approvalRequiredOf _); [finish_returned|]);
    match goal with
    | |- (let (o, s2) := ?h ?s1 in _) = _ -> _ =>
        assert (He : Store.emails (snd (h s1)) = Store.emails s1);
        [ repeat match goal with
                 | |- context [if ?b then _ else _] => destruct b
                 | |- context [match ?x with Returns _ => _ | Throws _ => _ end] =>
                     destruct x
                 end;
          first [reflexivity | apply sendEmpathicAutoResponse_emails]
        | destruct (h s1) as [[[|]|err] st2]; cbn [snd] in He;
          cbn [fst snd Store.emails Store.rules]; try rewrite He; finish_returned ]
    end.
Qed.

End RoutingProps.

(** ** Effects of the pipeline on the message table *)

Section Preservation.
Import AutoResponder.

Variable R : Store.t -> Store.t -> Prop.
Hypothesis R_refl : forall s, R s s.
Hypothesis R_trans : forall a b c, R a b -> R b c -> R a c.

Lemma preserves_ret {A} (a : A) : preserves R (ret a).
Proof. intros s. apply R_refl. Qed.

Lemma preserves_throw {A} (e : string) : preserves R (@throw A e).
Proof. intros s. apply R_refl. Qed.

Lemma preserves_await {A} (o : Outcome A) : preserves R (await o).
Proof. intros s. apply R_refl. Qed.

Lemma preserves_bind {A B} (m : M A) (k : A -> M B) :
  preserves R m -> (forall a, preserves R (k a)) -> preserves R (bind m k).
Proof.
  intros Hm Hk s. unfold bind. specialize (Hm s).
  destruct (m s) as [[a|e] s1]; simpl in *; [|exact Hm].
  eapply R_trans; [exact Hm|apply Hk].
Qed.

Lemma preserves_tryCatch {A} (m : M A) (h : string -> M A) :
  preserves R m -> (forall e, preserves R (h e)) -> preserves R (tryCatch m h).
Proof.
  intros Hm Hh s. unfold tryCatch. specialize (Hm s).
  destruct (m s) as [[a|e] s1]; simpl in *; [exact Hm|].
  eapply R_trans; [exact Hm|apply Hh].
Qed.

End Preservation.

Section MessageTable.
Import AutoResponder.

Lemma sameMessageIds_refl s : sameMessageIds s s.
Proof. reflexivity. Qed.

Lemma sameMessageIds_trans a b c :
  sameMessageIds a b -> sameMessageIds b c -> sameMessageIds a c.
Proof. unfold sameMessageIds. congruence. Qed.


Lemma keeps_updateEmail (id : nat) (patch : Email.t -> Email.t) :
  (forall e, Email.messageId (patch e) = Email.messageId e) ->
  preserves sameMessageIds (updateEmail id patch).
Proof.
  intros Hpatch s. unfold sameMessageIds, messageIds, updateEmail. simpl.
  rewrite map_map. apply map_ext. intros e.
  destruct (Nat.eqb (Email.id e) id); auto.
Qed.

Lemma keeps_createEscalationQueue item :
  preserves sameMessageIds (createEscalationQueue item).
Proof. intros s. reflexivity. Qed.

Lemma keeps_createActivityLog entry :
  preserves sameMessageIds (createActivityLog entry).
Proof. intros s. reflexivity. Qed.

Lemma keeps_createAutomationApprovalItem item :
  preserves sameMessageIds (createAutomationApprovalItem item).
Proof. intros s. reflexivity. Qed.

Lemma keeps_getAutoResponderRules userId :
  preserves sameMessageIds (getAutoResponderRules userId).
Proof. intros s. reflexivity. Qed.

Lemma keeps_getSystemSettings userId :
  preserves sameMessageIds (getSystemSettings userId).
Proof. intros s. reflexivity. Qed.

Lemma keeps_updateAutoResponderRule id n :
  preserves sameMessageIds (updateAutoResponderRule id n).
Proof. intros s. reflexivity. Qed.

Lemma keeps_sendEmail svc userId mail :
  preserves sameMessageIds (sendEmail svc userId mail).
Proof. intros s. reflexivity. Qed.

Lemma keeps_resolveIdentifier scope name :
  preserves sameMessageIds (resolveIdentifier scope name).
Proof. intros s. unfold resolveIdentifier. destruct (existsb _ _); reflexivity. Qed.

Ltac keep_step :=
  first
    [ apply (preserves_ret sameMessageIds sameMessageIds_refl)
    | apply (preserves_throw sameMessageIds sameMessageIds_refl)
    | apply (preserves_await sameMessageIds sameMessageIds_refl)
    | apply keeps_createEscalationQueue
    | apply keeps_createActivityLog
    | apply keeps_createAutomationApprovalItem
    | apply keeps_getAutoResponderRules
    | apply keeps_getSystemSettings
    | apply keeps_updateAutoResponderRule
    | apply keeps_sendEmail
    | apply keeps_resolveIdentifier
    | apply keeps_updateEmail; [intros ?; reflexivity]
    | apply (preserves_bind sameMessageIds sameMessageIds_trans); [|intros ?]
    | apply (preserves_tryCatch sameMessageIds sameMessageIds_trans); [|intros ?]
    | progress cbv zeta
    | match goal with
      | |- preserves _ (if ?b then _ else _) => destruct b
      | |- preserves _ (match ?x with _ => _ end) => destruct x
      end ].

Ltac keep := repeat keep_step.

Lemma keeps_escalateEmail emailId userId classification reason :
  preserves sameMessageIds (escalateEmail emailId userId classification reason).
Proof. unfold escalateEmail. keep. Qed.

Lemma keeps_findMatchingRule userId category confidence :
  preserves sameMessageIds (findMatchingRule userId category confidence).
Proof. unfold findMatchingRule. keep. Qed.

Lemma keeps_sendEmpathicAutoResponse svc userId customerEmail content subject :
  preserves sameMessageIds (sendEmpathicAutoResponse svc userId customerEmail content subject).
Proof. unfold sendEmpathicAutoResponse. keep. Qed.

(** Claim C2 (amended).  Every invocation of [processIncomingEmail]
    inserts exactly one new message row carrying the submitted external
    identifier and leaves the identifiers of the existing rows as they
    were, whether or not a row with that identifier already exists, and
    whatever the run then does. *)
Theorem every_submission_creates_a_record
  (svc : Services.t) (userId : string) (emailData : EmailData.t) (s : Store.t) :
  let s' := snd (processIncomingEmail svc userId emailData s) in
  messageIds s' = EmailData.messageId emailData :: messageIds s
  /\ List.length (Store.emails s') = S (List.length (Store.emails s))
  /\ (forall messageId,
        EmailData.messageId emailData = Some messageId ->
        List.length (recordsWithMessageId messageId s')
        = S (List.length (recordsWithMessageId messageId s))).
Proof.
  intros s'.
  assert (Hids : messageIds s' = EmailData.messageId emailData :: messageIds s).
  { subst s'. unfold processIncomingEmail.
    unfold bind at 1. unfold createEmail at 1. cbv beta iota.
    match goal with
    | |- messageIds (snd (?k ?e ?s1)) = _ =>
        assert (Hk : preserves sameMessageIds (k e)); [|exact (Hk s1)]
    end.
    repeat first [ apply keeps_escalateEmail
                 | apply keeps_findMatchingRule
                 | apply keeps_sendEmpathicAutoResponse
                 | keep_step ]. }
  assert (Hcount : forall m l,
             List.length (filter (fun e => match Email.messageId e with
                                           | Some x => String.eqb x m
                                           | None => false
                                           end) l)
             = List.length (filter (fun o => match o with
                                             | Some x => String.eqb x m
                                             | None => false
                                             end) (map Email.messageId l))).
  { intros m l. induction l as [|e l IH]; simpl; [reflexivity|].
    destruct (Email.messageId e) as [x|]; [destruct (String.eqb x m)|]; simpl; congruence. }
  split; [exact Hids|]. split.
  - apply (f_equal (@List.length _)) in Hids. unfold messageIds in Hids.
    rewrite !length_map in Hids. simpl in Hids. rewrite length_map in Hids. exact Hids.
  - intros m Hm. unfold recordsWithMessageId. rewrite !Hcount.
    fold (messageIds s') (messageIds s). rewrite Hids, Hm. simpl.
    now rewrite String.eqb_refl.
Qed.

End MessageTable.

Section Idempotence.
Import AutoResponder.

(** Claim C2, counterexample.  Submitting the same message twice stores
    two rows with the same external identifier and, when approval is not
    required, sends two replies. *)
Lemma duplicate_submission_creates_two_records_and_two_sends :
  let svc :=
    Fixtures.services (Returns (Fixtures.classified "order_status" 82)) Fixtures.calm
      Fixtures.approvedContent (Returns true) in
  let s0 := Fixtures.merchant [Fixtures.orderStatusRule] (Some false) in
  let s1 := snd (processIncomingEmail svc "merchant-1" Fixtures.orderQuestion s0) in
  let s2 := snd (processIncomingEmail svc "merchant-1" Fixtures.orderQuestion s1) in
  EmailData.messageId Fixtures.orderQuestion = Some "msg-0001"
  /\ List.length (recordsWithMessageId "msg-0001" s1) = 1%nat
  /\ List.length (recordsWithMessageId "msg-0001" s2) = 2%nat
  /\ List.length (Store.deliveryAttempts s2) = 2%nat
  /\ map Email.status (Store.emails s2) = [resolved; resolved].
Proof. vm_compute. repeat split. Qed.

(** The first submission stores one row with the identifier. *)
Lemma every_submission_witness :
  List.length
    (recordsWithMessageId "msg-0001"
       (snd (processIncomingEmail
               (Fixtures.services (Returns (Fixtures.classified "order_status" 82))
                  Fixtures.calm Fixtures.approvedContent (Returns true))
               "merchant-1" Fixtures.orderQuestion
               (Fixtures.merchant [Fixtures.orderStatusRule] (Some false)))))
  = 1%nat.
Proof.
  exact (proj2 (proj2 (every_submission_creates_a_record
                         (Fixtures.services (Returns (Fixtures.classified "order_status" 82))
                            Fixtures.calm Fixtures.approvedContent (Returns true))
                         "merchant-1" Fixtures.orderQuestion
                         (Fixtures.merchant [Fixtures.orderStatusRule] (Some false))))
               "msg-0001" eq_refl).
Defined.

End Idempotence.
(** * Properties of the remaining methods *)

(** ** Order numbers *)

Section OrderNumberProps.
Open Scope string_scope.
Open Scope Z_scope.
Import JsText OrderNumbers.

Lemma suffixOf_refl (s : string) : suffixOf s s.
Proof. exists "". reflexivity. Qed.

Lemma append_assoc (a b c : string) : (a ++ b) ++ c = a ++ (b ++ c).
Proof. induction a as [|x a IH]; simpl; [reflexivity|now rewrite IH]. Qed.

Lemma suffixOf_trans (a b c : string) : suffixOf a b -> suffixOf b c -> suffixOf a c.
Proof.
  intros [p ->] [q ->]. exists (q ++ p). now rewrite append_assoc.
Qed.

Lemma suffixOf_tail (c : ascii) (s : string) : suffixOf s (String c s).
Proof. exists (String c ""). reflexivity. Qed.

Lemma takeWhile_dropWhile (p : ascii -> bool) (s : string) :
  s = takeWhile p s ++ dropWhile p s.
Proof.
  induction s as [|c s IH]; simpl; [reflexivity|].
  destruct (p c); simpl; [now rewrite <- IH|reflexivity].
Qed.

Lemma dropWhile_suffix (p : ascii -> bool) (s : string) : suffixOf (dropWhile p s) s.
Proof. exists (takeWhile p s). apply takeWhile_dropWhile. Qed.

Lemma dropOptional_suffix (c : ascii) (s : string) : suffixOf (dropOptional c s) s.
Proof.
  destruct s as [|d s]; simpl; [apply suffixOf_refl|].
  destruct (Ascii.eqb c d); [apply suffixOf_tail|apply suffixOf_refl].
Qed.

Lemma matchLiteralCI_suffix (p : string) :
  forall s r, matchLiteralCI p s = Some r -> suffixOf r s.
Proof.
  induction p as [|a p IH]; intros [|b s] r; simpl; try discriminate.
  - intros [= <-]. apply suffixOf_refl.
  - intros [= <-]. apply suffixOf_refl.
  - destruct (Ascii.eqb _ _); [|discriminate]. intros H.
    eapply suffixOf_trans; [apply (IH _ _ H)|apply suffixOf_tail].
Qed.

Lemma takeWhile_allDigits (s : string) :
  allDigits (takeWhile AutoResponder.isDigit s) = true.
Proof.
  induction s as [|c s IH]; simpl; [reflexivity|].
  destruct (AutoResponder.isDigit c) eqn:E; simpl; [now rewrite E|reflexivity].
Qed.

Lemma captured_weaken (n m : nat) (d s : string) :
  (m <= n)%nat -> captured n d s -> captured m d s.
Proof. intros Hmn (H1 & H2 & H3). repeat split; [assumption|lia|assumption]. Qed.

Lemma captured_suffix (n : nat) (d r s : string) :
  suffixOf r s -> captured n d r -> captured n d s.
Proof.
  intros [p ->] (H1 & H2 & (a & b & ->)). repeat split; try assumption.
  exists (p ++ a), b. now rewrite append_assoc.
Qed.

Lemma digitsAtLeast_captured (n : nat) (s d : string) :
  digitsAtLeast n s = Some d -> captured n d s.
Proof.
  unfold digitsAtLeast.
  destruct (Nat.leb n _) eqn:E; [|discriminate]. intros [= <-].
  apply Nat.leb_le in E. repeat split.
  - apply takeWhile_allDigits.
  - exact E.
  - exists "", (dropWhile AutoResponder.isDigit s). simpl. apply takeWhile_dropWhile.
Qed.

Lemma leftmost_captured (n : nat) (m : string -> option string) :
  (forall s d, m s = Some d -> captured n d s) ->
  forall s d, leftmost m s = Some d -> captured n d s.
Proof.
  intros Hm s. induction s as [|c s IH]; intros d; simpl.
  - destruct (m "") eqn:E; [|discriminate]. intros [= <-]. now apply Hm.
  - destruct (m (String c s)) eqn:E.
    + intros [= <-]. now apply Hm.
    + intros H. eapply captured_suffix; [apply suffixOf_tail|now apply IH].
Qed.

Lemma leftmostAfter_captured (n : nat) (m : option ascii -> string -> option string) :
  (forall prev s d, m prev s = Some d -> captured n d s) ->
  forall s prev d, leftmostAfter m prev s = Some d -> captured n d s.
Proof.
  intros Hm s. induction s as [|c s IH]; intros prev d; simpl.
  - destruct (m prev "") eqn:E; [|discriminate]. intros [= <-]. now apply Hm in E.
  - destruct (m prev (String c s)) eqn:E.
    + intros [= <-]. now apply Hm in E.
    + intros H. eapply captured_suffix; [apply suffixOf_tail|eapply IH; exact H].
Qed.

Lemma boundedDigits_captured (lo : nat) (hi : option nat) prev s d :
  boundedDigits lo hi prev s = Some d -> captured lo d s.
Proof.
  unfold boundedDigits.
  destruct (_ && _ && _)%bool eqn:E; [|discriminate]. intros [= <-].
  apply andb_true_iff in E. destruct E as [E _].
  apply andb_true_iff in E. destruct E as [_ E].
  apply andb_true_iff in E. destruct E as [E _]. apply Nat.leb_le in E.
  repeat split.
  - apply takeWhile_allDigits.
  - exact E.
  - exists "", (dropWhile AutoResponder.isDigit s). simpl. apply takeWhile_dropWhile.
Qed.

Ltac through_prefix :=
  repeat first
    [ apply suffixOf_refl
    | eapply suffixOf_trans; [apply dropWhile_suffix|]
    | eapply suffixOf_trans; [apply dropOptional_suffix|]
    | eapply suffixOf_trans; [eapply matchLiteralCI_suffix; eassumption|] ].

Lemma orderThenDigits_captured s d : orderThenDigits s = Some d -> captured 1 d s.
Proof.
  unfold orderThenDigits. destruct (matchLiteralCI "order" s) as [r|] eqn:E; [|discriminate].
  intros H. apply digitsAtLeast_captured in H.
  eapply captured_suffix; [|exact H]. through_prefix.
Qed.

Lemma orderNumberThenDigits_captured s d :
  orderNumberThenDigits s = Some d -> captured 1 d s.
Proof.
  unfold orderNumberThenDigits.
  destruct (matchLiteralCI "order" s) as [r|] eqn:E; [|discriminate].
  destruct (matchLiteralCI "number" _) as [r'|] eqn:E'; [|discriminate].
  intros H. apply digitsAtLeast_captured in H.
  eapply captured_suffix; [|exact H]. through_prefix.
Qed.

Lemma hashThenDigits_captured s d : hashThenDigits s = Some d -> captured 4 d s.
Proof.
  unfold hashThenDigits. destruct s as [|c r]; [discriminate|].
  destruct (Ascii.eqb_spec c "#") as [->|Hc].
  - intros H. apply digitsAtLeast_captured in H.
    eapply captured_suffix; [apply suffixOf_tail|exact H].
  - destruct c as [[] [] [] [] [] [] [] []]; try discriminate. now destruct Hc.
Qed.

Lemma orderThenLongDigits_captured s d :
  orderThenLongDigits s = Some d -> captured 4 d s.
Proof.
  unfold orderThenLongDigits.
  destruct (matchLiteralCI "order" s) as [r|] eqn:E; [|discriminate].
  intros H. apply digitsAtLeast_captured in H.
  eapply captured_suffix; [|exact H]. through_prefix.
Qed.

Lemma orderNumberThenLongDigits_captured s d :
  orderNumberThenLongDigits s = Some d -> captured 4 d s.
Proof.
  unfold orderNumberThenLongDigits.
  destruct (matchLiteralCI "order" s) as [r|] eqn:E; [|discriminate].
  destruct (matchLiteralCI "number" _) as [r'|] eqn:E'; [|discriminate].
  intros H. apply digitsAtLeast_captured in H.
  eapply captured_suffix; [|exact H]. through_prefix.
Qed.

Lemma ordDashDigits_captured s d : ordDashDigits s = Some d -> captured 4 d s.
Proof.
  unfold ordDashDigits.
  destruct (matchLiteralCI "ord" s) as [r|] eqn:E; [|discriminate].
  destruct (dropWhile isEorR r) as [|c r'] eqn:E'; [discriminate|].
  destruct (Ascii.eqb_spec c "-") as [->|Hc].
  - intros H. apply digitsAtLeast_captured in H.
    eapply captured_suffix; [|exact H].
    eapply suffixOf_trans; [apply suffixOf_tail|]. rewrite <- E'. through_prefix.
  - destruct c as [[] [] [] [] [] [] [] []]; try discriminate. now destruct Hc.
Qed.

(** Property X1.  Whatever [extractOrderNumber] returns is a non-empty string
    of decimal digits that occurs in the body. *)
Theorem extractOrderNumber_digits_of_body (emailBody d : string) :
  extractOrderNumber emailBody = Some d ->
  d <> "" /\ allDigits d = true /\ occursIn d emailBody.
Proof.
  intros H.
  assert (Hc : captured 1 d emailBody).
  { unfold extractOrderNumber, orderPatterns, firstMatch in H.
    destruct (leftmost orderThenDigits emailBody) as [x|] eqn:E1.
    { injection H as <-. eapply leftmost_captured; [apply orderThenDigits_captured|exact E1]. }
    destruct (leftmost orderNumberThenDigits emailBody) as [x|] eqn:E2.
    { injection H as <-.
      eapply leftmost_captured; [apply orderNumberThenDigits_captured|exact E2]. }
    destruct (leftmost hashThenDigits emailBody) as [x|] eqn:E3.
    { injection H as <-. apply (captured_weaken 4); [lia|].
      eapply leftmost_captured; [apply hashThenDigits_captured|exact E3]. }
    destruct (leftmostAfter _ None emailBody) as [x|] eqn:E4; [|discriminate].
    injection H as <-. apply (captured_weaken 4); [lia|].
    eapply leftmostAfter_captured; [|exact E4].
    intros prev s' d'. apply boundedDigits_captured. }
  destruct Hc as (H1 & H2 & H3). repeat split; try assumption.
  intros ->. simpl in H2. lia.
Qed.

(** Property X2.  Whatever [extractOrderNumberFromEmail] returns is a string
    of at least four decimal digits that occurs in the subject and body joined
    by a space. *)
Theorem extractOrderNumberFromEmail_four_digits (subject body d : string) :
  extractOrderNumberFromEmail subject body = Some d ->
  (4 <= String.length d)%nat /\ allDigits d = true
  /\ occursIn d (subject ++ " " ++ body).
Proof.
  intros H.
  assert (Hc : captured 4 d (subject ++ " " ++ body)).
  { unfold extractOrderNumberFromEmail, emailOrderPatterns, firstMatch in H.
    set (content := subject ++ " " ++ body) in *.
    destruct (leftmost hashThenDigits content) as [x|] eqn:E1.
    { injection H as <-. eapply leftmost_captured; [apply hashThenDigits_captured|exact E1]. }
    destruct (leftmost orderThenLongDigits content) as [x|] eqn:E2.
    { injection H as <-.
      eapply leftmost_captured; [apply orderThenLongDigits_captured|exact E2]. }
    destruct (leftmost orderNumberThenLongDigits content) as [x|] eqn:E3.
    { injection H as <-.
      eapply leftmost_captured; [apply orderNumberThenLongDigits_captured|exact E3]. }
    destruct (leftmost ordDashDigits content) as [x|] eqn:E4.
    { injection H as <-. eapply leftmost_captured; [apply ordDashDigits_captured|exact E4]. }
    destruct (leftmostAfter _ None content) as [x|] eqn:E5; [|discriminate].
    injection H as <-. apply (captured_weaken 5); [lia|].
    eapply leftmostAfter_captured; [|exact E5].
    intros prev s' d'. apply boundedDigits_captured. }
  destruct Hc as (H1 & H2 & H3). auto.
Qed.

Lemma leftmost_found (m : string -> option string) (before s : string) (d : string) :
  m s = Some d -> exists d', leftmost m (before ++ s) = Some d'.
Proof.
  intros Hm. induction before as [|c before IH]; simpl.
  - destruct s; simpl; rewrite Hm; eauto.
  - destruct (m (String c (before ++ s))); eauto.
Qed.

Lemma takeWhile_digits_append (n rest : string) :
  allDigits n = true ->
  (String.length n <= String.length (takeWhile AutoResponder.isDigit (n ++ rest)))%nat.
Proof.
  induction n as [|c n IH]; simpl; [lia|].
  intros H. apply andb_true_iff in H. destruct H as [Hc Hn].
  rewrite Hc. simpl. specialize (IH Hn). lia.
Qed.

(** Property X3.  A body that contains "order #" followed by at least one
    digit always yields an order number, whatever surrounds it. *)
Theorem extractOrderNumber_finds_order_hash (before number rest : string) :
  number <> "" -> allDigits number = true ->
  exists d, extractOrderNumber (before ++ "order #" ++ number ++ rest) = Some d.
Proof.
  intros Hne Hd.
  assert (Hm : exists d, orderThenDigits ("order #" ++ number ++ rest) = Some d).
  { unfold orderThenDigits. simpl. unfold digitsAtLeast.
    pose proof (takeWhile_digits_append number rest Hd) as Hlen.
    destruct number as [|c number]; [congruence|].
    simpl in Hd. apply andb_true_iff in Hd. destruct Hd as [Hc Hd].
    assert (Hws : isWhitespace c = false).
    { destruct c as [[] [] [] [] [] [] [] []]; try discriminate Hc; reflexivity. }
    cbn [append dropWhile]. rewrite Hws. 
    destruct (Nat.leb 1 _) eqn:E; [eauto|].
    apply Nat.leb_gt in E. simpl in Hlen. simpl in E. rewrite Hc in *. simpl in *. lia. }
  destruct Hm as [d Hm].
  destruct (leftmost_found orderThenDigits before _ d Hm) as [d' Hs].
  exists d'. unfold extractOrderNumber, orderPatterns, firstMatch. now rewrite Hs.
Qed.

(** The number of a tracking question is digits taken from the body. *)
Lemma extractOrderNumber_digits_witness :
  "12345" <> "" /\ allDigits "12345" = true
  /\ occursIn "12345" "Where is my order #12345?".
Proof.
  exact (extractOrderNumber_digits_of_body "Where is my order #12345?" "12345" eq_refl).
Defined.

(** A body that says "order #12345" yields a number. *)
Lemma extractOrderNumber_finds_witness :
  exists d, extractOrderNumber ("Where is my " ++ "order #" ++ "12345" ++ "?") = Some d.
Proof.
  apply (extractOrderNumber_finds_order_hash "Where is my " "12345" "?");
    [discriminate|reflexivity].
Defined.

(** The number of an ORD-55555 subject. *)
Lemma extractOrderNumberFromEmail_witness :
  (4 <= String.length "55555")%nat /\ allDigits "55555" = true
  /\ occursIn "55555" ("Re: ORD-55555" ++ " " ++ "hello").
Proof.
  exact (extractOrderNumberFromEmail_four_digits "Re: ORD-55555" "hello" "55555" eq_refl).
Defined.

End OrderNumberProps.


(** ** Recipients and the other send paths *)

Section RecipientProps.
Open Scope string_scope.
Open Scope Z_scope.
Import AutoResponder.
Import JsString.

Lemma toLowerCase_append (a b : string) :
  toLowerCase (a ++ b) = toLowerCase a ++ toLowerCase b.
Proof. induction a as [|c a IH]; simpl; [reflexivity|now rewrite IH]. Qed.

Lemma startsWith_append (p b : string) : startsWith p (p ++ b) = true.
Proof.
  induction p as [|c p IH]; simpl; [reflexivity|].
  now rewrite Ascii.eqb_refl, IH.
Qed.

Lemma includes_prefix (p b : string) : includes p (p ++ b) = true.
Proof.
  destruct p as [|c p]; simpl.
  - destruct b; reflexivity.
  - now rewrite Ascii.eqb_refl, startsWith_append.
Qed.

Lemma includes_append (p a b : string) : includes p (a ++ p ++ b) = true.
Proof.
  induction a as [|c a IH]; simpl; [apply includes_prefix|].
  rewrite IH. apply orb_true_r.
Qed.

Lemma endsWith_append (p a : string) : endsWith p (a ++ p) = true.
Proof.
  induction a as [|c a IH]; simpl.
  - destruct p as [|x p]; [reflexivity|].
    cbn [append endsWith]. now rewrite String.eqb_refl.
  - rewrite IH. apply orb_true_r.
Qed.

Lemma startsWithThenDigit_append (p : string) (c : ascii) (b : string) :
  isDigit c = true -> startsWithThenDigit p (p ++ String c b) = true.
Proof.
  intros Hc. induction p as [|x p IH]; simpl; [exact Hc|].
  now rewrite Ascii.eqb_refl, IH.
Qed.

Lemma includesThenDigit_append (p a : string) (c : ascii) (b : string) :
  isDigit c = true -> includesThenDigit p (a ++ p ++ String c b) = true.
Proof.
  intros Hc. induction a as [|x a IH]; simpl.
  - destruct p as [|y p]; simpl.
    + now rewrite Hc.
    + now rewrite Ascii.eqb_refl, startsWithThenDigit_append.
  - rewrite IH. apply orb_true_r.
Qed.

Lemma lowerAscii_digit (c : ascii) : isDigit c = true -> lowerAscii c = c.
Proof. destruct c as [[] [] [] [] [] [] [] []]; intros H; try discriminate H; reflexivity. Qed.

(** An address one of the blocked patterns matches is not valid. *)
Lemma blocked_by (n : nat) (email : string) :
  nth n blockedPatterns (fun _ => false) email = true ->
  isValidEmailForProduction email = false.
Proof.
  intros H. unfold isValidEmailForProduction. apply negb_false_iff.
  apply existsb_exists. exists (nth n blockedPatterns (fun _ => false)).
  split; [|exact H].
  destruct (Nat.lt_ge_cases n (List.length blockedPatterns)) as [Hlt|Hge].
  - now apply nth_In.
  - rewrite nth_overflow in H by exact Hge. discriminate.
Qed.

(** Property X4.  The recipients [isValidEmailForProduction] rejects, in any
    letter case: an address that starts with "test" or "demo"; one that ends
    with "example.com", "test.com" or ".test"; one that contains "noreply",
    "donotreply", "+test" or "demo_"; and one that contains "user" followed by
    a digit. *)
Theorem blocked_recipients (before keyword after : string) (digit : ascii) :
  (toLowerCase keyword = "test" \/ toLowerCase keyword = "demo" ->
   isValidEmailForProduction (keyword ++ after) = false)
  /\ (toLowerCase keyword = "example.com" \/ toLowerCase keyword = "test.com"
      \/ toLowerCase keyword = ".test" ->
      isValidEmailForProduction (before ++ keyword) = false)
  /\ (toLowerCase keyword = "noreply" \/ toLowerCase keyword = "donotreply"
      \/ toLowerCase keyword = "+test" \/ toLowerCase keyword = "demo_" ->
      isValidEmailForProduction (before ++ keyword ++ after) = false)
  /\ (toLowerCase keyword = "user" -> isDigit digit = true ->
      isValidEmailForProduction (before ++ keyword ++ String digit after) = false).
Proof.
  repeat split.
  - intros [H|H]; [apply (blocked_by 0)|apply (blocked_by 1)];
      unfold blockedPatterns; cbn [nth];
      rewrite toLowerCase_append, H; apply startsWith_append.
  - intros [H|[H|H]]; [apply (blocked_by 2)|apply (blocked_by 3)|apply (blocked_by 4)];
      unfold blockedPatterns; cbn [nth];
      rewrite toLowerCase_append, H; apply endsWith_append.
  - intros [H|[H|[H|H]]];
      [apply (blocked_by 8)|apply (blocked_by 9)|apply (blocked_by 7)|apply (blocked_by 6)];
      unfold blockedPatterns; cbn [nth];
      rewrite !toLowerCase_append, H; apply includes_append.
  - intros H Hd. apply (blocked_by 5). unfold blockedPatterns; cbn [nth].
    rewrite !toLowerCase_append, H. cbn [toLowerCase].
    rewrite (lowerAscii_digit _ Hd). now apply includesThenDigit_append.
Qed.

(** Four rejected addresses, one per family. *)
Lemma blocked_recipients_witness :
  isValidEmailForProduction ("Test" ++ ".buyer@shopper.org") = false
  /\ isValidEmailForProduction ("alice@con" ++ "test.com") = false
  /\ isValidEmailForProduction ("shop-" ++ "NoReply" ++ "@merchant.shop") = false
  /\ isValidEmailForProduction ("super" ++ "user" ++ String "4" "2@corp.org") = false.
Proof.
  split; [|split; [|split]].
  - apply (proj1 (blocked_recipients "" "Test" ".buyer@shopper.org" "0")).
    left. reflexivity.
  - apply (proj1 (proj2 (blocked_recipients "alice@con" "test.com" "" "0"))).
    right. left. reflexivity.
  - apply (proj1 (proj2 (proj2 (blocked_recipients "shop-" "NoReply" "@merchant.shop" "0")))).
    left. reflexivity.
  - apply (proj2 (proj2 (proj2 (blocked_recipients "super" "user" "2@corp.org" "4"))));
      reflexivity.
Defined.

End RecipientProps.

Section OtherSendPaths.
Open Scope string_scope.
Open Scope Z_scope.
Import AutoResponder Replies.

(** The text chosen before validation is the rule's template, unless a body
    was given and the grounding call returned a text that is not blank. *)
Lemma responseTemplateOf_choice
  (generateGroundedResponse : string -> string -> string -> Outcome (option string))
  (userId : string) (rule : Rule.t) (originalBody : option string) :
  let chosen := responseTemplateOf generateGroundedResponse userId rule originalBody in
  (chosen = Rule.template rule
   \/ exists body text,
        originalBody = Some body /\ body <> ""
        /\ generateGroundedResponse body (Rule.classification rule) userId
           = Returns (Some text)
        /\ JsText.trim text <> "" /\ chosen = text)
  /\ (forall body e,
        originalBody = Some body ->
        generateGroundedResponse body (Rule.classification rule) userId = Throws e ->
        chosen = Rule.template rule)
  /\ (forall body text,
        originalBody = Some body -> body <> "" ->
        generateGroundedResponse body (Rule.classification rule) userId
        = Returns (Some text) ->
        JsText.trim text <> "" -> chosen = text).
Proof.
  intros chosen. subst chosen. unfold responseTemplateOf, usable.
  split; [|split].
  - destruct originalBody as [[|c body]|]; cbn [orString JsString.truthy]; auto.
    destruct (generateGroundedResponse _ _ _) as [[text|]|e] eqn:E; auto.
    destruct (JsText.trim text) as [|x t] eqn:Et; cbn [JsString.truthy]; auto.
    right. exists (String c body), text.
    assert (Htext : orString (Some text) "" = text).
    { destruct text; [discriminate Et|reflexivity]. }
    rewrite Htext. repeat split; try congruence.
  - intros body e -> Hg. destruct body as [|c body]; cbn [orString JsString.truthy]; auto.
    now rewrite Hg.
  - intros body text -> Hb Hg Ht. destruct body as [|c body]; [congruence|].
    cbn [orString JsString.truthy]. rewrite Hg.
    destruct (JsText.trim text) as [|x t] eqn:Et; [congruence|]. cbn [JsString.truthy].
    destruct text; [discriminate Et|reflexivity].
Qed.

(** What [sendAutoResponse] does once the recipient has passed the filter,
    in terms of the text it has chosen. *)
Lemma sendAutoResponse_validates_chosen
  (svc : Services.t)
  (generateGroundedResponse : string -> string -> string -> Outcome (option string))
  (userId customerEmail : string) (rule : Rule.t) (originalSubject : string)
  (originalBody : option string) (s : Store.t) (chosen : string)
  (v : SafetyValidation.t) :
  isValidEmailForProduction customerEmail = true ->
  responseTemplateOf generateGroundedResponse userId rule originalBody = chosen ->
  Services.validateResponse svc chosen userId = Returns v ->
  let run := sendAutoResponse svc generateGroundedResponse userId customerEmail rule
               originalSubject originalBody s in
  if SafetyValidation.approved v then
    Store.deliveryAttempts (snd run)
    = (userId, {| OutgoingEmail.to := customerEmail;
                  OutgoingEmail.subject := "Re: " ++ originalSubject;
                  OutgoingEmail.html := chosen |})
        :: Store.deliveryAttempts s
  else fst run = Returns false /\ snd run = s.
Proof.
  intros Hvalid Hchosen Hv run. subst run.
  unfold sendAutoResponse, tryCatch, bind, await, ret, sendEmail, getSystemSettings.
  rewrite Hvalid, Hchosen. cbn [negb]. rewrite Hv. cbn [fst snd].
  destruct (SafetyValidation.approved v); cbn [negb fst snd]; [|now split].
  destruct (Services.sendEmail svc userId _); reflexivity.
Qed.

(** Property X5.  For a recipient that passes the filter, [sendAutoResponse]
    validates and sends one text. When a non-empty original body was given and
    the grounding call returned a text that is not blank, it is that text: the
    mail carries it when the validation approves it, and nothing is sent, not
    even the rule's template, when it does not. When no body was given, or the
    grounding call throws or returns nothing or a blank text, it is the rule's
    template, under the same validation. *)
Theorem sendAutoResponse_sends_grounded_text_or_template
  (svc : Services.t)
  (generateGroundedResponse : string -> string -> string -> Outcome (option string))
  (userId customerEmail : string) (rule : Rule.t) (originalSubject : string)
  (originalBody : option string) (s : Store.t) :
  let run := sendAutoResponse svc generateGroundedResponse userId customerEmail rule
               originalSubject originalBody s in
  let mail (text : string) :=
    (userId, {| OutgoingEmail.to := customerEmail;
                OutgoingEmail.subject := "Re: " ++ originalSubject;
                OutgoingEmail.html := text |}) in
  let outcome (text : string) (v : SafetyValidation.t) :=
    if SafetyValidation.approved v
    then Store.deliveryAttempts (snd run) = mail text :: Store.deliveryAttempts s
    else fst run = Returns false /\ snd run = s in
  isValidEmailForProduction customerEmail = true ->
  (forall body text v,
      originalBody = Some body -> body <> "" ->
      generateGroundedResponse body (Rule.classification rule) userId
      = Returns (Some text) ->
      JsText.trim text <> "" ->
      Services.validateResponse svc text userId = Returns v ->
      outcome text v)
  /\ (forall v,
        originalBody = None \/ originalBody = Some ""
        \/ (exists body,
              originalBody = Some body
              /\ ((exists e, generateGroundedResponse body (Rule.classification rule)
                               userId = Throws e)
                  \/ generateGroundedResponse body (Rule.classification rule) userId
                     = Returns None
                  \/ exists text,
                       generateGroundedResponse body (Rule.classification rule) userId
                       = Returns (Some text)
                       /\ JsText.trim text = "")) ->
        Services.validateResponse svc (Rule.template rule) userId = Returns v ->
        outcome (Rule.template rule) v).
Proof.
  intros run mail outcome Hvalid. subst outcome mail run. cbv beta.
  destruct (responseTemplateOf_choice generateGroundedResponse userId rule originalBody)
    as (_ & Hthrows & Hgrounded).
  cbv zeta in Hthrows, Hgrounded.
  split.
  - intros body text v Hbody Hne Hg Htrim Hv.
    apply (sendAutoResponse_validates_chosen svc generateGroundedResponse userId
             customerEmail rule originalSubject originalBody s text v Hvalid); [|exact Hv].
    exact (Hgrounded body text Hbody Hne Hg Htrim).
  - intros v Hfallback Hv.
    apply (sendAutoResponse_validates_chosen svc generateGroundedResponse userId
             customerEmail rule originalSubject originalBody s (Rule.template rule) v
             Hvalid); [|exact Hv].
    destruct Hfallback as [->|[->|(body & -> & Hg)]]; [reflexivity|reflexivity|].
    destruct Hg as [[e Hg]|[Hg|(text & Hg & Hblank)]].
    + exact (Hthrows body e eq_refl Hg).
    + unfold responseTemplateOf.
      destruct (JsString.truthy (orString (Some body) "")) eqn:Eb; [|reflexivity].
      assert (Hb : orString (Some body) "" = body).
      { destruct body; [discriminate Eb|reflexivity]. }
      rewrite Hb, Hg. reflexivity.
    + unfold responseTemplateOf.
      destruct (JsString.truthy (orString (Some body) "")) eqn:Eb; [|reflexivity].
      assert (Hb : orString (Some body) "" = body).
      { destruct body; [discriminate Eb|reflexivity]. }
      rewrite Hb, Hg. unfold usable. now rewrite Hblank.
Qed.

(** A grounded answer is what the customer receives. *)
Lemma sendAutoResponse_sends_witness :
  Store.deliveryAttempts
    (snd (sendAutoResponse
            (Fixtures.services (Returns (Fixtures.classified "order_status" 82))
               Fixtures.calm Fixtures.approvedContent (Returns true))
            (fun _ _ _ => Returns (Some "Your parcel left the warehouse today."))
            "merchant-1" "alice@shopper.org" Fixtures.orderStatusRule "Order question"
            (Some "Where is my order?") (Fixtures.merchant [] None)))
  = [("merchant-1",
      {| OutgoingEmail.to := "alice@shopper.org";
         OutgoingEmail.subject := "Re: Order question";
         OutgoingEmail.html := "Your parcel left the warehouse today." |})].
Proof.
  exact (proj1 (sendAutoResponse_sends_grounded_text_or_template
                  (Fixtures.services (Returns (Fixtures.classified "order_status" 82))
                     Fixtures.calm Fixtures.approvedContent (Returns true))
                  (fun _ _ _ => Returns (Some "Your parcel left the warehouse today."))
                  "merchant-1" "alice@shopper.org" Fixtures.orderStatusRule
                  "Order question" (Some "Where is my order?") (Fixtures.merchant [] None)
                  eq_refl)
           "Where is my order?" "Your parcel left the warehouse today."
           {| SafetyValidation.approved := true; SafetyValidation.blockReason := None |}
           eq_refl ltac:(discriminate) eq_refl ltac:(discriminate) eq_refl).
Defined.

(** Property X6.  [sendAutoResponse] makes no delivery attempt and returns
    [false] when the recipient is rejected or the chosen text is not approved;
    when both checks pass it makes exactly one attempt, to the customer, with
    subject "Re: " and the original subject and with the chosen text; it never
    throws. *)
Theorem sendAutoResponse_gated
  (svc : Services.t)
  (generateGroundedResponse : string -> string -> string -> Outcome (option string))
  (userId customerEmail : string) (rule : Rule.t) (originalSubject : string)
  (originalBody : option string) (s : Store.t) :
  let chosen := responseTemplateOf generateGroundedResponse userId rule originalBody in
  let run := sendAutoResponse svc generateGroundedResponse userId customerEmail rule
               originalSubject originalBody s in
  (isValidEmailForProduction customerEmail = false
   \/ (exists v, Services.validateResponse svc chosen userId = Returns v
                 /\ SafetyValidation.approved v = false)
   \/ (exists e, Services.validateResponse svc chosen userId = Throws e) ->
   fst run = Returns false /\ snd run = s)
  /\ (isValidEmailForProduction customerEmail = true ->
      (exists v, Services.validateResponse svc chosen userId = Returns v
                 /\ SafetyValidation.approved v = true) ->
      Store.deliveryAttempts (snd run)
      = (userId, {| OutgoingEmail.to := customerEmail;
                    OutgoingEmail.subject := "Re: " ++ originalSubject;
                    OutgoingEmail.html := chosen |})
          :: Store.deliveryAttempts s)
  /\ (exists sent, fst run = Returns sent).
Proof.
  intros chosen run. subst run.
  unfold sendAutoResponse, tryCatch, bind, await, ret, sendEmail, getSystemSettings.
  fold chosen.
  destruct (isValidEmailForProduction customerEmail) eqn:Evalid; cbn [negb fst snd].
  2:{ split; [auto|]. split; [discriminate|eauto]. }
  destruct (Services.validateResponse svc chosen userId) as [v|e] eqn:Esafe; cbn [fst snd].
  2:{ split; [auto|]. split; [|eauto]. intros _ (v & Hv & _). discriminate. }
  destruct (SafetyValidation.approved v) eqn:Eappr; cbn [negb fst snd].
  2:{ split; [auto|]. split; [|eauto]. intros _ (v' & [= <-] & Hv). congruence. }
  assert (Hpass : ~ (true = false
                     \/ (exists v0, Returns v = Returns v0
                                    /\ SafetyValidation.approved v0 = false)
                     \/ (exists e, @Returns SafetyValidation.t v = Throws e))).
  { intros [Hf|[(v0 & [= <-] & Hf)|(e & Hf)]]; congruence. }
  destruct (Services.sendEmail svc userId _) as [sent|e] eqn:Esend; cbn [fst snd];
    (split; [intros Hblock; now destruct Hpass|]); (split; [|eauto]); reflexivity.
Qed.

(** A blocked text leaves the store as it was. *)
Lemma sendAutoResponse_witness :
  let blocked :=
    Fixtures.services (Returns (Fixtures.classified "general" 80)) Fixtures.calm
      Fixtures.blockedContent (Returns true) in
  let run :=
    sendAutoResponse blocked (fun _ _ _ => Throws "grounding unavailable") "merchant-1"
      "alice@shopper.org" Fixtures.orderStatusRule "Order question" None
      (Fixtures.merchant [] None) in
  fst run = Returns false /\ snd run = Fixtures.merchant [] None.
Proof.
  intros blocked run.
  apply (proj1 (sendAutoResponse_gated blocked (fun _ _ _ => Throws "grounding unavailable")
                  "merchant-1" "alice@shopper.org" Fixtures.orderStatusRule
                  "Order question" None (Fixtures.merchant [] None))).
  right. left. eexists. split; reflexivity.
Defined.

(** Property X7.  [processManualResponse] checks neither the recipient nor the
    text: for every recipient, including those [isValidEmailForProduction]
    rejects, it makes exactly one delivery attempt carrying the given text,
    and it returns what the delivery channel answers, or [false] when the
    channel throws. *)
Theorem processManualResponse_always_sends
  (svc : Services.t) (userId customerEmail action template : string)
  (orderNumber : option string) (s : Store.t) :
  let mail := {| OutgoingEmail.to := customerEmail;
                 OutgoingEmail.subject := manualSubject action orderNumber;
                 OutgoingEmail.html := template |} in
  let run := processManualResponse svc userId customerEmail action template
               orderNumber s in
  Store.deliveryAttempts (snd run) = (userId, mail) :: Store.deliveryAttempts s
  /\ fst run = Returns match Services.sendEmail svc userId mail with
                       | Returns sent => sent
                       | Throws _ => false
                       end
  /\ Store.emails (snd run) = Store.emails s
  /\ Store.activityLogs (snd run) = Store.activityLogs s.
Proof.
  intros mail run. subst run.
  unfold processManualResponse, tryCatch, bind, await, ret, sendEmail, getSystemSettings.
  cbn [fst snd]. fold mail.
  destruct (Services.sendEmail svc userId mail); cbn [fst snd]; repeat split.
Qed.

End OtherSendPaths.

(** ** Confidence values and emotional state *)

Section ScoreProps.
Open Scope string_scope.
Open Scope Z_scope.
Import AutoResponder.

(** Property X8.  Without a user id, and for a completion whose [confidence]
    is an integer or absent (any other type is outside the model of
    [Completion]), [classifyEmail] reports that integer clamped to the range
    from 0 to 100, and 50 when it is absent or 0; an absent or empty category
    is reported as [general] and an absent priority as [medium]. *)
Theorem classifyEmail_integer_confidence_clamped
  (svc : Services.t) (emailContent subject : string) (userId : option string)
  (completion : Completion.t) :
  JsString.truthy (orString userId "") = false ->
  Services.chatCompletion svc emailContent subject = Returns completion ->
  let result := classifyEmail svc emailContent subject userId in
  ClassificationResult.confidence result
  = match Completion.confidence completion with
    | None => 50
    | Some n => if n =? 0 then 50 else Z.max 0 (Z.min 100 n)
    end
  /\ 0 <= ClassificationResult.confidence result <= 100
  /\ (Completion.classification completion = None
      \/ Completion.classification completion = Some "" ->
      ClassificationResult.classification result = "general")
  /\ (Completion.priority completion = None ->
      ClassificationResult.priority result = Some medium).
Proof.
  intros Huser Hcompletion result. subst result.
  unfold classifyEmail, classificationCall. rewrite Huser, Hcompletion.
  cbn [ClassificationResult.confidence ClassificationResult.classification
       ClassificationResult.priority].
  split; [|split; [lia|split]].
  - unfold orNumber. destruct (Completion.confidence completion) as [n|]; [|reflexivity].
    destruct (n =? 0); reflexivity.
  - intros [H|H]; rewrite H; reflexivity.
  - intros H. rewrite H. reflexivity.
Qed.

(** A completion that reports 140 is clamped to 100. *)
Lemma classifyEmail_integer_confidence_witness :
  let completion :=
    {| Completion.classification := Some "order_status";
       Completion.confidence := Some 140;
       Completion.reasoning := None;
       Completion.priority := None;
       Completion.priorityReasoning := None |} in
  let answering :=
    {| Services.linkEmailToThread := fun _ _ _ _ => Returns tt;
       Services.classifyWithGrounding := fun _ _ _ => Throws "not used";
       Services.chatCompletion := fun _ _ => Returns completion;
       Services.analyzeSentiment := fun _ => Fixtures.calm;
       Services.composeEmpatheticResponse := fun _ _ _ => Returns Fixtures.draft;
       Services.validateResponse := fun _ _ => Fixtures.approvedContent;
       Services.sendEmail := fun _ _ => Returns true;
       Services.processEnhancedPromoRefund := fun _ _ _ => Throws "not used";
       Services.processPromoRefund := fun _ _ _ _ => Throws "not used";
       Services.initiateCancellationWorkflow := fun _ _ _ => Throws "not used";
       Services.initiateAddressChangeWorkflow := fun _ _ _ => Throws "not used" |} in
  ClassificationResult.confidence
    (classifyEmail answering "Where is my order?" "Order" None) = 100.
Proof.
  intros completion answering.
  exact (proj1 (classifyEmail_integer_confidence_clamped answering "Where is my order?"
                  "Order" None completion eq_refl eq_refl)).
Defined.

(** Property X9.  [calculateSentimentAwareConfidence] keeps the order of base
    confidences, and never moves a base confidence by more than 25 down or 5
    up beyond what the clamp to [10, 95] does. *)
Theorem calculateSentimentAwareConfidence_monotone
  (svc : Services.t) (emailData : EmailData.t) (userId : string) (low high : Z) :
  low <= high ->
  calculateSentimentAwareConfidence svc low emailData userId
  <= calculateSentimentAwareConfidence svc high emailData userId
  /\ Z.min low 95 - 25 <= calculateSentimentAwareConfidence svc low emailData userId
     <= Z.max low 10 + 5.
Proof.
  intros Hle. unfold calculateSentimentAwareConfidence.
  destruct (Services.analyzeSentiment svc (EmailData.body emailData)) as [r|e]; [|lia].
  repeat match goal with
         | |- context [if ?b then _ else _] => destruct b
         end; lia.
Qed.

(** Base confidences 40 and 90 under an angry assessment. *)
Lemma calculateSentimentAwareConfidence_monotone_witness :
  let angry :=
    Fixtures.services (Returns (Fixtures.classified "general" 90))
      (Returns (Fixtures.sentimentOf "NEGATIVE" 80 95))
      Fixtures.approvedContent (Returns true) in
  calculateSentimentAwareConfidence angry 40 Fixtures.orderQuestion "merchant-1"
  <= calculateSentimentAwareConfidence angry 90 Fixtures.orderQuestion "merchant-1".
Proof.
  intros angry.
  apply (proj1 (calculateSentimentAwareConfidence_monotone angry Fixtures.orderQuestion
                  "merchant-1" 40 90 ltac:(discriminate))).
Defined.

End ScoreProps.

Section EmotionProps.
Open Scope string_scope.
Open Scope Z_scope.
Import AutoResponder EmpatheticResponse.

Lemma hasUrgentKeywords_found (before keyword after : string) :
  In (JsString.toLowerCase keyword) urgentIndicators ->
  hasUrgentKeywords (before ++ keyword ++ after) = true.
Proof.
  intros Hin. unfold hasUrgentKeywords. apply existsb_exists.
  exists (JsString.toLowerCase keyword). split; [exact Hin|].
  rewrite !toLowerCase_append. apply includes_append.
Qed.

(** Property X10.  A message that contains one of the urgency words, in any
    letter case and anywhere in the text, is always assessed as critically
    urgent and never as calm, whatever the sentiment scores are. *)
Theorem urgent_keyword_forces_critical
  (analyzeSentiment : string -> Outcome SentimentResult.t)
  (before keyword after : string) (context : EmpathyContext.t) :
  In (JsString.toLowerCase keyword) urgentIndicators ->
  analyzeCustomerEmotion analyzeSentiment (before ++ keyword ++ after) = Returns context ->
  EmpathyContext.urgencyLevel context = urgencyCritical
  /\ EmpathyContext.customerEmotion context <> calm
  /\ (EmpathyContext.customerEmotion context = desperate
      <-> EmpathyContext.negativeScore context <= 40).
Proof.
  intros Hin. unfold analyzeCustomerEmotion.
  rewrite (hasUrgentKeywords_found before keyword after Hin).
  destruct (analyzeSentiment _) as [r|e]; [|discriminate].
  set (score := orNumber (SentimentResult.negative r) 0).
  destruct (80 <? score) eqn:E1; [|destruct (60 <? score) eqn:E2;
                                    [|destruct (40 <? score) eqn:E3]];
    intros [= <-]; cbn; rewrite ?Z.ltb_lt, ?Z.ltb_ge in *;
    (split; [reflexivity|]); (split; [discriminate|]);
    (split; [intros H; first [discriminate H | lia] | intros H; first [reflexivity | lia]]).
Qed.

(** "I need this ASAP please" from a customer with a low negative score. *)
Lemma urgent_keyword_witness :
  exists context,
    analyzeCustomerEmotion (fun _ => Fixtures.calm) ("I need this " ++ "ASAP" ++ " please")
    = Returns context
    /\ EmpathyContext.urgencyLevel context = urgencyCritical
    /\ EmpathyContext.customerEmotion context = desperate.
Proof.
  eexists. split; [reflexivity|].
  destruct (urgent_keyword_forces_critical (fun _ => Fixtures.calm)
              "I need this " "ASAP" " please" _
              ltac:(simpl; tauto) eq_refl) as (H1 & _ & H3).
  split; [exact H1|]. apply H3. discriminate.
Defined.

(** Property X11.  For one message, a higher negative score never gives a
    lower urgency. *)
Theorem urgency_monotone_in_negative_score
  (analyzeLow analyzeHigh : string -> Outcome SentimentResult.t) (emailContent : string)
  (low high : EmpathyContext.t) :
  analyzeCustomerEmotion analyzeLow emailContent = Returns low ->
  analyzeCustomerEmotion analyzeHigh emailContent = Returns high ->
  EmpathyContext.negativeScore low <= EmpathyContext.negativeScore high ->
  (urgencyRank (EmpathyContext.urgencyLevel low)
   <= urgencyRank (EmpathyContext.urgencyLevel high))%nat.
Proof.
  unfold analyzeCustomerEmotion.
  destruct (analyzeLow emailContent) as [r1|e]; [|discriminate].
  destruct (analyzeHigh emailContent) as [r2|e]; [|discriminate].
  set (s1 := orNumber (SentimentResult.negative r1) 0).
  set (s2 := orNumber (SentimentResult.negative r2) 0).
  destruct (hasUrgentKeywords emailContent);
    destruct (80 <? s1) eqn:A1; destruct (60 <? s1) eqn:A2; destruct (40 <? s1) eqn:A3;
    destruct (80 <? s2) eqn:B1; destruct (60 <? s2) eqn:B2; destruct (40 <? s2) eqn:B3;
    intros [= <-] [= <-]; cbn; rewrite ?Z.ltb_lt, ?Z.ltb_ge in *; lia.
Qed.

(** Negative scores 50 and 85 on the same message. *)
Lemma urgency_monotone_witness :
  (urgencyRank urgencyMedium <= urgencyRank urgencyCritical)%nat.
Proof.
  exact (urgency_monotone_in_negative_score
           (fun _ => Returns (Fixtures.sentimentOf "NEGATIVE" 50 90))
           (fun _ => Returns (Fixtures.sentimentOf "NEGATIVE" 85 90))
           "My parcel is late" _ _ eq_refl eq_refl ltac:(discriminate)).
Defined.

End EmotionProps.

(** ** Embedding cache *)

Section CacheProps.
Open Scope string_scope.
Open Scope Z_scope.
Import JsText EmbeddingService.

Lemma replaceRuns_length (s : string) (inRun : bool) :
  (String.length (replaceRuns inRun s) <= String.length s)%nat.
Proof.
  revert inRun. induction s as [|c s IH]; intros inRun; simpl; [lia|].
  destruct (isWhitespace c); [destruct inRun|]; simpl;
    [specialize (IH true)|specialize (IH true)|specialize (IH false)]; lia.
Qed.

Lemma replaceRuns_no_whitespace (s : string) (inRun : bool) (c : ascii) :
  JsString.occurs c (replaceRuns inRun s) = true -> isWhitespace c = false.
Proof.
  revert inRun. induction s as [|d s IH]; intros inRun; simpl; [discriminate|].
  destruct (isWhitespace d) eqn:Ed; [destruct inRun|]; simpl.
  - apply IH.
  - intros H. apply orb_true_iff in H. destruct H as [H|H]; [|now apply IH in H].
    apply Ascii.eqb_eq in H. subst c. reflexivity.
  - intros H. apply orb_true_iff in H. destruct H as [H|H]; [|now apply IH in H].
    apply Ascii.eqb_eq in H. now subst c.
Qed.

Lemma substring_length_le (n : nat) (s : string) :
  (String.length (String.substring 0 n s) <= n)%nat.
Proof.
  revert s. induction n as [|n IH]; intros [|c s]; simpl; try lia.
  specialize (IH s). lia.
Qed.

Lemma substring_prefix (prefix rest : string) :
  String.substring 0 (String.length prefix) (prefix ++ rest) = prefix.
Proof.
  induction prefix as [|c p IH]; simpl.
  - destruct rest; reflexivity.
  - now rewrite IH.
Qed.

(** Property X12.  A cache key has at most 100 characters, none of them white
    space, and depends on the first 100 characters of the text only: two texts
    that share them have the same key. *)
Theorem createCacheKey_short_and_prefix_only (text : string) :
  (String.length (createCacheKey text) <= 100)%nat
  /\ (forall c, JsString.occurs c (createCacheKey text) = true -> isWhitespace c = false)
  /\ (forall prefix rest other,
        String.length prefix = 100%nat ->
        createCacheKey (prefix ++ rest) = createCacheKey (prefix ++ other)).
Proof.
  unfold createCacheKey. split; [|split].
  - eapply Nat.le_trans; [apply replaceRuns_length|apply substring_length_le].
  - intros c. apply replaceRuns_no_whitespace.
  - intros prefix rest other Hlen. rewrite <- Hlen, !substring_prefix. reflexivity.
Qed.

(** Two pages that share their first 100 characters share a key. *)
Lemma createCacheKey_witness :
  createCacheKey ("Shipping policy: orders ship within two business days and arrive in three to five days by courier. S" ++ "Returns within thirty days.")
  = createCacheKey ("Shipping policy: orders ship within two business days and arrive in three to five days by courier. S" ++ "No returns.").
Proof.
  apply (proj2 (proj2 (createCacheKey_short_and_prefix_only ""))).
  reflexivity.
Defined.

Lemma mapGet_mapSet_same (key : string) (value : list float) (cache : Cache) :
  mapGet key (mapSet key value cache) = Some value.
Proof.
  induction cache as [|[k v] cache IH]; simpl.
  - now rewrite String.eqb_refl.
  - destruct (String.eqb k key) eqn:E; simpl; rewrite E; [reflexivity|exact IH].
Qed.

Lemma mapGet_mapSet_other (key other : string) (value : list float) (cache : Cache) :
  other <> key -> mapGet other (mapSet key value cache) = mapGet other cache.
Proof.
  intros Hne. induction cache as [|[k v] cache IH]; simpl.
  - apply String.eqb_neq in Hne. rewrite String.eqb_sym in Hne. now rewrite Hne.
  - destruct (String.eqb k key) eqn:E; simpl.
    + apply String.eqb_eq in E. subst k.
      assert (String.eqb key other = false) as ->
          by (apply String.eqb_neq; congruence).
      reflexivity.
    + destruct (String.eqb k other); [reflexivity|exact IH].
Qed.

(** Property X13.  Once a key is cached, no later call changes the embedding
    stored under it, whether that call hits the cache, stores a new embedding
    or fails. *)
Theorem generateEmbedding_keeps_entries
  (embed : string -> Outcome (list float)) (text key : string) (st : State.t)
  (cached : list float) :
  mapGet key (State.embeddingsCache st) = Some cached ->
  mapGet key (State.embeddingsCache (snd (generateEmbedding embed text st)))
  = Some cached.
Proof.
  intros Hkey. unfold generateEmbedding.
  destruct (mapGet (createCacheKey text) (State.embeddingsCache st)) as [v|] eqn:E;
    [exact Hkey|].
  destruct (embed _) as [embedding|e]; cbn [snd State.embeddingsCache]; [|exact Hkey].
  rewrite mapGet_mapSet_other; [exact Hkey|]. intros ->. congruence.
Qed.

(** Property X14.  After one successful call for a text, a call for any text
    with the same cache key returns the first embedding, although the texts
    may differ, and sends no further request. *)
Theorem generateEmbedding_reuses_by_key
  (embed : string -> Outcome (list float)) (first second : string) (st : State.t)
  (embedding : list float) :
  mapGet (createCacheKey first) (State.embeddingsCache st) = None ->
  embed (String.substring 0 8191 first) = Returns embedding ->
  createCacheKey second = createCacheKey first ->
  let afterFirst := generateEmbedding embed first st in
  let afterSecond := generateEmbedding embed second (snd afterFirst) in
  fst afterFirst = Returns embedding
  /\ fst afterSecond = Returns embedding
  /\ State.requests (snd afterSecond)
     = String.substring 0 8191 first :: State.requests st.
Proof.
  intros Hmiss Hembed Hkey afterFirst afterSecond.
  assert (H1 : afterFirst
               = (Returns embedding,
                  {| State.embeddingsCache :=
                       mapSet (createCacheKey first) embedding (State.embeddingsCache st);
                     State.requests := String.substring 0 8191 first :: State.requests st |})).
  { unfold afterFirst, generateEmbedding. now rewrite Hmiss, Hembed. }
  subst afterSecond. rewrite H1. cbn [fst snd].
  unfold generateEmbedding. cbn [State.embeddingsCache].
  rewrite Hkey, mapGet_mapSet_same. cbn [fst snd State.requests]. auto.
Qed.

(** Two product pages that differ only after their first 100 characters. *)
Lemma generateEmbedding_reuses_witness :
  let page (tail : string) :=
    "Shipping policy: orders ship within two business days and arrive in three to five days. Returns are accepted within "
      ++ tail in
  let embed (input : string) : Outcome (list float) :=
    if String.eqb input (page "thirty days") then Returns [1%float; 0%float]
    else Returns [0%float; 1%float] in
  let empty := {| State.embeddingsCache := []; State.requests := [] |} in
  fst (generateEmbedding embed (page "no returns at all")
         (snd (generateEmbedding embed (page "thirty days") empty)))
  = Returns [1%float; 0%float].
Proof.
  intros page embed empty.
  refine (proj1 (proj2 (generateEmbedding_reuses_by_key embed (page "thirty days")
                          (page "no returns at all") empty [1%float; 0%float]
                          _ _ _))); vm_compute; reflexivity.
Defined.

(** The cached entry of the witness above survives a later failing call. *)
Lemma generateEmbedding_keeps_witness :
  let st := {| State.embeddingsCache := [("refund_policy", [1%float])];
               State.requests := [] |} in
  mapGet "refund_policy"
    (State.embeddingsCache
       (snd (generateEmbedding (fun _ => Throws "rate limited") "Where is my order?" st)))
  = Some [1%float].
Proof.
  intros st.
  exact (generateEmbedding_keeps_entries (fun _ => Throws "rate limited")
           "Where is my order?" "refund_policy" st [1%float] eq_refl).
Defined.

End CacheProps.

(** ** Chunking *)

Section ChunkProps.
Open Scope string_scope.
Open Scope Z_scope.
Import JsText EmbeddingService.

Lemma trimEnd_idempotent (s : string) : trimEnd (trimEnd s) = trimEnd s.
Proof.
  induction s as [|c s IH]; simpl; [reflexivity|].
  destruct (trimEnd s) as [|d t] eqn:E.
  - destruct (isWhitespace c) eqn:Ec; simpl; [reflexivity|now rewrite Ec].
  - simpl in IH. simpl. destruct (trimEnd t) as [|d' t'] eqn:Et.
    + destruct (isWhitespace d) eqn:Ed; [discriminate IH|].
      injection IH as IH. now rewrite IH.
    + now rewrite IH.
Qed.

Lemma trimEnd_head (c : ascii) (s : string) :
  isWhitespace c = false -> exists t, trimEnd (String c s) = String c t.
Proof.
  intros Hc. simpl. destruct (trimEnd s); [rewrite Hc|]; eauto.
Qed.

Lemma trimStart_head (s : string) :
  trimStart s = "" \/ exists c t, trimStart s = String c t /\ isWhitespace c = false.
Proof.
  unfold trimStart. induction s as [|c s IH]; simpl; [now left|].
  destruct (isWhitespace c) eqn:E; [exact IH|]. right. eauto.
Qed.

(** [trim] leaves no white space at either end. *)
Lemma trim_idempotent (s : string) : trim (trim s) = trim s.
Proof.
  unfold trim. destruct (trimStart_head s) as [->|(c & t & -> & Hc)]; [reflexivity|].
  destruct (trimEnd_head c t Hc) as [t' Ht]. rewrite Ht.
  unfold trimStart. cbn [dropWhile]. rewrite Hc. rewrite <- Ht. apply trimEnd_idempotent.
Qed.

(** More fuel than words changes nothing. *)
Lemma chunkLoop_fuel (chunkSize step : nat) :
  (0 < step)%nat ->
  forall fuel words,
    (List.length words <= fuel)%nat ->
    chunkLoop fuel chunkSize step words
    = chunkLoop (List.length words) chunkSize step words.
Proof.
  intros Hstep fuel. induction fuel as [fuel IH] using lt_wf_ind.
  intros words Hlen. destruct words as [|w words]; [destruct fuel; reflexivity|].
  destruct fuel as [|fuel]; [simpl in Hlen; lia|].
  cbn [List.length chunkLoop].
  assert (Hskip : (List.length (skipn step (w :: words)) <= List.length words)%nat).
  { rewrite length_skipn. cbn [List.length]. lia. }
  rewrite (IH fuel) by (simpl in Hlen; lia).
  rewrite (IH (List.length words)) by (simpl in Hlen; lia).
  reflexivity.
Qed.

Lemma chunkLoop_windows (chunkSize step : nat) :
  forall fuel words chunk,
    In chunk (chunkLoop fuel chunkSize step words) ->
    (50 < String.length chunk)%nat
    /\ exists k, chunk = trim (String.concat " " (firstn chunkSize (skipn (k * step) words))).
Proof.
  induction fuel as [|fuel IH]; intros words chunk; simpl; [tauto|].
  destruct words as [|w words]; [simpl; tauto|].
  set (window := String.concat " " (firstn chunkSize (w :: words))).
  assert (Hrest : In chunk (chunkLoop fuel chunkSize step (skipn step (w :: words))) ->
                  (50 < String.length chunk)%nat
                  /\ exists k, chunk = trim (String.concat " "
                                               (firstn chunkSize
                                                  (skipn (k * step) (w :: words))))).
  { intros H. destruct (IH _ _ H) as (Hlen & k & Hk). split; [exact Hlen|].
    exists (S k). rewrite Hk. simpl Nat.mul. rewrite (Nat.add_comm step), <- skipn_skipn.
    reflexivity. }
  destruct (Nat.ltb 50 (String.length (trim window))) eqn:E; [|exact Hrest].
  intros [<-|H]; [|now apply Hrest].
  apply Nat.ltb_lt in E. split; [exact E|]. exists 0%nat. reflexivity.
Qed.

Lemma chunkLoop_count (chunkSize step : nat) :
  (0 < step)%nat ->
  forall fuel words,
    (List.length (chunkLoop fuel chunkSize step words) * step
     <= List.length words + (step - 1))%nat.
Proof.
  intros Hstep. induction fuel as [|fuel IH]; intros words; [cbn; lia|].
  destruct words as [|w words]; [cbn; lia|].
  cbn [chunkLoop].
  specialize (IH (skipn step (w :: words))). rewrite length_skipn in IH.
  set (rest := chunkLoop fuel chunkSize step (skipn step (w :: words))) in *.
  cbn [List.length] in IH.
  assert (Hcons : (S (List.length rest) * step
                   <= S (List.length words) + (step - 1))%nat).
  { destruct (Nat.le_gt_cases step (S (List.length words))) as [Hle|Hgt]; [nia|].
    destruct (List.length rest) as [|n]; nia. }
  destruct (Nat.ltb 50 _); cbn [List.length]; nia.
Qed.

(** Property X15.  Every chunk [chunkContent] returns is longer than 50
    characters, has no white space at either end, and is the trimmed,
    space-joined window of at most [chunkSize] consecutive words that starts
    at a multiple of [chunkSize - overlap] words; there are at most one chunk
    per [chunkSize - overlap] words, rounded up. *)
Theorem chunkContent_windows (chunkSize overlap : nat) (content : string) :
  (overlap < chunkSize)%nat ->
  let words := splitWhitespace content in
  let chunks := chunkContentWith chunkSize overlap content in
  (forall chunk, In chunk chunks ->
     (50 < String.length chunk)%nat
     /\ trim chunk = chunk
     /\ exists k window,
          window = firstn chunkSize (skipn (k * (chunkSize - overlap)) words)
          /\ (List.length window <= chunkSize)%nat
          /\ chunk = trim (String.concat " " window))
  /\ (List.length chunks * (chunkSize - overlap)
      <= List.length words + (chunkSize - overlap - 1))%nat
  /\ (forall fuel, (List.length words <= fuel)%nat ->
        chunkLoop fuel chunkSize (chunkSize - overlap) words = chunks).
Proof.
  intros Hov words chunks. subst chunks. unfold chunkContentWith. fold words.
  split; [|split].
  - intros chunk Hin. destruct (chunkLoop_windows _ _ _ _ _ Hin) as (Hlen & k & Hk).
    split; [exact Hlen|]. split; [rewrite Hk; apply trim_idempotent|].
    exists k, (firstn chunkSize (skipn (k * (chunkSize - overlap)) words)).
    split; [reflexivity|]. split; [apply firstn_le_length|exact Hk].
  - apply chunkLoop_count. lia.
  - intros fuel Hfuel. apply chunkLoop_fuel; [lia|exact Hfuel].
Qed.

(** A page of nineteen words is its own single chunk under the default
    sizes. *)
Lemma chunkContent_witness :
  let page :=
    "Orders ship within two business days and arrive in three to five days; tracking is sent by email at dispatch." in
  In page (chunkContent page)
  /\ (50 < String.length page)%nat
  /\ trim page = page.
Proof.
  intros page.
  assert (Hsizes : (50 < 512)%nat) by (apply Nat.ltb_lt; vm_compute; reflexivity).
  assert (Hin : In page (chunkContentWith 512 50 page)) by (vm_compute; left; reflexivity).
  split; [exact Hin|].
  exact (match proj1 (chunkContent_windows 512 50 page Hsizes) page Hin with
         | conj H1 (conj H2 _) => conj H1 H2
         end).
Defined.

End ChunkProps.

(** ** Semantic search: ranking and failures *)

Section SearchRankingProps.
Open Scope string_scope.
Open Scope Z_scope.
Import VectorEmbeddings.
Open Scope Q_scope.

Variable getTrainingUrls : string -> Outcome (option (list TrainingUrl.t)).
Variable generateQueryEmbedding : string -> Outcome unit.
Variable similarityToQuery : string -> string -> Outcome Q.
Variable chunkContent : string -> list string.

Lemma collect_length (query : string) (threshold : Q) (urls : list TrainingUrl.t) :
  (List.length (collect similarityToQuery chunkContent query threshold urls)
   <= List.length urls)%nat.
Proof.
  induction urls as [|u urls IH]; simpl; [lia|].
  destruct (processSource _ _ _ _ u); simpl; lia.
Qed.


(** Property X17.  [semanticSearch] answers with no results and [totalSources
    = 0], still reporting the threshold, when the stored sources cannot be
    read, are missing or empty, or when the query embedding fails; and it
    never returns more results than [totalSources]. *)
Theorem semanticSearch_failures_give_empty_answer
  (userId query : string) (level : QualityLevel) :
  let response :=
    semanticSearch getTrainingUrls generateQueryEmbedding similarityToQuery
      chunkContent userId query level in
  ((exists e, getTrainingUrls userId = Throws e)
   \/ getTrainingUrls userId = Returns None
   \/ getTrainingUrls userId = Returns (Some [])
   \/ (exists e, generateQueryEmbedding query = Throws e) ->
   response = noResults (thresholdOf level))
  /\ (List.length (SearchResponse.results response)
      <= SearchResponse.totalSources response)%nat.
Proof.
  intros response. subst response. unfold semanticSearch. split.
  - intros [[e ->]|[->|[->|[e He]]]]; try reflexivity.
    destruct (getTrainingUrls userId) as [[urls|]|e']; try reflexivity.
    destruct (Nat.eqb (List.length urls) 0); [reflexivity|].
    destruct (Nat.eqb (List.length (filter isCompleted urls)) 0); [reflexivity|].
    now rewrite He.
  - cbv zeta.
    destruct (getTrainingUrls userId) as [[urls|]|e']; try (cbn; lia).
    destruct (Nat.eqb (List.length urls) 0); try (cbn; lia).
    destruct (Nat.eqb (List.length (filter isCompleted urls)) 0); try (cbn; lia).
    destruct (generateQueryEmbedding query); try (cbn; lia).
    cbn [SearchResponse.results SearchResponse.totalSources].
    rewrite length_firstn, sort_length.
    eapply Nat.le_trans; [apply Nat.le_min_r|apply collect_length].
Qed.

End SearchRankingProps.

Section SearchRankingExamples.
Open Scope string_scope.
Open Scope Z_scope.
Import VectorEmbeddings.
Open Scope Q_scope.


(** A failing embedding of the query gives the empty answer. *)
Lemma semanticSearch_failure_witness :
  semanticSearch Fixtures.trainingUrls (fun _ => Throws "embedding unavailable")
    Fixtures.similarityScores (fun content => [content]) "merchant-1"
    "When will my order arrive?" balanced
  = noResults (thresholdOf balanced).
Proof.
  apply (proj1 (semanticSearch_failures_give_empty_answer Fixtures.trainingUrls
                  (fun _ => Throws "embedding unavailable") Fixtures.similarityScores
                  (fun content => [content]) "merchant-1" "When will my order arrive?"
                  balanced)).
  right. right. right. eexists. reflexivity.
Defined.

End SearchRankingExamples.

(** ** Semantic search: a failing source is skipped *)

Section SourceIsolationProps.
Open Scope string_scope.
Open Scope Z_scope.
Import VectorEmbeddings EmbeddingService.
Open Scope Q_scope.
Open Scope list_scope.

Variable embed : string -> Outcome (list float).
Variable similarity : list float -> list float -> Outcome Q.

(** *** What a call leaves untouched *)

Lemma generateEmbedding_untouched (text key : string) (st : State.t) :
  key <> createCacheKey text ->
  mapGet key (State.embeddingsCache (snd (generateEmbedding embed text st)))
  = mapGet key (State.embeddingsCache st).
Proof.
  intros Hkey. unfold generateEmbedding.
  destruct (mapGet (createCacheKey text) (State.embeddingsCache st)); [reflexivity|].
  destruct (embed _); cbn [snd State.embeddingsCache]; [|reflexivity].
  apply mapGet_mapSet_other. congruence.
Qed.

Lemma scoreChunks_untouched (queryEmbedding : list float) (key : string)
  (chunks : list string) :
  ~ In key (map createCacheKey chunks) ->
  forall best st,
    mapGet key (State.embeddingsCache
                  (snd (scoreChunks embed similarity queryEmbedding chunks best st)))
    = mapGet key (State.embeddingsCache st).
Proof.
  induction chunks as [|chunk rest IH]; intros Hkey best st; [reflexivity|].
  cbn [map In] in Hkey. cbn [scoreChunks].
  pose proof (generateEmbedding_untouched chunk key st) as Hone.
  destruct (generateEmbedding embed chunk st) as [[embedding|e] st1]; cbn [snd] in *;
    [|apply Hone; intuition congruence].
  destruct (similarity queryEmbedding embedding); cbn [snd];
    [|apply Hone; intuition congruence].
  rewrite IH by tauto. apply Hone. intuition congruence.
Qed.

Lemma searchSource_untouched (queryEmbedding : list float) (threshold : Q)
  (key : string) (u : TrainingUrl.t) (st : State.t) :
  ~ In key (cacheKeysOf u) ->
  mapGet key (State.embeddingsCache
                (snd (searchSource embed similarity queryEmbedding threshold u st)))
  = mapGet key (State.embeddingsCache st).
Proof.
  unfold cacheKeysOf, searchSource.
  destruct (TrainingUrl.crawledContent u) as [content|]; [|reflexivity].
  intros Hkey. destruct (negb (JsString.truthy content)); [reflexivity|].
  pose proof (scoreChunks_untouched queryEmbedding key _ Hkey (0, "") st) as Hall.
  destruct (scoreChunks _ _ _ _ _ _) as [[[b c]|e] st1]; exact Hall.
Qed.

Lemma searchSources_untouched (queryEmbedding : list float) (threshold : Q)
  (key : string) (urls : list TrainingUrl.t) :
  (forall u, In u urls -> ~ In key (cacheKeysOf u)) ->
  forall st,
    mapGet key (State.embeddingsCache
                  (snd (searchSources embed similarity queryEmbedding threshold urls st)))
    = mapGet key (State.embeddingsCache st).
Proof.
  induction urls as [|u urls IH]; intros Hkey st; [reflexivity|].
  cbn [searchSources].
  pose proof (searchSource_untouched queryEmbedding threshold key u st
                (Hkey u (or_introl eq_refl))) as Hone.
  assert (Hrest : forall u', In u' urls -> ~ In key (cacheKeysOf u'))
    by (intros u' Hu'; apply Hkey; now right).
  destruct (searchSource _ _ _ _ u st) as [[r|] st1]; cbn [snd] in Hone.
  - specialize (IH Hrest st1).
    destruct (searchSources _ _ _ _ urls st1) as [results st2]. cbn [snd] in *.
    congruence.
  - rewrite IH by exact Hrest. exact Hone.
Qed.

(** *** What a call depends on *)

Lemma generateEmbedding_agree (P : string -> Prop) (text : string) (st st' : State.t) :
  P (createCacheKey text) -> agreeOn P st st' ->
  fst (generateEmbedding embed text st) = fst (generateEmbedding embed text st')
  /\ agreeOn P (snd (generateEmbedding embed text st))
       (snd (generateEmbedding embed text st')).
Proof.
  intros Hkey Hagree. unfold generateEmbedding. rewrite <- (Hagree _ Hkey).
  destruct (mapGet (createCacheKey text) (State.embeddingsCache st)); [auto|].
  destruct (embed _) as [embedding|e]; cbn [fst snd]; (split; [reflexivity|]);
    [|exact Hagree].
  intros key Hp. cbn [State.embeddingsCache].
  destruct (String.eqb_spec key (createCacheKey text)) as [->|Hne].
  - now rewrite !mapGet_mapSet_same.
  - rewrite !mapGet_mapSet_other by congruence. now apply Hagree.
Qed.

Lemma scoreChunks_agree (P : string -> Prop) (queryEmbedding : list float)
  (chunks : list string) :
  (forall chunk, In chunk chunks -> P (createCacheKey chunk)) ->
  forall best st st',
    agreeOn P st st' ->
    fst (scoreChunks embed similarity queryEmbedding chunks best st)
    = fst (scoreChunks embed similarity queryEmbedding chunks best st')
    /\ agreeOn P (snd (scoreChunks embed similarity queryEmbedding chunks best st))
         (snd (scoreChunks embed similarity queryEmbedding chunks best st')).
Proof.
  induction chunks as [|chunk rest IH]; intros Hkeys best st st' Hagree; [now split|].
  cbn [scoreChunks].
  destruct (generateEmbedding_agree P chunk st st' (Hkeys chunk (or_introl eq_refl)) Hagree)
    as [Hout Hnext].
  destruct (generateEmbedding embed chunk st) as [out st1].
  destruct (generateEmbedding embed chunk st') as [out' st1'].
  cbn [fst snd] in Hout, Hnext. subst out'.
  destruct out as [embedding|e]; [|now split].
  destruct (similarity queryEmbedding embedding); [|now split].
  apply IH; [|exact Hnext]. intros c Hc. apply Hkeys. now right.
Qed.

Lemma searchSource_agree (P : string -> Prop) (queryEmbedding : list float)
  (threshold : Q) (u : TrainingUrl.t) (st st' : State.t) :
  (forall key, In key (cacheKeysOf u) -> P key) ->
  agreeOn P st st' ->
  fst (searchSource embed similarity queryEmbedding threshold u st)
  = fst (searchSource embed similarity queryEmbedding threshold u st')
  /\ agreeOn P (snd (searchSource embed similarity queryEmbedding threshold u st))
       (snd (searchSource embed similarity queryEmbedding threshold u st')).
Proof.
  unfold cacheKeysOf, searchSource.
  destruct (TrainingUrl.crawledContent u) as [content|]; [|now split].
  intros Hkeys Hagree. destruct (negb (JsString.truthy content)); [now split|].
  assert (Hchunks : forall chunk, In chunk (chunksOf chunkContent content) ->
                                  P (createCacheKey chunk)).
  { intros chunk Hin. apply Hkeys. now apply in_map. }
  destruct (scoreChunks_agree P queryEmbedding _ Hchunks (0, "") st st' Hagree)
    as [Hout Hnext].
  destruct (scoreChunks _ _ _ _ _ st) as [out st1].
  destruct (scoreChunks _ _ _ _ _ st') as [out' st1'].
  cbn [fst snd] in Hout, Hnext. subst out'.
  destruct out as [[b c]|e]; now split.
Qed.

Lemma searchSources_agree (P : string -> Prop) (queryEmbedding : list float)
  (threshold : Q) (urls : list TrainingUrl.t) :
  (forall u, In u urls -> forall key, In key (cacheKeysOf u) -> P key) ->
  forall st st',
    agreeOn P st st' ->
    fst (searchSources embed similarity queryEmbedding threshold urls st)
    = fst (searchSources embed similarity queryEmbedding threshold urls st').
Proof.
  induction urls as [|u urls IH]; intros Hkeys st st' Hagree; [reflexivity|].
  cbn [searchSources].
  destruct (searchSource_agree P queryEmbedding threshold u st st'
              (Hkeys u (or_introl eq_refl)) Hagree) as [Hout Hnext].
  destruct (searchSource _ _ _ _ u st) as [out st1].
  destruct (searchSource _ _ _ _ u st') as [out' st1'].
  cbn [fst snd] in Hout, Hnext. subst out'.
  assert (Hrest : forall u', In u' urls -> forall key, In key (cacheKeysOf u') -> P key)
    by (intros u' Hu'; apply Hkeys; now right).
  specialize (IH Hrest st1 st1' Hnext).
  destruct out as [r|]; [|exact IH].
  destruct (searchSources _ _ _ _ urls st1) as [results st2].
  destruct (searchSources _ _ _ _ urls st1') as [results' st2'].
  cbn [fst] in *. now rewrite IH.
Qed.

(** *** The failing source *)

(** A chunk whose request throws, reached with its key not yet cached, ends
    the loop over the chunks with an exception. *)
Lemma scoreChunks_throws (queryEmbedding : list float) (chunk e : string)
  (unscored : list string) :
  embed (String.substring 0 8191 chunk) = Throws e ->
  forall scored best st,
    mapGet (createCacheKey chunk) (State.embeddingsCache st) = None ->
    ~ In (createCacheKey chunk) (map createCacheKey scored) ->
    exists e',
      fst (scoreChunks embed similarity queryEmbedding (scored ++ chunk :: unscored)
             best st)
      = Throws e'.
Proof.
  intros Hthrow. induction scored as [|c scored IH]; intros best st Hmiss Hfresh.
  - cbn [app scoreChunks]. unfold generateEmbedding. rewrite Hmiss, Hthrow.
    cbn [fst]. eauto.
  - cbn [map In] in Hfresh. cbn [app scoreChunks].
    pose proof (generateEmbedding_untouched c (createCacheKey chunk) st) as Hone.
    destruct (generateEmbedding embed c st) as [[embedding|e0] st1]; cbn [snd] in Hone;
      [|cbn [fst]; eauto].
    destruct (similarity queryEmbedding embedding); [|cbn [fst]; eauto].
    apply IH; [|tauto]. rewrite Hone by (intros H; apply Hfresh; left; now rewrite H).
    exact Hmiss.
Qed.

Lemma searchSources_app (queryEmbedding : list float) (threshold : Q)
  (l1 l2 : list TrainingUrl.t) (st : State.t) :
  fst (searchSources embed similarity queryEmbedding threshold (l1 ++ l2) st)
  = fst (searchSources embed similarity queryEmbedding threshold l1 st)
    ++ fst (searchSources embed similarity queryEmbedding threshold l2
              (snd (searchSources embed similarity queryEmbedding threshold l1 st))).
Proof.
  revert st. induction l1 as [|u l1 IH]; intros st; [reflexivity|].
  cbn [app searchSources].
  destruct (searchSource _ _ _ _ u st) as [[r|] st1]; [|apply IH].
  specialize (IH st1).
  destruct (searchSources _ _ _ _ (l1 ++ l2) st1) as [results st2].
  destruct (searchSources _ _ _ _ l1 st1) as [results1 st3].
  cbn [fst snd] in *. now rewrite IH.
Qed.

(** Property X18.  A source for which the request for the embedding of a chunk
    throws is skipped. When that chunk is reached with its cache key not yet
    cached, and no other source has a chunk with a cache key of the failing
    source, the search returns the results it returns when the failing source
    is not stored at all (provided another completed source is). *)
Theorem semanticSearch_skips_failing_source
  (withSource withoutSource : string -> Outcome (option (list TrainingUrl.t)))
  (userId query : string) (level : QualityLevel)
  (before after : list TrainingUrl.t) (failing : TrainingUrl.t)
  (crawledContent chunk e : string) (scored unscored : list string) (st : State.t) :
  withSource userId = Returns (Some (before ++ failing :: after)) ->
  withoutSource userId = Returns (Some (before ++ after)) ->
  TrainingUrl.crawledContent failing = Some crawledContent ->
  chunksOf chunkContent crawledContent = scored ++ chunk :: unscored ->
  embed (String.substring 0 8191 chunk) = Throws e ->
  mapGet (createCacheKey chunk) (State.embeddingsCache st) = None ->
  createCacheKey chunk <> createCacheKey query ->
  ~ In (createCacheKey chunk) (map createCacheKey scored) ->
  (forall u, In u (before ++ after) ->
             forall key, In key (cacheKeysOf u) -> ~ In key (cacheKeysOf failing)) ->
  (exists u, In u (before ++ after) /\ isCompleted u = true) ->
  SearchResponse.results
    (fst (semanticSearchWithCache withSource embed similarity userId query level st))
  = SearchResponse.results
      (fst (semanticSearchWithCache withoutSource embed similarity userId query level st)).
Proof.
  intros Hwith Hwithout Hcontent Hchunks Hthrow Hmiss Hquery Hfresh Hdisjoint
    (other & Hother & Hcompleted).
  assert (Hkeys : cacheKeysOf failing = map createCacheKey (scored ++ chunk :: unscored)).
  { unfold cacheKeysOf. now rewrite Hcontent, Hchunks. }
  assert (Hown : In (createCacheKey chunk) (cacheKeysOf failing)).
  { rewrite Hkeys. apply in_map, in_or_app. right. now left. }
  assert (Hnonempty : forall l, In other l ->
             Nat.eqb (List.length l) 0 = false
             /\ Nat.eqb (List.length (filter isCompleted l)) 0 = false).
  { intros l Hl. split.
    - destruct l; [contradiction|reflexivity].
    - assert (Hf : In other (filter isCompleted l)) by (apply filter_In; auto).
      destruct (filter isCompleted l); [contradiction|reflexivity]. }
  assert (Hother' : In other (before ++ failing :: after)).
  { apply in_app_or in Hother. apply in_or_app.
    destruct Hother; [now left|right; now right]. }
  destruct (Hnonempty _ Hother) as [Ha Hb]. destruct (Hnonempty _ Hother') as [Ha' Hb'].
  unfold semanticSearchWithCache. cbv zeta. rewrite Hwith, Hwithout, Ha, Hb, Ha', Hb'.
  pose proof (generateEmbedding_untouched query (createCacheKey chunk) st Hquery) as Hst0.
  destruct (generateEmbedding embed query st) as [[queryEmbedding|e0] st0];
    [|reflexivity].
  cbn [snd] in Hst0. rewrite Hmiss in Hst0.
  assert (Hsame :
            fst (searchSources embed similarity queryEmbedding (thresholdOf level)
                   (filter isCompleted (before ++ failing :: after)) st0)
            = fst (searchSources embed similarity queryEmbedding (thresholdOf level)
                     (filter isCompleted (before ++ after)) st0)).
  { rewrite !filter_app. cbn [filter].
    destruct (isCompleted failing); [|reflexivity].
    rewrite !searchSources_app. f_equal.
    set (reached := snd (searchSources embed similarity queryEmbedding (thresholdOf level)
                           (filter isCompleted before) st0)).
    assert (Hreached : mapGet (createCacheKey chunk) (State.embeddingsCache reached) = None).
    { unfold reached. rewrite searchSources_untouched; [exact Hst0|].
      intros u Hu Hin. apply filter_In in Hu. destruct Hu as [Hu _].
      apply (Hdisjoint u (in_or_app _ _ _ (or_introl Hu)) _ Hin Hown). }
    cbn [searchSources].
    assert (Hskipped :
              fst (searchSource embed similarity queryEmbedding (thresholdOf level)
                     failing reached) = None
              /\ agreeOn (fun key => ~ In key (cacheKeysOf failing))
                   (snd (searchSource embed similarity queryEmbedding (thresholdOf level)
                           failing reached))
                   reached).
    { split.
      - unfold searchSource. rewrite Hcontent.
        destruct (negb (JsString.truthy crawledContent)); [reflexivity|].
        rewrite Hchunks.
        destruct (scoreChunks_throws queryEmbedding chunk e unscored Hthrow scored
                    (0, "") reached Hreached Hfresh) as [e' He'].
        destruct (scoreChunks _ _ _ _ _ _) as [out st1]. cbn [fst] in He'. now subst out.
      - intros key Hkey. now apply searchSource_untouched. }
    destruct Hskipped as [Hnone Hagree].
    destruct (searchSource _ _ _ _ failing reached) as [out afterFailing].
    cbn [fst snd] in Hnone, Hagree. subst out.
    apply (searchSources_agree (fun key => ~ In key (cacheKeysOf failing)));
      [|exact Hagree].
    intros u Hu key Hin. apply filter_In in Hu. destruct Hu as [Hu _].
    apply (Hdisjoint u (in_or_app _ _ _ (or_intror Hu)) _ Hin). }
  destruct (searchSources _ _ _ _ (filter isCompleted (before ++ failing :: after)) st0)
    as [results st1].
  destruct (searchSources _ _ _ _ (filter isCompleted (before ++ after)) st0)
    as [results' st1'].
  cbn [fst] in Hsame. subst results'. reflexivity.
Qed.

End SourceIsolationProps.

Section SourceIsolationExamples.
Open Scope string_scope.
Open Scope Z_scope.
Import VectorEmbeddings EmbeddingService.
Open Scope Q_scope.
Open Scope list_scope.

(** With the request for the returns page failing, the search answers as if
    only the shipping page were stored. *)
Lemma semanticSearch_skips_witness :
  let embed := fun (input : string) =>
    if JsString.startsWith "Returns" input then Throws "rate limited"%string
    else Returns [1%float; 0%float] in
  let similarity := fun (a b : list float) => Returns (71 # 100) in
  let empty := {| State.embeddingsCache := []; State.requests := [] |} in
  SearchResponse.results
    (fst (semanticSearchWithCache Fixtures.trainingUrls embed similarity "merchant-1"
            "When will my order arrive?" balanced empty))
  = SearchResponse.results
      (fst (semanticSearchWithCache (fun _ => Returns (Some [Fixtures.pageAbove])) embed
              similarity "merchant-1" "When will my order arrive?" balanced empty)).
Proof.
  intros embed similarity empty.
  eapply (semanticSearch_skips_failing_source embed similarity Fixtures.trainingUrls
            (fun _ => Returns (Some [Fixtures.pageAbove])) "merchant-1"
            "When will my order arrive?" balanced [] [Fixtures.pageAbove]
            Fixtures.pageBelow _ _ "rate limited" [] [] empty).
  - reflexivity.
  - reflexivity.
  - reflexivity.
  - reflexivity.
  - reflexivity.
  - reflexivity.
  - vm_compute. discriminate.
  - intros [].
  - intros u [<-|[]] key [<-|[]] [Hkey|[]]. vm_compute in Hkey. discriminate.
  - exists Fixtures.pageAbove. split; [left|]; reflexivity.
Defined.

End SourceIsolationExamples.

(** ** The effects of [processIncomingEmail] on the store *)

(** The collaborating services are modelled by what they answer; what they
    store or send themselves is outside the model.  The statements of this
    part are therefore about the storage and delivery calls that
    [processIncomingEmail], [escalateEmail] and [sendEmpathicAutoResponse]
    make themselves. *)

Section PipelineEffects.
Open Scope string_scope.
Open Scope Z_scope.
Import AutoResponder Effects.
Open Scope list_scope.

Variable svc : Services.t.
Variable userId : string.
Variable emailData : EmailData.t.

Ltac run :=
  unfold processIncomingEmail, escalateEmail, findMatchingRule, getAutoResponderRules,
    getSystemSettings, createEmail, updateEmail, createEscalationQueue, createActivityLog,
    createAutomationApprovalItem, resolveIdentifier, updateAutoResponderRule,
    tryCatch, bind, await, ret, throw, setEmails, findEmail;
  cbn [fst snd Email.id Store.emails Store.escalationQueue Store.approvalQueue
       Store.activityLogs Store.rules Store.settings Store.deliveryAttempts
       Store.nextEmailId map].

Ltac simp_store := repeat (progress (cbn; rewrite ?Nat.eqb_refl)).

Lemma sendEmpathicAutoResponse_onlyDelivers
  (customerEmail content subject : string) (s : Store.t) :
  onlyDelivers (userId, replyTo customerEmail subject content) s
    (snd (sendEmpathicAutoResponse svc userId customerEmail content subject s)).
Proof.
  unfold sendEmpathicAutoResponse, tryCatch, bind, await, ret, sendEmail, onlyDelivers,
    replyTo.
  destruct (isValidEmailForProduction customerEmail); simpl; [|tauto].
  destruct (Services.validateResponse svc content userId) as [v|e]; simpl; [|tauto].
  destruct (SafetyValidation.approved v); simpl; [|tauto].
  destruct (Services.sendEmail svc userId _); simpl; tauto.
Qed.

Lemma onlyDelivers_refl attempt s : onlyDelivers attempt s s.
Proof. unfold onlyDelivers. tauto. Qed.

Lemma sendEmpathicAutoResponse_blocked
  (customerEmail content subject : string) (s : Store.t) :
  isValidEmailForProduction customerEmail = false ->
  Store.deliveryAttempts (snd (sendEmpathicAutoResponse svc userId customerEmail content subject s))
  = Store.deliveryAttempts s.
Proof.
  intros Hblocked. unfold sendEmpathicAutoResponse, tryCatch, bind, await, ret.
  now rewrite Hblocked.
Qed.

(** The rule [findMatchingRule] settles on is a stored, active rule of the
    merchant. *)
Lemma matched_rule_stored (category : string) (confidence : Z) (rules : list Rule.t)
  (rule : Rule.t) :
  match find (fun rule => String.eqb (Rule.classification rule) category
                          && Rule.isActive rule)%bool
             (filter (fun r => String.eqb (Rule.userId r) userId) rules) with
  | Some rule => Some rule
  | None =>
      if confidence <? 70 then
        find (fun rule => String.eqb (Rule.classification rule) "general"
                          && Rule.isActive rule)%bool
             (filter (fun r => String.eqb (Rule.userId r) userId) rules)
      else None
  end = Some rule ->
  In rule rules /\ Rule.userId rule = userId /\ Rule.isActive rule = true.
Proof.
  assert (Hfound : forall p,
             find (fun rule => p rule && Rule.isActive rule)%bool
                  (filter (fun r => String.eqb (Rule.userId r) userId) rules) = Some rule ->
             In rule rules /\ Rule.userId rule = userId /\ Rule.isActive rule = true).
  { intros p Hfind. apply find_some in Hfind. destruct Hfind as [Hin Hp].
    apply filter_In in Hin. destruct Hin as [Hin Huser].
    apply andb_true_iff in Hp. apply String.eqb_eq in Huser. tauto. }
  destruct (find _ _) as [r|] eqn:Hexact.
  - intros [= ->]. exact (Hfound _ Hexact).
  - destruct (confidence <? 70); [|discriminate]. apply Hfound.
Qed.

(** The skeleton of a run: the triage, the rule lookup, the approval
    setting, and the automation step [h] with its effect on the store. *)
Ltac pipeline leaf :=
  run;
  destruct (Services.linkEmailToThread _ _ _ _ _);
  destruct (sentimentEscalationOf _) as [esc reason] eqn:Hsentiment;
  (destruct (_ || esc)%bool eqn:Htriage; [leaf|]);
  cbn [fst snd Store.rules Store.settings];
  (destruct (match find _ _ with Some rule => Some rule | None => _ end) as [rule|] eqn:Hrule;
   [|leaf]);
  cbn [fst snd Store.rules Store.settings];
  (destruct (approvalRequiredOf _) eqn:Happroval;
   [change (existsb (String.eqb "responseContext") processIncomingEmailScope) with false;
    cbv iota; leaf|]);
  lazymatch goal with
  | Hrule : _ = Some ?rule |- context [let (o, s2) := ?h ?s1 in _] =>
      assert (Hstep : onlyDelivers
                        (userId,
                         replyTo (EmailData.fromEmail emailData) (EmailData.subject emailData)
                           (ResponseData.response
                              (generateProposedResponse svc rule emailData userId)))
                        s1 (snd (h s1))
                      /\ (isValidEmailForProduction (EmailData.fromEmail emailData) = false ->
                          Store.deliveryAttempts (snd (h s1)) = Store.deliveryAttempts s1));
      [ repeat match goal with
               | |- context [if ?b then _ else _] => destruct b
               | |- context [match ?x with Returns _ => _ | Throws _ => _ end] =>
                   destruct x
               end;
        (split;
         [ first [apply onlyDelivers_refl | apply sendEmpathicAutoResponse_onlyDelivers]
         | first [intros _; reflexivity | apply sendEmpathicAutoResponse_blocked] ])
      | destruct (h s1) as [[[|]|err] st2]; cbn [snd] in Hstep;
        destruct Hstep as ((Hemails & Hescalations & Happrovals & Hlogs & Hrules
                            & Hsettings & Hnext & Hdeliveries) & Hblocked);
        cbn [fst snd Store.emails Store.escalationQueue Store.approvalQueue
             Store.activityLogs Store.rules Store.settings Store.deliveryAttempts
             Store.nextEmailId] in *;
        leaf ]
  end.

(** Property X19.  Through its own calls [processIncomingEmail] hands at most
    one mail to the delivery channel, and that one is addressed to the sender
    of the message under the subject [Re: ...]; for a sender address that
    [isValidEmailForProduction] rejects it hands over none. *)
Theorem processIncomingEmail_delivers_at_most_once (s : Store.t) :
  let s' := snd (processIncomingEmail svc userId emailData s) in
  (Store.deliveryAttempts s' = Store.deliveryAttempts s
   \/ exists content,
        Store.deliveryAttempts s'
        = (userId, replyTo (EmailData.fromEmail emailData) (EmailData.subject emailData)
                     content)
          :: Store.deliveryAttempts s)
  /\ (isValidEmailForProduction (EmailData.fromEmail emailData) = false ->
      Store.deliveryAttempts s' = Store.deliveryAttempts s).
Proof.
  intros s'. subst s'.
  pipeline ltac:(first
    [ split; [left|intros _]; reflexivity
    | cbn [snd Store.deliveryAttempts]; split; [|exact Hblocked];
      destruct Hdeliveries as [->| ->]; [left; reflexivity|right; eexists; reflexivity] ]).
Qed.

Lemma map_other_rows (n : nat) (patch : Email.t -> Email.t) (l : list Email.t) :
  forallb (fun e => Nat.ltb (Email.id e) n) l = true ->
  map (fun e => if Nat.eqb (Email.id e) n then patch e else e) l = l.
Proof.
  induction l as [|e l IH]; [reflexivity|].
  cbn [forallb map]. intros H. apply andb_true_iff in H. destruct H as [He Hl].
  rewrite (IH Hl). apply Nat.ltb_lt in He.
  destruct (Nat.eqb_spec (Email.id e) n); [lia|reflexivity].
Qed.

Lemma forallb_below_next (n : nat) (l : list Email.t) :
  forallb (fun e => Nat.ltb (Email.id e) n) l = true ->
  forallb (fun e => Nat.ltb (Email.id e) (S n)) l = true.
Proof.
  rewrite !forallb_forall. intros H e He. specialize (H e He).
  apply Nat.ltb_lt in H. apply Nat.ltb_lt. lia.
Qed.

(** Property X20.  In a store whose row ids are all below the next id, the
    storage calls of [processIncomingEmail] add exactly one row, with the next
    id and the submitted sender, recipient, subject, body and external
    identifier, in front of the rows that were there, which they leave exactly
    as they were; and the ids stay below the next id. This holds whatever the
    run then answers. *)
Theorem processIncomingEmail_keeps_existing_rows (s : Store.t) :
  freshIds s = true ->
  let s' := snd (processIncomingEmail svc userId emailData s) in
  exists row,
    Store.emails s' = row :: Store.emails s
    /\ Email.id row = Store.nextEmailId s
    /\ Email.userId row = userId
    /\ Email.fromEmail row = EmailData.fromEmail emailData
    /\ Email.toEmail row = EmailData.toEmail emailData
    /\ Email.subject row = EmailData.subject emailData
    /\ Email.body row = EmailData.body emailData
    /\ Email.messageId row = EmailData.messageId emailData
    /\ Store.nextEmailId s' = S (Store.nextEmailId s)
    /\ freshIds s' = true.
Proof.
  intros Hfresh s'. subst s'. unfold freshIds in *.
  pose proof (forallb_below_next _ _ Hfresh) as Hnext'.
  pipeline ltac:(unfold freshIds;
                 cbn [snd Store.emails Store.nextEmailId map];
                 try rewrite Hemails; try rewrite Hnext;
                 cbn [map Email.id]; rewrite ?Nat.eqb_refl;
                 cbn [Email.id patchClassification]; rewrite ?Nat.eqb_refl;
                 rewrite ?(map_other_rows _ _ _ Hfresh);
                 eexists; split; [reflexivity|];
                 cbn [Email.id Email.userId Email.fromEmail Email.toEmail Email.subject
                      Email.body Email.messageId patchClassification patchEscalated
                      patchResolved forallb];
                 repeat (split; [reflexivity|]);
                 apply andb_true_iff; split; [apply Nat.ltb_lt; lia|exact Hnext']).
Qed.

Ltac returned :=
  simp_store; intros Hrun; first [discriminate | injection Hrun as <- <-]; simp_store.

(** Property X21.  When [processIncomingEmail] returns, the returned object
    describes the row it stored: the row carries the returned category and
    confidence; an escalated result has [autoResponseSent = false] and a row
    with status [escalated] and an escalation reason; any other result has
    [autoResponseSent = true] and a row with status [resolved], marked as
    responded, whose [aiResponse] is the template of the rule named in
    [ruleUsed], a stored active rule of the merchant. *)
Theorem returned_result_mirrors_stored_row (s s' : Store.t) (processed : ProcessedEmail.t) :
  processIncomingEmail svc userId emailData s = (Returns processed, s') ->
  exists stored,
    findEmail (ProcessedEmail.id processed) s' = Some stored
    /\ ProcessedEmail.id processed = Store.nextEmailId s
    /\ Email.classification stored = Some (ProcessedEmail.classification processed)
    /\ Email.confidence stored = Some (ProcessedEmail.confidence processed)
    /\ if ProcessedEmail.escalated processed
       then ProcessedEmail.autoResponseSent processed = false
            /\ Email.status stored = escalated
            /\ Email.isResponded stored = false
            /\ Email.escalationReason stored <> None
       else ProcessedEmail.autoResponseSent processed = true
            /\ Email.status stored = resolved
            /\ Email.isResponded stored = true
            /\ exists rule,
                 In rule (Store.rules s)
                 /\ Rule.userId rule = userId
                 /\ Rule.isActive rule = true
                 /\ ProcessedEmail.ruleUsed processed = Some (Rule.name rule)
                 /\ Email.aiResponse stored = Some (Rule.template rule).
Proof.
  pipeline ltac:(
    try rewrite Hemails; returned; try destruct esc;
    eexists; (split; [reflexivity|]); cbn;
    repeat match goal with |- _ /\ _ => split end;
    try reflexivity; try discriminate;
    destruct (matched_rule_stored _ _ _ _ Hrule) as (Hin & Huser & Hactive);
    exists rule; repeat split; (assumption || reflexivity)).
Qed.

(** Property X22.  [processIncomingEmail] adds one entry to the escalation
    queue exactly when it returns an escalated result, for the new message and
    the merchant; its priority is [urgent] or [high] when the sentiment block
    escalated (by the words [Very angry] in its reason), and otherwise the
    priority of the classification, or [high] below confidence 40 and [medium]
    from 40 on when the classification has none. *)
Theorem escalation_queue_tracks_result (s : Store.t) :
  let run := processIncomingEmail svc userId emailData s in
  let classification :=
    classifyEmail svc (EmailData.body emailData) (EmailData.subject emailData)
      (Some userId) in
  let sentiment :=
    sentimentEscalationOf (Services.analyzeSentiment svc (EmailData.body emailData)) in
  match fst run with
  | Returns processed =>
      if ProcessedEmail.escalated processed then
        exists item,
          Store.escalationQueue (snd run) = item :: Store.escalationQueue s
          /\ EscalationItem.emailId item = Store.nextEmailId s
          /\ EscalationItem.userId item = userId
          /\ EscalationItem.priority item
             = (if fst sentiment then
                  if JsString.includes "Very angry" (snd sentiment) then urgent else high
                else
                  match ClassificationResult.priority classification with
                  | Some priority => priority
                  | None =>
                      if ClassificationResult.confidence classification <? 40
                      then high else medium
                  end)
      else Store.escalationQueue (snd run) = Store.escalationQueue s
  | Throws _ => Store.escalationQueue (snd run) = Store.escalationQueue s
  end.
Proof.
  intros run0 classification sentiment. subst run0 sentiment classification.
  pipeline ltac:(
    try (apply orb_false_iff in Htriage; destruct Htriage as [_ ->]);
    try destruct esc;
    cbn [fst snd ProcessedEmail.escalated Store.escalationQueue];
    try assumption; try reflexivity;
    try (eexists; (split; [first [reflexivity | rewrite Hescalations; reflexivity]|]);
         repeat split)).
Qed.

(** Property X23.  The rule table changes only when [processIncomingEmail]
    returns with [autoResponseSent = true]: then the trigger count of the rule
    named in [ruleUsed] is set to one more than it was; in every other run,
    returned or thrown, the rules are as before. *)
Theorem rule_counter_tracks_result (s : Store.t) :
  let run := processIncomingEmail svc userId emailData s in
  match fst run with
  | Returns processed =>
      if ProcessedEmail.autoResponseSent processed then
        exists rule,
          In rule (Store.rules s)
          /\ ProcessedEmail.ruleUsed processed = Some (Rule.name rule)
          /\ Store.rules (snd run)
             = Store.rules
                 (snd (updateAutoResponderRule (Rule.id rule) (Rule.triggerCount rule + 1) s))
      else Store.rules (snd run) = Store.rules s
  | Throws _ => Store.rules (snd run) = Store.rules s
  end.
Proof.
  intros run0. subst run0.
  pipeline ltac:(
    cbn [fst snd ProcessedEmail.autoResponseSent Store.rules];
    try assumption; try reflexivity;
    try (destruct (matched_rule_stored _ _ _ _ Hrule) as (Hin & _);
         exists rule; split; [exact Hin|]; split; [reflexivity|];
         unfold updateAutoResponderRule; cbn [snd Store.rules]; rewrite Hrules;
         reflexivity)).
Qed.

(** Property X25.  When the classifier call fails, [processIncomingEmail]
    still returns: the message is escalated as [general] with confidence 30,
    its row gets the status [escalated], no mail is handed to the delivery
    channel and no rule is touched; unless the sentiment block escalates, the
    queue entry has priority [medium] and the reason names the confidence of
    30%. *)
Theorem classifier_failure_is_escalated (s : Store.t) (e : string) :
  classificationCall svc (EmailData.body emailData) (EmailData.subject emailData)
    (Some userId) = Throws e ->
  let run := processIncomingEmail svc userId emailData s in
  let sentiment :=
    sentimentEscalationOf (Services.analyzeSentiment svc (EmailData.body emailData)) in
  fst run
  = Returns {| ProcessedEmail.id := Store.nextEmailId s;
               ProcessedEmail.classification := "general";
               ProcessedEmail.confidence := 30;
               ProcessedEmail.autoResponseSent := false;
               ProcessedEmail.escalated := true;
               ProcessedEmail.ruleUsed := None;
               ProcessedEmail.awaitingApproval := None |}
  /\ Store.deliveryAttempts (snd run) = Store.deliveryAttempts s
  /\ Store.rules (snd run) = Store.rules s
  /\ (exists stored,
        findEmail (Store.nextEmailId s) (snd run) = Some stored
        /\ Email.status stored = escalated
        /\ Email.classification stored = Some "general"
        /\ Email.confidence stored = Some 30)
  /\ (exists item,
        Store.escalationQueue (snd run) = item :: Store.escalationQueue s
        /\ (fst sentiment = false ->
            EscalationItem.priority item = medium
            /\ EscalationItem.reason item
               = "Low confidence classification (30%) or complex inquiry requiring human review")).
Proof.
  intros Hcall run0 sentiment. subst run0 sentiment.
  assert (Hfailed : classifyEmail svc (EmailData.body emailData)
                      (EmailData.subject emailData) (Some userId)
                    = classificationFailed).
  { unfold classifyEmail. now rewrite Hcall. }
  run. rewrite Hfailed.
  destruct (Services.linkEmailToThread _ _ _ _ _);
    destruct (sentimentEscalationOf _) as [[|] reason];
    simp_store;
    (split; [reflexivity|]); (split; [reflexivity|]); (split; [reflexivity|]);
    (split; [eexists; split; [reflexivity|]; repeat split|]);
    eexists; (split; [reflexivity|]); first [discriminate | intros _; split; reflexivity].
Qed.

End PipelineEffects.

Section PipelineExamples.
Open Scope string_scope.
Open Scope Z_scope.
Import AutoResponder Effects Scenario.
Open Scope list_scope.

(** A message from an address of the blocked list is not answered by mail. *)
Lemma processIncomingEmail_delivers_witness :
  Store.deliveryAttempts (snd (processIncomingEmail answering "merchant-1" fromBlocked shop))
  = Store.deliveryAttempts shop.
Proof.
  apply (proj2 (processIncomingEmail_delivers_at_most_once answering "merchant-1"
                  fromBlocked shop)).
  vm_compute. reflexivity.
Defined.

(** The second message of a merchant is stored in front of the first. *)
Lemma processIncomingEmail_keeps_witness :
  let afterFirst :=
    snd (processIncomingEmail answering "merchant-1" Fixtures.orderQuestion shop) in
  exists row,
    Store.emails
      (snd (processIncomingEmail answering "merchant-1" Fixtures.orderQuestion afterFirst))
    = row :: Store.emails afterFirst
    /\ Email.id row = 1%nat.
Proof.
  intros afterFirst.
  assert (Hfresh : freshIds afterFirst = true) by (vm_compute; reflexivity).
  destruct (processIncomingEmail_keeps_existing_rows answering "merchant-1"
              Fixtures.orderQuestion afterFirst Hfresh) as (row & Hrows & Hid & _).
  exists row. split; [exact Hrows|exact Hid].
Defined.

(** The answered order question: the stored row is resolved. *)
Lemma returned_result_witness :
  exists stored,
    findEmail 0
      (snd (processIncomingEmail answering "merchant-1" Fixtures.orderQuestion shop))
    = Some stored
    /\ Email.status stored = resolved
    /\ Email.aiResponse stored = Some "Your order is on its way.".
Proof.
  assert (Hrun : processIncomingEmail answering "merchant-1" Fixtures.orderQuestion shop
                 = (Returns {| ProcessedEmail.id := 0;
                               ProcessedEmail.classification := "order_status";
                               ProcessedEmail.confidence := 82;
                               ProcessedEmail.autoResponseSent := true;
                               ProcessedEmail.escalated := false;
                               ProcessedEmail.ruleUsed := Some "Order status";
                               ProcessedEmail.awaitingApproval := None |},
                    snd (processIncomingEmail answering "merchant-1"
                           Fixtures.orderQuestion shop)))
    by (vm_compute; reflexivity).
  destruct (returned_result_mirrors_stored_row answering "merchant-1"
              Fixtures.orderQuestion shop _ _ Hrun)
    as (stored & Hfind & _ & _ & _ & _ & Hstatus & _ & rule & Hin & _ & _ & Hused & Hresponse).
  exists stored. split; [exact Hfind|]. split; [exact Hstatus|].
  rewrite Hresponse. destruct Hin as [<-|[]]. reflexivity.
Defined.

(** With the classifier down the order question is escalated. *)
Lemma classifier_failure_witness :
  fst (processIncomingEmail failing "merchant-1" Fixtures.orderQuestion shop)
  = Returns {| ProcessedEmail.id := 0;
               ProcessedEmail.classification := "general";
               ProcessedEmail.confidence := 30;
               ProcessedEmail.autoResponseSent := false;
               ProcessedEmail.escalated := true;
               ProcessedEmail.ruleUsed := None;
               ProcessedEmail.awaitingApproval := None |}.
Proof.
  exact (proj1 (classifier_failure_is_escalated failing "merchant-1"
                  Fixtures.orderQuestion shop "classifier unavailable" eq_refl)).
Defined.

End PipelineExamples.

